(** * Eventlet: one-shot events, coroutine pool, actor, trampoline, tpool

    A shallow embedding of [eventlet/coros.py], [eventlet/hubs/__init__.py],
    [eventlet/tpool.py] and [eventlet/hubs/libevent.py].  Python objects are a small inductive type,
    attribute dictionaries are records, [dict]s are [gmap]s, queues and
    deques are lists, and every function that can raise returns a
    [result].  A fiber that switches to the hub is modelled by an
    explicit suspended outcome; what it is resumed with is a separate
    argument, supplied by whoever runs the hub's scheduled calls. *)

From Stdlib Require Import ZArith Lia.
From stdpp Require Import base option list gmap strings.

Set Warnings "-register-all".
Open Scope string_scope.
Open Scope list_scope.

(** ** Python objects *)

Module Py.

(** Objects that the embedded code passes around.  A class is known by its
    method resolution order, an instance by the order of its class and the
    message it was built with; [PyObject] is a bare [object()], which has
    nothing but its identity. *)
Inductive pyobj : Type :=
| PyNone
| PyObject (id : nat)
| PyInt (n : Z)
| PyStr (s : string)
| PyTuple (items : list pyobj)
| PyClass (mro : list string)
| PyInstance (mro : list string) (msg : string)
| PyTraceback (id : nat).

(** [o is None] *)
Definition is_None (o : pyobj) : bool :=
  match o with PyNone => true | _ => false end.

(** [isinstance(o, cls)] for a class named [cls]. *)
Definition isinstance (o : pyobj) (cls : string) : bool :=
  match o with
  | PyInstance mro _ => bool_decide (cls ∈ mro)
  | _ => false
  end.

(** [isinstance(o, tuple)] *)
Definition is_tuple (o : pyobj) : bool :=
  match o with PyTuple _ => true | _ => false end.

Definition BaseException_mro : list string := ["BaseException"; "object"].
Definition Exception_mro : list string := "Exception" :: BaseException_mro.
Definition StandardError_mro : list string := "StandardError" :: Exception_mro.
Definition AssertionError_mro : list string := "AssertionError" :: StandardError_mro.
Definition RuntimeError_mro : list string := "RuntimeError" :: StandardError_mro.
Definition ValueError_mro : list string := "ValueError" :: StandardError_mro.
Definition TypeError_mro : list string := "TypeError" :: StandardError_mro.
Definition AttributeError_mro : list string := "AttributeError" :: StandardError_mro.
Definition UnboundLocalError_mro : list string :=
  "UnboundLocalError" :: "NameError" :: StandardError_mro.
Definition ZeroDivisionError_mro : list string :=
  "ZeroDivisionError" :: "ArithmeticError" :: StandardError_mro.
Definition KeyboardInterrupt_mro : list string := "KeyboardInterrupt" :: BaseException_mro.
Definition SystemExit_mro : list string := "SystemExit" :: BaseException_mro.
Definition GreenletExit_mro : list string := "GreenletExit" :: BaseException_mro.

Definition AssertionError (msg : string) : pyobj := PyInstance AssertionError_mro msg.
Definition TypeError (msg : string) : pyobj := PyInstance TypeError_mro msg.
Definition AttributeError (msg : string) : pyobj := PyInstance AttributeError_mro msg.
Definition UnboundLocalError (msg : string) : pyobj := PyInstance UnboundLocalError_mro msg.
Definition ValueError (msg : string) : pyobj := PyInstance ValueError_mro msg.

(** The exception that propagates from [raise o]; of a tuple that is not
    empty, Python 2 raises the first item. *)
Fixpoint raise_stmt (o : pyobj) : pyobj :=
  match o with
  | PyInstance mro _ =>
      if bool_decide ("BaseException" ∈ mro) then o
      else TypeError "exceptions must be old-style classes or derived from BaseException"
  | PyClass mro =>
      if bool_decide ("BaseException" ∈ mro) then PyInstance mro ""
      else TypeError "exceptions must be old-style classes or derived from BaseException"
  | PyTuple (o0 :: _) => raise_stmt o0
  | _ => TypeError "exceptions must be old-style classes or derived from BaseException"
  end.

(** A call either returns a value or raises. *)
Inductive result (A : Type) : Type :=
| Return (a : A)
| Raise (exc : pyobj).
Arguments Return {A} a.
Arguments Raise {A} exc.

(** Code that threads a state [S] and may raise: the state reached is kept
    on both outcomes, since an exception does not undo the writes made
    before it. *)
Definition M (S A : Type) : Type := S -> S * result A.

Definition ret {S A} (a : A) : M S A := fun s => (s, Return a).
Definition raise {S A} (x : pyobj) : M S A := fun s => (s, Raise x).
Definition lift {S A} (r : result A) : M S A := fun s => (s, r).
Definition bind {S A B} (m : M S A) (k : A -> M S B) : M S B :=
  fun s => match m s with
           | (s1, Return a) => k a s1
           | (s1, Raise x) => (s1, Raise x)
           end.

(** [try: body  except ..., x: handler x]; the handler decides which
    exceptions it lets through. *)
Definition try_except {S A} (body : M S A) (handler : pyobj -> M S A) : M S A :=
  fun s => match body s with
           | (s1, Return a) => (s1, Return a)
           | (s1, Raise x) => handler x s1
           end.

(** [try: body  finally: fin]; an exception of [fin] replaces the outcome
    of [body]. *)
Definition try_finally {S A} (body : M S A) (fin : M S unit) : M S A :=
  fun s => match body s with
           | (s1, r) => match fin s1 with
                        | (s2, Return _) => (s2, r)
                        | (s2, Raise x) => (s2, Raise x)
                        end
           end.

Declare Scope py_scope.
Delimit Scope py_scope with py.
Notation "x <- m ;; k" := (bind m (fun x => k))
  (at level 100, m at next level, right associativity) : py_scope.
Notation "m ;;; k" := (bind m (fun _ => k))
  (at level 100, right associativity) : py_scope.

End Py.

Import Py.

(** ** coros.py *)

Module Coros.

(** Greenlets are known by identity. *)
Definition fiber : Type := nat.

(** [NOT_USED = object()] *)
Definition NOT_USED : pyobj := PyObject 0.

(** [o is NOT_USED] *)
Definition is_NOT_USED (o : pyobj) : bool :=
  match o with PyObject 0 => true | _ => false end.

(** One [hub.schedule_call(seconds, greenlib.switch, other, value, exc)];
    [send] leaves [exc] at its default [None]. *)
Record scheduled_call : Type := mk_call {
  seconds : Z;
  other : fiber;
  value : pyobj;
  exc : pyobj
}.

(** How a suspended fiber is resumed. *)
Inductive resumption : Type :=
| SwitchTo (v : pyobj)
| ThrowInto (e : pyobj).

(** Modelled from the spec: [greenlib.switch] is not among the sources.
    [switch_to(fiber, value)] resumes the target with [value] as the return
    of its current suspension, [throw_into(fiber, exc)] resumes it by
    raising [exc] there; [event.cancel] passes the exception as the third
    argument, so a call with an exception throws and one without switches. *)
Definition greenlib_switch (c : scheduled_call) : fiber * resumption :=
  if is_None (exc c) then (other c, SwitchTo (value c))
  else (other c, ThrowInto (exc c)).

(** The attributes of an [event] instance.  [_exc] is assigned by [send]
    only, so it is absent ([None] here) on an event never sent to. *)
Record event : Type := mk_event {
  epoch : Z;
  _result : pyobj;
  _exc : option pyobj;
  _waiters : gmap fiber bool
}.

(** The instance as [__init__] finds it: [_result] is the class attribute
    [None], nothing else is set. *)
Definition event_class : event :=
  {| epoch := 0; _result := PyNone; _exc := None; _waiters := ∅ |}.

(** [event.reset]; [now] is the reading of [time.time()]. *)
Definition reset (now : Z) (e : event) : result event :=
  if is_NOT_USED (_result e)
  then Raise (AssertionError "Trying to re-reset() a fresh event.")
  else Return {| epoch := now; _result := NOT_USED; _exc := _exc e; _waiters := ∅ |}.

(** [event.__init__] *)
Definition event_init (now : Z) : result event := reset now event_class.

(** The ways [wait] hands control back: a value, an exception, or a switch
    to the hub, in which case the call returns what the fiber is resumed
    with ([wait_resumed]). *)
Inductive wait_outcome : Type :=
| Returned (v : pyobj)
| Raised (e : pyobj)
| Switched.

(** [event.wait], called by the fiber [current]. *)
Definition wait (current : fiber) (e : event) : event * wait_outcome :=
  if is_NOT_USED (_result e) then
    ({| epoch := epoch e; _result := _result e; _exc := _exc e;
        _waiters := <[current := true]> (_waiters e) |}, Switched)
  else
    match _exc e with
    | None => (e, Raised (AttributeError "'event' object has no attribute '_exc'"))
    | Some x =>
        if is_None x then (e, Returned (_result e))
        else (e, Raised (raise_stmt x))
    end.

(** [return api.get_hub().switch()]: the end of a [wait] that switched. *)
Definition wait_resumed (r : resumption) : result pyobj :=
  match r with
  | SwitchTo v => Return v
  | ThrowInto x => Raise x
  end.

(** [Cancelled()] *)
Definition Cancelled : pyobj := PyInstance ("Cancelled" :: RuntimeError_mro) "".

(** [event.cancel]; [hub] is the list of calls scheduled on the hub. *)
Definition cancel (waiter : fiber) (e : event) (hub : list scheduled_call)
  : event * list scheduled_call :=
  match _waiters e !! waiter with
  | Some _ =>
      ({| epoch := epoch e; _result := _result e; _exc := _exc e;
          _waiters := delete waiter (_waiters e) |},
       hub ++ [mk_call 0 waiter PyNone Cancelled])
  | None => (e, hub)
  end.

(** The loop of [send]: one call per key of [_waiters], each with the
    stored result and nothing else. *)
Definition wake_calls (e : event) : list scheduled_call :=
  map (fun w => mk_call 0 w.1 (_result e) PyNone) (map_to_list (_waiters e)).

(** [event.send] *)
Definition send (result exc : pyobj) (e : event) (hub : list scheduled_call)
  : Py.result (event * list scheduled_call) :=
  if is_NOT_USED (_result e) then
    let e' := {| epoch := epoch e; _result := result; _exc := Some exc;
                 _waiters := _waiters e |} in
    Return (e', hub ++ wake_calls e')
  else Raise (AssertionError "Trying to re-send() an already-triggered event.").

(** The two states of an event. *)
Definition FRESH (e : event) : Prop := _result e = NOT_USED.
Definition TRIGGERED (e : event) : Prop := _result e <> NOT_USED.

(** *** CoroutinePool *)

(** A timer of [api.get_hub().runloop], bound to the greenlet that
    scheduled it. *)
Record rtimer : Type := mk_rtimer {
  tm_greenlet : fiber;
  tm_seconds : Z;
  tm_cancelled : bool;
  tm_called : bool
}.

Definition tm_pending (t : rtimer) : bool := negb (tm_cancelled t || tm_called t).

(** What the pool's coroutines share: the clock, the event objects by
    identity (the result event of a job is the very object the requester
    holds), the calls [send] scheduled on the hub, the runloop's timers, the
    pool's free list and what [traceback.print_exc] printed. *)
Record world : Type := mk_world {
  now : Z;
  heap : gmap nat event;
  calls : list scheduled_call;
  timers : list rtimer;
  free_items : list pyobj;
  stderr : list pyobj
}.

Definition set_event (id : nat) (e : event) (c : list scheduled_call) (w : world) : world :=
  {| now := now w; heap := <[id := e]> (heap w); calls := c; timers := timers w;
     free_items := free_items w; stderr := stderr w |}.

(** Attribute lookup [o.send], [o.reset]: only the events of the heap have
    these methods. *)
Definition the_event (o : pyobj) (attr : string) : M world (nat * event) :=
  fun w => match o with
           | PyObject id =>
               match heap w !! id with
               | Some e => (w, Return (id, e))
               | None => (w, Raise (AttributeError attr))
               end
           | _ => (w, Raise (AttributeError attr))
           end.

(** [o.send(result, exc)] *)
Definition obj_send (o result exc : pyobj) : M world unit :=
  (ie <- the_event o "send" ;;
   fun w => match send result exc ie.2 (calls w) with
            | Return (e', c') => (set_event ie.1 e' c' w, Return tt)
            | Raise x => (w, Raise x)
            end)%py.

(** [o.reset()] *)
Definition obj_reset (o : pyobj) : M world unit :=
  (ie <- the_event o "reset" ;;
   fun w => match reset (now w) ie.2 with
            | Return e' => (set_event ie.1 e' (calls w) w, Return tt)
            | Raise x => (w, Raise x)
            end)%py.

(** [o.wait()] by the fiber [current]. *)
Definition obj_wait (current : fiber) (o : pyobj) : M world wait_outcome :=
  (ie <- the_event o "wait" ;;
   fun w => match wait current ie.2 with
            | (e', out) => (set_event ie.1 e' (calls w) w, Return out)
            end)%py.

(** [(evt, func, args, kw) = recvd] *)
Definition unpack4 (recvd : pyobj) : result (pyobj * pyobj * pyobj * pyobj) :=
  match recvd with
  | PyTuple [evt; func; args; kw] => Return (evt, func, args, kw)
  | PyTuple (_ :: _ :: _ :: _ :: _ :: _) => Raise (ValueError "too many values to unpack")
  | PyTuple _ => Raise (ValueError "need more than that many values to unpack")
  | PyStr (String a (String b (String c (String d EmptyString)))) =>
      Return (PyStr (String a EmptyString), PyStr (String b EmptyString),
              PyStr (String c EmptyString), PyStr (String d EmptyString))
  | PyStr (String _ (String _ (String _ (String _ (String _ _))))) =>
      Raise (ValueError "too many values to unpack")
  | PyStr _ => Raise (ValueError "need more than that many values to unpack")
  | _ => Raise (TypeError "object is not iterable")
  end.

(** [traceback.print_exc()] *)
Definition print_exc (x : pyobj) : M world unit :=
  fun w => ({| now := now w; heap := heap w; calls := calls w; timers := timers w;
               free_items := free_items w; stderr := stderr w ++ [x] |}, Return tt).

(** Modelled from the spec: [runloop.cancel_timers] is not among the
    sources.  It cancels the still-pending timers bound to the given
    fiber.  The zero-delay calls of [send] are kept apart in [calls]. *)
Definition cancel_timers (g : fiber) : M world unit :=
  fun w => ({| now := now w; heap := heap w; calls := calls w;
               timers :=
                 map (fun t => if bool_decide (tm_greenlet t = g) && tm_pending t
                               then mk_rtimer (tm_greenlet t) (tm_seconds t) true (tm_called t)
                               else t) (timers w);
               free_items := free_items w; stderr := stderr w |}, Return tt).

(** Modelled from the spec: [pools.Pool.put] is not among the sources.  It
    returns a worker to the free list. *)
Definition put (item : pyobj) : M world unit :=
  fun w => ({| now := now w; heap := heap w; calls := calls w; timers := timers w;
               free_items := free_items w ++ [item]; stderr := stderr w |}, Return tt).

Section MainLoop.

(** The call of [func] on [args] and [kw]: user code, which may do anything
    to the shared state before it returns or raises. *)
Variable apply : pyobj -> pyobj -> pyobj -> M world pyobj.

(** The body of the [while True] of [CoroutinePool._main_loop] from
    [sender.reset()] on, [recvd] being what [sender.wait()] gave; it is run
    by the worker fiber [current]. *)
Definition _main_loop_job (current : fiber) (sender recvd : pyobj) : M world unit :=
  (obj_reset sender ;;;
   job <- lift (unpack4 recvd) ;;
   let '(evt, func, args, kw) := job in
   try_except
     (result <- apply func args kw ;;
      if is_None evt then ret tt else obj_send evt result PyNone)
     (fun e =>
        if isinstance e "GreenletExit" then ret tt
        else if isinstance e "Exception" then
          print_exc e ;;;
          if is_None evt then ret tt else obj_send evt PyNone e
        else raise e) ;;;
   cancel_timers current ;;;
   put sender)%py.

(** Where one turn of the loop leaves the worker: back at the top of the
    loop, suspended in [sender.wait()], or dead with an exception. *)
Inductive turn : Type :=
| Again
| Suspended
| Died (x : pyobj).

(** One turn of the loop, from [recvd = sender.wait()]. *)
Definition _main_loop (current : fiber) (sender : pyobj) : world -> world * turn :=
  fun w => match obj_wait current sender w with
           | (w1, Return Switched) => (w1, Suspended)
           | (w1, Return (Returned recvd)) =>
               match _main_loop_job current sender recvd w1 with
               | (w2, Return _) => (w2, Again)
               | (w2, Raise x) => (w2, Died x)
               end
           | (w1, Return (Raised x)) => (w1, Died x)
           | (w1, Raise x) => (w1, Died x)
           end.

(** The turn continued when the hub resumes the suspended worker. *)
Definition _main_loop_resumed (current : fiber) (sender : pyobj) (r : resumption)
  : world -> world * turn :=
  fun w => match wait_resumed r with
           | Return recvd =>
               match _main_loop_job current sender recvd w with
               | (w2, Return _) => (w2, Again)
               | (w2, Raise x) => (w2, Died x)
               end
           | Raise x => (w, Died x)
           end.

End MainLoop.

(** [event()]: a new object of the heap.  Identity 0 is taken by
    [NOT_USED]. *)
Definition new_event : M world pyobj :=
  fun w =>
    let id := fresh ({[ 0%nat ]} ∪ dom (heap w)) in
    match event_init (now w) with
    | Return e =>
        ({| now := now w; heap := <[id := e]> (heap w); calls := calls w;
            timers := timers w; free_items := free_items w; stderr := stderr w |},
         Return (PyObject id))
    | Raise x => (w, Raise x)
    end.

(** [CoroutinePool.create]: the sender is made and returned; the coroutine
    spawned for it runs [_main_loop] when the hub first switches to it. *)
Definition create : M world pyobj := new_event.

(** Modelled from the spec: [pools.Pool.get] is not among the sources.  It
    returns a free worker, here the first of the free list, and a new one
    from [create] when none is free. *)
Definition get : M world pyobj :=
  fun w =>
    match free_items w with
    | item :: rest =>
        ({| now := now w; heap := heap w; calls := calls w; timers := timers w;
            free_items := rest; stderr := stderr w |}, Return item)
    | [] => create w
    end.

(** [CoroutinePool.execute] *)
Definition execute (func args kw : pyobj) : M world pyobj :=
  (sender <- get ;;
   receiver <- new_event ;;
   obj_send sender (PyTuple [receiver; func; args; kw]) PyNone ;;;
   ret receiver)%py.

(** [CoroutinePool.execute_async] *)
Definition execute_async (func args kw : pyobj) : M world unit :=
  (sender <- get ;;
   obj_send sender (PyTuple [PyNone; func; args; kw]) PyNone)%py.

(** *** Actor *)

(** A record of the calls of [received]: entered with a message, and left
    (by return or by an exception). *)
Inductive entry : Type :=
| Enter (m : pyobj)
| Leave (m : pyobj).

(** What a call of the user's [received] does next: return, switch to the
    hub from inside the call, or raise. *)
Inductive received_does : Type :=
| Completes
| Suspends
| Fails (x : pyobj).

(** Where the fiber of [run_forever] stands. *)
Inductive position : Type :=
| Spawned
| Running
| InWait
| InReceived
| Dead (x : pyobj).

(** An actor: its mailbox, event and coroutine, with the clock read by
    [reset] and the calls its event has scheduled on the hub.  [at_] and
    [log] are kept for the statements below: where the coroutine stands,
    and the calls of [received] made so far. *)
Record Actor : Type := mk_Actor {
  clock : Z;
  _mailbox : list pyobj;
  _event : event;
  _killer : fiber;
  hub : list scheduled_call;
  at_ : position;
  log : list entry
}.

Definition set_mailbox (mb : list pyobj) (a : Actor) : Actor :=
  mk_Actor (clock a) mb (_event a) (_killer a) (hub a) (at_ a) (log a).
Definition set_signal (e : event) (h : list scheduled_call) (a : Actor) : Actor :=
  mk_Actor (clock a) (_mailbox a) e (_killer a) h (at_ a) (log a).
Definition set_at (p : position) (a : Actor) : Actor :=
  mk_Actor (clock a) (_mailbox a) (_event a) (_killer a) (hub a) p (log a).
Definition add_log (x : entry) (a : Actor) : Actor :=
  mk_Actor (clock a) (_mailbox a) (_event a) (_killer a) (hub a) (at_ a) (log a ++ [x]).

(** [Actor.__init__]; [g] is the greenlet [api.spawn] returns, which has
    not run yet. *)
Definition Actor_init (t : Z) (g : fiber) : result Actor :=
  match event_init t with
  | Return e => Return (mk_Actor t [] e g [] Spawned [])
  | Raise x => Raise x
  end.

(** [Actor.cast] *)
Definition cast (message : pyobj) (a : Actor) : result Actor :=
  let a1 := set_mailbox (_mailbox a ++ [message]) a in
  if (length (_mailbox a1) =? 1)%nat then
    match send PyNone PyNone (_event a1) (hub a1) with
    | Return (e', h') => Return (set_signal e' h' a1)
    | Raise x => Raise x
    end
  else Return a1.

Section RunForever.

(** The subclass's [received], by what a call of it does first. *)
Variable received : pyobj -> received_does.

(** [self._mailbox.popleft()] and back to the top of the loop. *)
Definition popleft (a : Actor) : Actor :=
  match _mailbox a with
  | [] => set_at (Dead (PyInstance ("IndexError" :: "LookupError" :: StandardError_mro)
                                   "pop from an empty deque")) a
  | _ :: rest => set_mailbox rest a
  end.

(** The [while True] of [run_forever], run until the fiber switches away
    or dies; [n] bounds the number of turns, and a fiber that is still
    [Running] has used them up. *)
Fixpoint run_forever (n : nat) (a : Actor) : Actor :=
  match n with
  | O => set_at Running a
  | S n' =>
      match _mailbox a with
      | [] =>
          match wait (_killer a) (_event a) with
          | (e1, Switched) => set_at InWait (set_signal e1 (hub a) a)
          | (e1, Returned _) =>
              match reset (clock a) e1 with
              | Return e2 => run_forever n' (set_signal e2 (hub a) a)
              | Raise x => set_at (Dead x) (set_signal e1 (hub a) a)
              end
          | (e1, Raised x) => set_at (Dead x) (set_signal e1 (hub a) a)
          end
      | m :: _ =>
          let a1 := add_log (Enter m) a in
          match received m with
          | Completes =>
              match popleft (add_log (Leave m) a1) with
              | a2 => match at_ a2 with Dead _ => a2 | _ => run_forever n' a2 end
              end
          | Suspends => set_at InReceived a1
          | Fails x => set_at (Dead x) (add_log (Leave m) a1)
          end
      end
  end.

(** Turns that are always enough: one per message, and two for the wait. *)
Definition turns (a : Actor) : nat := length (_mailbox a) + 2.

(** What can happen to a suspended actor. *)
Inductive action : Type :=
| Cast (m : pyobj)
| Run
| Resume (how : received_does).

(** The fiber is switched into: started if it has not run, or resumed in
    [wait] by the first call scheduled on the hub. *)
Definition run (a : Actor) : Actor :=
  match at_ a with
  | Spawned => run_forever (turns a) (set_at Running a)
  | InWait =>
      match hub a with
      | [] => a
      | c :: rest =>
          let a1 := set_signal (_event a) rest a in
          match greenlib_switch c with
          | (g, r) =>
              if bool_decide (g = _killer a) then
                match wait_resumed r with
                | Return _ =>
                    match reset (clock a1) (_event a1) with
                    | Return e2 => run_forever (turns a1) (set_at Running (set_signal e2 rest a1))
                    | Raise x => set_at (Dead x) a1
                    end
                | Raise x => set_at (Dead x) a1
                end
              else a1
          end
      end
  | _ => a
  end.

(** The suspended call of [received] is switched into again. *)
Definition resume (how : received_does) (a : Actor) : Actor :=
  match at_ a, _mailbox a with
  | InReceived, m :: _ =>
      match how with
      | Completes =>
          match popleft (add_log (Leave m) a) with
          | a2 => run_forever (turns a2) (set_at Running a2)
          end
      | Suspends => a
      | Fails x => set_at (Dead x) (add_log (Leave m) a)
      end
  | _, _ => a
  end.

Definition step (act : action) (a : Actor) : result Actor :=
  match act with
  | Cast m => cast m a
  | Run => Return (run a)
  | Resume how => Return (resume how a)
  end.

Fixpoint steps (acts : list action) (a : Actor) : result Actor :=
  match acts with
  | [] => Return a
  | act :: rest =>
      match step act a with
      | Return a' => steps rest a'
      | Raise x => Raise x
      end
  end.

End RunForever.

(** The messages [received] was called with, in the order of the calls. *)
Fixpoint entered (l : list entry) : list pyobj :=
  match l with
  | [] => []
  | Enter m :: l' => m :: entered l'
  | Leave _ :: l' => entered l'
  end.


(** The messages cast by a list of actions. *)
Fixpoint cast_messages (acts : list action) : list pyobj :=
  match acts with
  | [] => []
  | Cast m :: rest => m :: cast_messages rest
  | _ :: rest => cast_messages rest
  end.


(** A log of completed calls of [received], one per message. *)
Definition pairs (ms : list pyobj) : list entry :=
  flat_map (fun m => [Enter m; Leave m]) ms.

(** An event nobody waits on, FRESH or sent without exception. *)
Definition idle_event (ev : event) : Prop :=
  _waiters ev = ∅ /\ (FRESH ev \/ (TRIGGERED ev /\ _exc ev = Some PyNone)).

Section Invariant.

Variable received : pyobj -> received_does.

(** What holds of an actor after any actions, [enq] being the messages
    cast so far. *)
Definition Inv (enq : list pyobj) (a : Actor) : Prop :=
  match at_ a with
  | Spawned =>
      log a = [] /\ hub a = [] /\ _mailbox a = enq /\ _waiters (_event a) = ∅ /\
      ((_mailbox a = [] /\ FRESH (_event a)) \/
       (_mailbox a <> [] /\ TRIGGERED (_event a) /\ _exc (_event a) = Some PyNone))
  | InWait =>
      exists ms, log a = pairs ms /\ ms ++ _mailbox a = enq /\
        _waiters (_event a) = {[ _killer a := true ]} /\
        ((_mailbox a = [] /\ FRESH (_event a) /\ hub a = []) \/
         (_mailbox a <> [] /\ _result (_event a) = PyNone /\ _exc (_event a) = Some PyNone /\
          hub a = [mk_call 0 (_killer a) PyNone PyNone]))
  | InReceived =>
      exists ms m rest, _mailbox a = m :: rest /\ log a = pairs ms ++ [Enter m] /\
        ms ++ m :: rest = enq /\ hub a = [] /\ idle_event (_event a) /\
        (exists m', received m' <> Completes)
  | Dead _ =>
      exists ms m rest, _mailbox a = m :: rest /\ log a = pairs (ms ++ [m]) /\
        (ms ++ [m]) ++ rest = enq /\ (exists m', received m' <> Completes)
  | Running => False
  end.

End Invariant.

(** The end of a turn of [_main_loop]: [cancel_timers] and [put]. *)
Definition after_job (current : fiber) (sender : pyobj) (w : world) : world :=
  (put sender (cancel_timers current w).1).1.

(** The world once [sender.reset()] has run on the TRIGGERED sender [s]. *)
Definition sender_reset (sid : nat) (s : event) (w : world) : world :=
  set_event sid {| epoch := now w; _result := NOT_USED; _exc := _exc s; _waiters := ∅ |}
            (calls w) w.

(** The event [ev] once [send(exc=e)] has run on it. *)
Definition holding_exc (e : pyobj) (ev : event) : event :=
  {| epoch := epoch ev; _result := PyNone; _exc := Some e; _waiters := _waiters ev |}.

(** [execute] of the module [coros] (the name [execute] is the pool's
    method here): the event is made and returned; the coroutine spawned
    for [_really_execute] runs when the hub first switches to it. *)
Definition coros_execute : M world pyobj := new_event.

(** [_really_execute], the body of the coroutine spawned by the module's
    [execute]; [apply] is the call of [func]. *)
Definition _really_execute (apply : pyobj -> pyobj -> pyobj -> M world pyobj)
  (evt func args kw : pyobj) : M world unit :=
  (result <- apply func args kw ;;
   obj_send evt result PyNone)%py.

(** [Actor.received] as the class has it: it raises
    [NotImplementedError()] on every message. *)
Definition received (message : pyobj) : received_does :=
  Fails (PyInstance ("NotImplementedError" :: RuntimeError_mro) "").

(** The event a worker's sender is after [sender.reset()]. *)
Definition reset_sender (w : world) (s : event) : event :=
  {| epoch := now w; _result := NOT_USED; _exc := _exc s; _waiters := ∅ |}.

(** The identity [new_event] gives its event. *)
Definition next_id (w : world) : nat := fresh ({[ 0%nat ]} ∪ dom (heap w)).

(** The sender [s] once the job for the result event [rid] was sent to it. *)
Definition holding_job (rid : nat) (func args kw : pyobj) (s : event) : event :=
  {| epoch := epoch s; _result := PyTuple [PyObject rid; func; args; kw];
     _exc := Some PyNone; _waiters := _waiters s |}.

(** The world [execute] leaves when the worker [sid] was first on the free
    list. *)
Definition handed_over (sid : nat) (s : event) (rest : list pyobj) (func args kw : pyobj)
  (w : world) : world :=
  {| now := now w;
     heap := <[sid := holding_job (next_id w) func args kw s]>
               (<[next_id w := {| epoch := now w; _result := NOT_USED; _exc := None;
                                  _waiters := ∅ |}]> (heap w));
     calls := calls w ++ wake_calls (holding_job (next_id w) func args kw s);
     timers := timers w; free_items := rest; stderr := stderr w |}.




(** *** Inputs used below *)

(** A fiber blocked in [wait] before a [send] that carries an exception. *)
Definition blocked_then_sent : event * list scheduled_call :=
  match event_init 0 with
  | Return e0 =>
      match send PyNone (ValueError "boom") (wait 7 e0).1 [] with
      | Return r => r
      | Raise _ => (e0, [])
      end
  | Raise _ => (event_class, [])
  end.

(** A world whose event 5 is TRIGGERED, with fiber 7 recorded as waiter. *)
Definition triggered_world : world :=
  mk_world 0 {[ 5%nat := {| epoch := 0; _result := PyInt 1; _exc := Some PyNone;
                            _waiters := {[ 7%nat := true ]} |} ]} [] [] [] [].

(** A function that raises [ValueError("boom")] and touches nothing. *)
Definition raises_boom : pyobj -> pyobj -> pyobj -> M world pyobj :=
  fun _ _ _ w => (w, Raise (ValueError "boom")).

(** The job tuple [(evt, func, (), {})] as the sender holds it. *)
Definition job_tuple (evt : pyobj) : pyobj :=
  PyTuple [evt; PyObject 50; PyTuple []; PyObject 51].

(** A pool before its first job: nothing on the heap, no free worker. *)
Definition empty_world : world := mk_world 0 ∅ [] [] [] [].

(** [execute(func).wait()] by fiber 9 on the empty pool: the worker's
    sender is event 1, the result event is event 2, and the requester
    already waits on it when the worker first runs. *)
Definition requested_world : world :=
  (obj_wait 9 (PyObject 2)
     (execute (PyObject 50) (PyTuple []) (PyObject 51) empty_world).1).1.

(** A [received] that always returns. *)
Definition always_completes (m : pyobj) : received_does := Completes.

(** The doctest of [Actor.received]: a cast, a yield, two casts, a yield. *)
Definition greeter_actions : list action :=
  [Cast (PyStr "message 1"); Run; Cast (PyStr "message 2"); Cast (PyStr "message 3"); Run].

(** An event as [event()] makes it at time 0. *)
Definition just_made : event :=
  {| epoch := 0; _result := NOT_USED; _exc := None; _waiters := ∅ |}.

(** A function that raises [KeyboardInterrupt] and touches nothing. *)
Definition raises_interrupt : pyobj -> pyobj -> pyobj -> M world pyobj :=
  fun _ _ _ w => (w, Raise (PyInstance KeyboardInterrupt_mro "")).

(** A function that returns 42 and touches nothing. *)
Definition returns_42 : pyobj -> pyobj -> pyobj -> M world pyobj :=
  fun _ _ _ w => (w, Return (PyInt 42)).

(** A function that sends 1 to the event 2 itself, then returns 42. *)
Definition sends_then_returns_42 : pyobj -> pyobj -> pyobj -> M world pyobj :=
  fun _ _ _ w => ((obj_send (PyObject 2) (PyInt 1) PyNone w).1, Return (PyInt 42)).

(** A pool with one free worker, fiber 3, which waits on its sender,
    event 1. *)
Definition one_free_worker : world :=
  mk_world 0 {[ 1%nat := (wait 3 just_made).1 ]} [] [] [PyObject 1] [].


End Coros.

(** ** coros.py: pipe *)

Module Pipe.

Import Coros.

(** A [pipe]: its event and buffer, with the clock read by [event()] and
    the calls its events have scheduled on the hub. *)
Record pipe : Type := mk_pipe {
  clock : Z;
  _event : event;
  _buffer : string;
  hub : list scheduled_call
}.

(** [pipe.__init__] *)
Definition pipe_init (t : Z) : result pipe :=
  match event_init t with
  | Return e => Return (mk_pipe t e "" [])
  | Raise x => Raise x
  end.

(** [pipe.send]: the buffer grows, a new event replaces the old one, and
    the old one is sent [None]. *)
Definition send (txt : string) (p : pipe) : pipe * result unit :=
  let buffer := (_buffer p ++ txt)%string in
  match event_init (clock p) with
  | Return e =>
      match Coros.send PyNone PyNone (_event p) (hub p) with
      | Return (_, h') => (mk_pipe (clock p) e buffer h', Return tt)
      | Raise x => (mk_pipe (clock p) e buffer (hub p), Raise x)
      end
  | Raise x => (mk_pipe (clock p) (_event p) buffer (hub p), Raise x)
  end.

(** The bound [k] of the slices [s[:num]] and [s[num:]] of a string of
    length [n]: a negative [num] counts from the end, and the bound is
    clipped to the string. *)
Definition slice_bound (num : Z) (n : nat) : nat :=
  Z.to_nat (if (num <? 0)%Z then Z.max 0 (num + Z.of_nat n) else Z.min num (Z.of_nat n)).

(** [s[:num]] and [s[num:]] *)
Definition slice_to (num : Z) (s : string) : string :=
  String.substring 0 (slice_bound num (String.length s)) s.
Definition slice_from (num : Z) (s : string) : string :=
  String.substring (slice_bound num (String.length s))
                   (String.length s - slice_bound num (String.length s)) s.

(** The end of [recv], from [if num >= len(self._buffer)]. *)
Definition take (num : Z) (p : pipe) : pipe * string :=
  if (num >=? Z.of_nat (String.length (_buffer p)))%Z
  then (mk_pipe (clock p) (_event p) "" (hub p), _buffer p)
  else (mk_pipe (clock p) (_event p) (slice_from num (_buffer p)) (hub p),
        slice_to num (_buffer p)).

(** How a call of [recv] goes on: it returns a string, raises, or is
    suspended in [wait]. *)
Inductive recv_outcome : Type :=
| Got (buf : string)
| Failed (x : pyobj)
| Waits.

(** [pipe.recv], called by the fiber [current]. *)
Definition recv (current : fiber) (num : Z) (p : pipe) : pipe * recv_outcome :=
  match _buffer p with
  | EmptyString =>
      match wait current (_event p) with
      | (e1, Switched) => (mk_pipe (clock p) e1 (_buffer p) (hub p), Waits)
      | (e1, Returned _) =>
          match take num (mk_pipe (clock p) e1 (_buffer p) (hub p)) with
          | (p', buf) => (p', Got buf)
          end
      | (e1, Raised x) => (mk_pipe (clock p) e1 (_buffer p) (hub p), Failed x)
      end
  | _ => match take num p with (p', buf) => (p', Got buf) end
  end.

(** The rest of [recv] for a fiber suspended in [wait], once the hub
    resumes it. *)
Definition recv_resumed (r : resumption) (num : Z) (p : pipe) : pipe * recv_outcome :=
  match wait_resumed r with
  | Return _ => match take num p with (p', buf) => (p', Got buf) end
  | Raise x => (p, Failed x)
  end.

(** What the users of a pipe do, in the order they do it: a [send], a call
    of [recv], and the resumption of a suspended [recv] by a switch. *)
Inductive action : Type :=
| Send (txt : string)
| Recv (current : fiber) (num : Z)
| Resumed (num : Z).

(** The strings the calls of [recv] have returned, oldest first, or the
    first exception raised. *)
Fixpoint steps (acts : list action) (p : pipe) (got : list string)
  : result (pipe * list string) :=
  match acts with
  | [] => Return (p, got)
  | Send txt :: rest =>
      match send txt p with
      | (p', Return _) => steps rest p' got
      | (_, Raise x) => Raise x
      end
  | Recv g num :: rest =>
      match recv g num p with
      | (p', Got buf) => steps rest p' (got ++ [buf])
      | (p', Waits) => steps rest p' got
      | (_, Failed x) => Raise x
      end
  | Resumed num :: rest =>
      match recv_resumed (SwitchTo PyNone) num p with
      | (p', Got buf) => steps rest p' (got ++ [buf])
      | (p', Waits) => steps rest p' got
      | (_, Failed x) => Raise x
      end
  end.

(** All that was sent, in order. *)
Fixpoint sent (acts : list action) : string :=
  match acts with
  | [] => ""
  | Send txt :: rest => (txt ++ sent rest)%string
  | _ :: rest => sent rest
  end.

(** The concatenation of strings. *)
Definition joined (l : list string) : string := fold_right String.append "" l.

End Pipe.

(** ** hubs/__init__.py *)

Module Hubs.

Import Coros.

(** What the selection of a hub reads from the process: the loaded
    modules, whether [import eventlet.hubs.epolls] succeeds, the
    attributes of the [select] module, the environment, the modules
    [__import__] finds and those among them that have a [Hub]. *)
Record platform : Type := mk_platform {
  sys_modules : gset string;
  epolls_imports : bool;
  select_attrs : gset string;
  environ : gmap string string;
  importable : gset string;
  with_Hub : gset string
}.

(** [get_default_hub]; a module is known by its dotted name.  Only the
    import of [epolls] is guarded in the source; the other hub modules
    ship with the package. *)
Definition get_default_hub (p : platform) : string :=
  if bool_decide ("twisted.internet.reactor" ∈ sys_modules p) then "eventlet.hubs.twistedr"
  else if epolls_imports p then "eventlet.hubs.epolls"
  else if bool_decide ("poll" ∈ select_attrs p) then "eventlet.hubs.poll"
  else "eventlet.hubs.selects".

(** The argument of [use_hub] once it is not [None]: a string or a module. *)
Inductive hub_arg : Type :=
| Name (s : string)
| Module (name : string).

(** What [_threadlocal.Hub] is bound to: the [Hub] of a module, or the
    object given when it has no [Hub]. *)
Inductive hub_factory : Type :=
| HubOf (module : string)
| Itself (module : string).

(** [_threadlocal]: the attributes [Hub] and [hub], each set or not. *)
Record threadlocal : Type := mk_threadlocal {
  Hub : option hub_factory;
  hub : option nat
}.

(** The characters [str.strip] removes. *)
Definition is_space (c : Ascii.ascii) : bool :=
  let n := Ascii.nat_of_ascii c in
  ((n =? 32) || (n =? 9) || (n =? 10) || (n =? 11) || (n =? 12) || (n =? 13))%nat.

(** The truth value of [strip()] on a string: some character is not a space. *)
Fixpoint strip_nonempty (s : string) : bool :=
  match s with
  | EmptyString => false
  | String c s' => negb (is_space c) || strip_nonempty s'
  end.

Definition ImportError (msg : string) : pyobj :=
  PyInstance ("ImportError" :: StandardError_mro) msg.

(** [use_hub] *)
Definition use_hub (mod_ : option hub_arg) (p : platform) (tl : threadlocal)
  : threadlocal * result unit :=
  let mod1 := match mod_ with
              | None => Name <$> (environ p !! "EVENTLET_HUB")
              | Some m => Some m
              end in
  let mod2 := match mod1 with
              | None => Module (get_default_hub p)
              | Some m => m
              end in
  let tl1 := mk_threadlocal (Hub tl) None in
  let imported :=
    match mod2 with
    | Name s =>
        if strip_nonempty s then
          if bool_decide (("eventlet.hubs." ++ s)%string ∈ importable p)
          then Return ("eventlet.hubs." ++ s)%string
          else Raise (ImportError s)
        else Raise (AssertionError "Need to specify a hub")
    | Module name => Return name
    end in
  match imported with
  | Return name =>
      if bool_decide (name ∈ with_Hub p)
      then (mk_threadlocal (Some (HubOf name)) None, Return tt)
      else (mk_threadlocal (Some (Itself name)) None, Return tt)
  | Raise x => (tl1, Raise x)
  end.

(** *** trampoline *)

Inductive evtype : Type := READ | WRITE.

(** A listener: its identity, direction, descriptor, and the fiber whose
    [switch] is the callback. *)
Record FdListener : Type := mk_listener {
  l_id : nat;
  l_evtype : evtype;
  l_fileno : Z;
  l_cb : fiber
}.

(** A timer made by [schedule_call_global(seconds, current.throw, exc)]. *)
Record Timer : Type := mk_timer {
  t_seconds : pyobj;
  t_throw : fiber;
  t_exc : pyobj;
  t_cancelled : bool;
  t_called : bool
}.

(** The hub: its own greenlet, the installed listeners, the timer objects
    by identity, and the next unused identity. *)
Record hub_state : Type := mk_hub {
  greenlet : fiber;
  listeners : list FdListener;
  timers : gmap nat Timer;
  fresh : nat
}.

(** The frame of a call of [trampoline]: the hub it works on and its
    locals [t] ([None] until a timer is scheduled) and [listener] (unbound
    until a listener is installed). *)
Record frame : Type := mk_frame {
  the_hub : hub_state;
  t : option nat;
  listener : option FdListener
}.

(** The [fd] argument: an object with a [fileno()] method, or a number. *)
Inductive fd_arg : Type :=
| WithFileno (n : Z)
| Number (n : Z).

Definition evtype_eqb (a b : evtype) : bool :=
  match a, b with READ, READ | WRITE, WRITE => true | _, _ => false end.

(** Modelled from the spec: [hub.schedule_call_global] is not among the
    sources.  It creates a timer, pending until it fires or is cancelled,
    and returns it; the frame binds it to [t]. *)
Definition schedule_call_global (seconds : pyobj) (g : fiber) (x : pyobj) : M frame unit :=
  fun f =>
    let h := the_hub f in
    let id := fresh h in
    (mk_frame (mk_hub (greenlet h) (listeners h)
                      (<[id := mk_timer seconds g x false false]> (timers h)) (S id))
              (Some id) (listener f), Return tt).

(** Modelled from the spec: [hub.add] is not among the sources.  At most one
    listener per descriptor and direction; installing a second one is an
    error.  The frame binds the new listener to [listener]. *)
Definition add (ev : evtype) (fileno : Z) (g : fiber) : M frame unit :=
  fun f =>
    let h := the_hub f in
    if existsb (fun l => evtype_eqb (l_evtype l) ev && (l_fileno l =? fileno)%Z) (listeners h)
    then (f, Raise (PyInstance RuntimeError_mro "Second simultaneous listener on the descriptor"))
    else
      let l := mk_listener (fresh h) ev fileno g in
      (mk_frame (mk_hub (greenlet h) (listeners h ++ [l]) (timers h) (S (fresh h)))
                (t f) (Some l), Return tt).

(** Modelled from the spec: [hub.remove] is not among the sources.  It
    drops the listener, known by identity.  Reading the local [listener]
    while it is unbound raises. *)
Definition remove_listener : M frame unit :=
  fun f =>
    match listener f with
    | None =>
        (f, Raise (UnboundLocalError
                     "local variable 'listener' referenced before assignment"))
    | Some l =>
        let h := the_hub f in
        (mk_frame (mk_hub (greenlet h)
                          (filter (fun l' => l_id l' ≠ l_id l) (listeners h))
                          (timers h) (fresh h))
                  (t f) (listener f), Return tt)
    end.

(** Modelled from the spec: [Timer.cancel] is not among the sources.  It
    sets the cancelled flag of the timer; cancelling a fired timer changes
    nothing else. *)
Definition cancel_timer (id : nat) : M frame unit :=
  fun f =>
    let h := the_hub f in
    (mk_frame (mk_hub (greenlet h) (listeners h)
                      (alter (fun tm => mk_timer (t_seconds tm) (t_throw tm) (t_exc tm)
                                                 true (t_called tm)) id (timers h))
                      (fresh h))
              (t f) (listener f), Return tt).

(** A timer is pending while it is known to the hub, not cancelled and
    not fired. *)
Definition timer_pending (h : hub_state) (id : nat) : bool :=
  match timers h !! id with
  | Some tm => negb (t_cancelled tm || t_called tm)
  | None => false
  end.

Section Trampoline.

(** [hub.switch()]: the other fibers run; the hub as they leave it, and how
    this fiber is resumed. *)
Variable others : hub_state -> hub_state * resumption.

Definition switch : M frame pyobj :=
  fun f => match others (the_hub f) with
           | (h', r) => (mk_frame h' (t f) (listener f), wait_resumed r)
           end.

(** [trampoline], called by the fiber [current]; [read] and [write] are
    the truth values of the arguments. *)
Definition trampoline (current : fiber) (fd : fd_arg) (read write : bool)
  (timeout timeout_exc : pyobj) : M frame pyobj :=
  fun f0 =>
    let f := mk_frame (the_hub f0) None (listener f0) in
    if bool_decide (greenlet (the_hub f) = current)
    then (f, Raise (AssertionError "do not call blocking functions from the mainloop"))
    else if read && write
    then (f, Raise (AssertionError "not allowed to trampoline for reading and writing"))
    else
      let fileno := match fd with WithFileno n => n | Number n => n end in
      ((if is_None timeout then ret tt
        else schedule_call_global timeout current timeout_exc) ;;;
       try_finally
         ((if read then add READ fileno current
           else if write then add WRITE fileno current
           else ret tt) ;;;
          try_finally switch remove_listener)
         (fun f1 => match t f1 with
                    | Some id => cancel_timer id f1
                    | None => (f1, Return tt)
                    end))%py f.

End Trampoline.

(** A frame as a call of [trampoline] finds it. *)
Definition enter (h : hub_state) : frame := mk_frame h None None.

(** The direction a call asks for, and whether the hub already has a
    listener for a direction of a descriptor. *)
Definition asked (read write : bool) : option evtype :=
  if read then Some READ else if write then Some WRITE else None.

Definition taken (ev : evtype) (fileno : Z) (h : hub_state) : bool :=
  existsb (fun l => evtype_eqb (l_evtype l) ev && (l_fileno l =? fileno)%Z) (listeners h).

(** *** get_hub *)

(** The thread's [_threadlocal] with the number of hub objects made so
    far: a hub object is known by its rank among them. *)
Record process : Type := mk_process {
  tl : threadlocal;
  made : nat
}.

Section GetHub.

(** The call [_threadlocal.Hub()] up to the new object: it returns or
    raises. *)
Variable construct : hub_factory -> result unit.

(** [get_hub] *)
Definition get_hub (p : platform) (s : process) : process * result nat :=
  match hub (tl s) with
  | Some h => (s, Return h)
  | None =>
      match (match Hub (tl s) with
             | Some _ => (tl s, Return tt)
             | None => use_hub None p (tl s)
             end) with
      | (tl1, Return _) =>
          match Hub tl1 with
          | Some f =>
              match construct f with
              | Return _ =>
                  (mk_process (mk_threadlocal (Hub tl1) (Some (made s))) (S (made s)),
                   Return (made s))
              | Raise x => (mk_process tl1 (made s), Raise x)
              end
          | None =>
              (mk_process tl1 (made s),
               Raise (AttributeError "'thread._local' object has no attribute 'Hub'"))
          end
      | (tl1, Raise x) => (mk_process tl1 (made s), Raise x)
      end
  end.

End GetHub.


(** *** Inputs used below *)

(** A hub with no listener, whose own greenlet is 0. *)
Definition idle_hub : hub_state := mk_hub 0 [] ∅ 1.

(** The other fibers leave the hub as it is, and the timer throws. *)
Definition timer_fires (h : hub_state) : hub_state * resumption :=
  (h, ThrowInto (PyInstance ("Timeout" :: Exception_mro) "")).

(** A process that has loaded the Twisted reactor, on a system with epoll. *)
Definition with_twisted : platform :=
  mk_platform {[ "twisted.internet.reactor" ]} true {[ "poll"; "select" ]} ∅
              {[ "eventlet.hubs.epolls" ]}
              {[ "eventlet.hubs.epolls"; "eventlet.hubs.twistedr" ]}.

(** A system without Twisted and without epoll, whose [select] has [poll]. *)
Definition plain_poll : platform :=
  mk_platform ∅ false {[ "poll"; "select" ]} ∅ ∅ {[ "eventlet.hubs.poll" ]}.

(** Every hub class can be instantiated. *)
Definition constructs (f : hub_factory) : result unit := Return tt.

(** A thread that has made hub 0 from the [Hub] of [eventlet.hubs.poll]. *)
Definition with_hub : process :=
  mk_process (mk_threadlocal (Some (HubOf "eventlet.hubs.poll")) (Some 0%nat)) 1.

(** A hub on which fiber 8 listens on descriptor 4 and has a timer. *)
Definition busy_hub : hub_state :=
  mk_hub 0 [mk_listener 1 READ 4 8] {[ 2%nat := mk_timer (PyInt 9) 8 PyNone false false ]} 3.


End Hubs.

(** ** tpool.py *)

Module Tpool.

Import Coros.

(** [QUIET=True]: [erecv] prints nothing. *)
Definition QUIET : bool := true.

(** A message of the request queue that is not the [None] sentinel:
    [(e, meth, args, kwargs)], the event by its identity. *)
Record request : Type := mk_request {
  rq_e : nat;
  rq_meth : pyobj;
  rq_args : pyobj;
  rq_kwargs : pyobj
}.

(** The module's globals and what they reach: the two queues, the bytes
    written to the wake pipe and not yet read ([None] while there is no
    open pipe), the events by identity with the next unused identity, and the
    calls scheduled on the hub.  [sent] records the calls of [e.send] made
    by the bridge fiber, for the statements below; the code keeps no such
    list. *)
Record state : Type := mk_state {
  _setup_already : bool;
  _reqq : list (option request);
  _rspq : list (nat * pyobj);
  pipe : option nat;
  events : gmap nat event;
  next_event : nat;
  hub_calls : list scheduled_call;
  sent : list (nat * pyobj)
}.

(** The module as imported. *)
Definition imported : state := mk_state false [] [] None ∅ 1 [] [].

(** [setup]: the pipe and the queues are made once. *)
Definition setup (s : state) : state :=
  if _setup_already s then s
  else mk_state true [] [] (Some 0) (events s) (next_event s) (hub_calls s) (sent s).

(** Modelled from the spec: [greenthread.Event] is not among the sources;
    it is the one-shot event, here the one of [coros.py], made fresh. *)
Definition Event : event :=
  {| epoch := 0; _result := NOT_USED; _exc := None; _waiters := ∅ |}.

(** [esend] *)
Definition esend (meth args kwargs : pyobj) (s : state) : state * nat :=
  let e := next_event s in
  (mk_state (_setup_already s) (_reqq s ++ [Some (mk_request e meth args kwargs)]) (_rspq s)
            (pipe s) (<[e := Event]> (events s)) (S e) (hub_calls s) (sent s), e).

(** [type(x)] of an exception. *)
Definition type_of (x : pyobj) : pyobj :=
  match x with
  | PyInstance mro _ => PyClass mro
  | _ => PyClass ["object"]
  end.

(** [sys.exc_info()] while [x] is being handled. *)
Definition exc_info (x : pyobj) : pyobj := PyTuple [type_of x; x; PyTraceback 0].

(** [_rspq.put((e, rv))] and [_signal_t2e()]: one response and one byte. *)
Definition respond (e : nat) (rv : pyobj) (s : state) : state :=
  mk_state (_setup_already s) (_reqq s) (_rspq s ++ [(e, rv)])
           (S <$> pipe s) (events s) (next_event s) (hub_calls s) (sent s).

Definition set_reqq (q : list (option request)) (s : state) : state :=
  mk_state (_setup_already s) q (_rspq s) (pipe s) (events s) (next_event s)
           (hub_calls s) (sent s).

(** [isinstance(x, SYS_EXCS)] *)
Definition SYS_EXCS (x : pyobj) : bool :=
  isinstance x "KeyboardInterrupt" || isinstance x "SystemExit".

(** How one turn of a loop ends. *)
Inductive turn : Type :=
| Exits
| Loops
| Blocks
| Dies (x : pyobj).

Section Worker.

(** The call of [meth] on [args] and [kwargs], run in the worker thread. *)
Variable apply : pyobj -> pyobj -> pyobj -> result pyobj.

(** One turn of the [while(True)] of [tworker]; [_reqq.get()] blocks on an
    empty queue. *)
Definition tworker_turn (s : state) : state * turn :=
  match _reqq s with
  | [] => (s, Blocks)
  | None :: q => (set_reqq q s, Exits)
  | Some msg :: q =>
      let s1 := set_reqq q s in
      match apply (rq_meth msg) (rq_args msg) (rq_kwargs msg) with
      | Return rv => (respond (rq_e msg) rv s1, Loops)
      | Raise x =>
          if SYS_EXCS x then (s1, Dies x)
          else if isinstance x "Exception" then (respond (rq_e msg) (exc_info x) s1, Loops)
          else (s1, Dies x)
      end
  end.

(** [tworker], at most [n] turns. *)
Fixpoint tworker (n : nat) (s : state) : state * turn :=
  match n with
  | O => (s, Loops)
  | S n' =>
      match tworker_turn s with
      | (s1, Loops) => tworker n' s1
      | r => r
      end
  end.

End Worker.

Definition set_rspq (q : list (nat * pyobj)) (s : state) : state :=
  mk_state (_setup_already s) (_reqq s) q (pipe s) (events s) (next_event s)
           (hub_calls s) (sent s).

(** The inner [while not _rspq.empty()] of [tpool_trampoline]: each
    response is taken off the queue and sent to its event. *)
Fixpoint drain (n : nat) (s : state) : state * result unit :=
  match n with
  | O => (s, Return tt)
  | S n' =>
      match _rspq s with
      | [] => (s, Return tt)
      | (e, rv) :: q =>
          let s1 := set_rspq q s in
          match events s1 !! e with
          | None => (s1, Raise (AttributeError "send"))
          | Some ev =>
              match send rv PyNone ev (hub_calls s1) with
              | Return (ev', c') =>
                  drain n' (mk_state (_setup_already s1) (_reqq s1) (_rspq s1) (pipe s1)
                                     (<[e := ev']> (events s1)) (next_event s1) c'
                                     (sent s1 ++ [(e, rv)]))
              | Raise x => (s1, Raise x)
              end
          end
      end
  end.

(** One turn of the outer loop of [tpool_trampoline]: a byte is read from
    the pipe (the fiber waits while there is none, and leaves the loop once
    the pipe is closed), then the responses are drained. *)
Definition tpool_trampoline_turn (s : state) : state * turn :=
  match pipe s with
  | None => (s, Exits)
  | Some O => (s, Blocks)
  | Some (S k) =>
      let s1 := mk_state (_setup_already s) (_reqq s) (_rspq s) (Some k) (events s)
                         (next_event s) (hub_calls s) (sent s) in
      match drain (length (_rspq s1)) s1 with
      | (s2, Return _) => (s2, Loops)
      | (s2, Raise x) => (s2, Dies x)
      end
  end.

(** The class a [raise] statement takes from its first operand: the first
    element of a tuple, repeatedly. *)
Fixpoint raised_type (c : pyobj) : pyobj :=
  match c with
  | PyTuple (c0 :: _) => raised_type c0
  | _ => c
  end.

(** The exception that propagates from [raise c, e, tb]. *)
Definition raise3 (c e tb : pyobj) : pyobj :=
  match tb with
  | PyNone | PyTraceback _ =>
      match raised_type c with
      | PyClass mro =>
          if bool_decide ("BaseException" ∈ mro) then
            match e with
            | PyInstance mro' msg =>
                if bool_decide (hd "" mro ∈ mro') then e else PyInstance mro msg
            | _ => PyInstance mro ""
            end
          else TypeError "exceptions must be old-style classes or derived from BaseException"
      | PyInstance mro _ =>
          if bool_decide ("BaseException" ∈ mro) then
            if is_None e then raised_type c
            else TypeError "instance exception may not have a separate value"
          else TypeError "exceptions must be old-style classes or derived from BaseException"
      | _ => TypeError "exceptions must be old-style classes or derived from BaseException"
      end
  | _ => TypeError "raise: arg 3 must be a traceback or None"
  end.

(** [erecv] from the value [rv] that [e.wait()] gave. *)
Definition erecv_got (rv : pyobj) : result pyobj :=
  match rv with
  | PyTuple [c; e; tb] =>
      if isinstance e "Exception" then Raise (raise3 c e tb) else Return rv
  | _ => Return rv
  end.

(** [erecv] when [e.wait()] switched to the hub and the fiber is resumed. *)
Definition erecv_resumed (r : resumption) : result pyobj :=
  match wait_resumed r with
  | Return rv => erecv_got rv
  | Raise x => Raise x
  end.

(** The first call scheduled for a fiber, as the hub runs it. *)
Fixpoint resumed_with (g : fiber) (c : list scheduled_call) : option resumption :=
  match c with
  | [] => None
  | x :: rest =>
      match greenlib_switch x with
      | (g', r) => if bool_decide (g' = g) then Some r else resumed_with g rest
      end
  end.

Section Execute.

Variable apply : pyobj -> pyobj -> pyobj -> result pyobj.

(** [execute] by the fiber [current], through one run of the rest of the
    system: after [setup] and [esend] the fiber waits on the event; a worker
    thread takes the queued requests, the bridge fiber reads the pipe and
    sends the responses, and the hub runs the call scheduled for the fiber.
    [None] is a run that leaves the fiber waiting.  The call the hub ran
    stays listed in [hub_calls]: the properties of [execute] start from
    states that list no call for the fiber. *)
Definition execute (current : fiber) (meth args kwargs : pyobj) (s : state)
  : state * option (result pyobj) :=
  match esend meth args kwargs (setup s) with
  | (s1, e) =>
      match events s1 !! e with
      | None => (s1, Some (Raise (AttributeError "wait")))
      | Some ev =>
          match wait current ev with
          | (_, Returned rv) => (s1, Some (erecv_got rv))
          | (_, Raised x) => (s1, Some (Raise x))
          | (ev', Switched) =>
              let s2 := mk_state (_setup_already s1) (_reqq s1) (_rspq s1) (pipe s1)
                                 (<[e := ev']> (events s1)) (next_event s1)
                                 (hub_calls s1) (sent s1) in
              let s3 := (tworker apply (S (length (_reqq s2))) s2).1 in
              let s4 := (tpool_trampoline_turn s3).1 in
              (s4, erecv_resumed <$> resumed_with current (hub_calls s4))
          end
      end
  end.

End Execute.

(** The calls of [execute] of several fibers, as far as [esend]: one event
    and one request each. *)
Fixpoint esend_all (jobs : list (pyobj * pyobj * pyobj)) (s : state) : state :=
  match jobs with
  | [] => s
  | (meth, args, kwargs) :: rest => esend_all rest (esend meth args kwargs s).1
  end.

(** The requests [esend_all] queues, numbered from [n]. *)
Fixpoint numbered (n : nat) (jobs : list (pyobj * pyobj * pyobj)) : list request :=
  match jobs with
  | [] => []
  | (meth, args, kwargs) :: rest => mk_request n meth args kwargs :: numbered (S n) rest
  end.

Section Served.

Variable apply : pyobj -> pyobj -> pyobj -> result pyobj.

(** What a worker answers to a request whose call returns or raises an
    exception it captures. *)
Definition answer (r : request) : pyobj :=
  match apply (rq_meth r) (rq_args r) (rq_kwargs r) with
  | Return rv => rv
  | Raise x => exc_info x
  end.

(** The call of the request returns, or raises an [Exception] that is not
    among [SYS_EXCS]. *)
Definition captured (r : request) : Prop :=
  forall x, apply (rq_meth r) (rq_args r) (rq_kwargs r) = Raise x ->
            SYS_EXCS x = false /\ isinstance x "Exception" = true.

(** The state after a worker has served the requests [reqs], the whole
    queue. *)
Fixpoint served (reqs : list request) (s : state) : state :=
  match reqs with
  | [] => s
  | r :: rest => served rest (respond (rq_e r) (answer r) (set_reqq (map Some rest) s))
  end.

End Served.

(** From a fresh module: the fibers' requests are queued, one worker
    serves them, and the bridge fiber takes one turn. *)
Definition bridged (apply : pyobj -> pyobj -> pyobj -> result pyobj)
  (jobs : list (pyobj * pyobj * pyobj)) : state :=
  (tpool_trampoline_turn
     (tworker apply (S (length jobs)) (esend_all jobs (setup imported))).1).1.

(** The state [execute] leaves when the function returns [rv]: the event
    made by [esend], first with the caller as waiter, then sent [rv]. *)
Definition executed (current : fiber) (rv : pyobj) : state :=
  let waiting := {| epoch := 0; _result := NOT_USED; _exc := None;
                    _waiters := <[current := true]> ∅ |} in
  let triggered := {| epoch := 0; _result := rv; _exc := Some PyNone;
                      _waiters := <[current := true]> ∅ |} in
  mk_state true [] [] (Some 0)
           (<[1%nat := triggered]> (<[1%nat := waiting]> (<[1%nat := Event]> ∅)))
           2 [mk_call 0 current rv PyNone] [(1%nat, rv)].

(** [tpool_trampoline], at most [n] turns of its outer loop. *)
Fixpoint tpool_trampoline (n : nat) (s : state) : state * turn :=
  match n with
  | O => (s, Loops)
  | S n' =>
      match tpool_trampoline_turn s with
      | (s1, Loops) => tpool_trampoline n' s1
      | r => r
      end
  end.

(** What a worker answers to a request: the value returned or the
    [exc_info] of an exception it captures, and nothing when the exception
    leaves the worker. *)
Definition response (apply : pyobj -> pyobj -> pyobj -> result pyobj) (r : request)
  : option pyobj :=
  match apply (rq_meth r) (rq_args r) (rq_kwargs r) with
  | Return rv => Some rv
  | Raise x =>
      if SYS_EXCS x then None
      else if isinstance x "Exception" then Some (exc_info x) else None
  end.

(** What happens on the module, in the order it happens: a fiber calls
    [esend]; a worker thread takes a turn of its loop (a worker that has
    returned or died takes no more turns, the other workers go on); the
    bridge fiber takes a turn of its loop; [killall] queues a [None]; a
    fiber calls [e.wait()] in [erecv] and switches away if it has to. *)
Inductive move : Type :=
| Esend (meth args kwargs : pyobj)
| Await (g : fiber) (e : nat)
| Work
| Bridge
| Sentinel.

Section Moves.

Variable apply : pyobj -> pyobj -> pyobj -> result pyobj.

Definition move_step (m : move) (s : state) : state :=
  match m with
  | Esend meth args kwargs => (esend meth args kwargs s).1
  | Work => (tworker_turn apply s).1
  | Bridge => (tpool_trampoline_turn s).1
  | Sentinel => set_reqq (_reqq s ++ [None]) s
  | Await g e =>
      match events s !! e with
      | Some ev =>
          mk_state (_setup_already s) (_reqq s) (_rspq s) (pipe s)
                   (<[e := (wait g ev).1]> (events s)) (next_event s) (hub_calls s) (sent s)
      | None => s
      end
  end.

Fixpoint moves (ms : list move) (s : state) : state :=
  match ms with
  | [] => s
  | m :: rest => moves rest (move_step m s)
  end.

End Moves.

(** The events of the requests in a queue. *)
Definition pending (q : list (option request)) : list nat :=
  omap (fun m => rq_e <$> m) q.

(** The responses made so far, sent or still queued, oldest first. *)
Definition responses (s : state) : list (nat * pyobj) := sent s ++ _rspq s.

(** A module in working order: the pipe is open and holds a byte when a
    response is queued; no event has two of the queued requests and
    responses made; the events of the queued requests and of the queued
    responses are FRESH; and the events in use are below the next one. *)
Definition coherent (s : state) : Prop :=
  (exists k, pipe s = Some k /\ (_rspq s <> [] -> 1 <= k)) /\
  NoDup (pending (_reqq s) ++ map fst (responses s)) /\
  (forall e, e ∈ pending (_reqq s) ++ map fst (_rspq s) ->
     exists ev, events s !! e = Some ev /\ FRESH ev) /\
  (forall e, e ∈ pending (_reqq s) ++ map fst (responses s) -> e < next_event s).

(** *** Inputs used below *)

(** Two requests are served: the first returns 42, the second raises
    [ZeroDivisionError]; anything else would raise [SystemExit]. *)
Definition two_jobs : list (pyobj * pyobj * pyobj) :=
  [(PyObject 60, PyTuple [], PyObject 51); (PyObject 61, PyTuple [], PyObject 51)].

Definition forty_two_or_zero_division (meth args kwargs : pyobj) : result pyobj :=
  match meth with
  | PyObject 60 => Return (PyInt 42)
  | PyObject 61 => Raise (PyInstance ZeroDivisionError_mro "integer division or modulo by zero")
  | _ => Raise (PyInstance SystemExit_mro "")
  end.

(** A function that returns [(1, Exception("x"), None)]. *)
Definition returns_triple (meth args kwargs : pyobj) : result pyobj :=
  Return (PyTuple [PyInt 1; PyInstance Exception_mro "x"; PyNone]).

(** Two fibers call [execute] and wait: the call of the first returns 42,
    the call of the second raises [SystemExit]. *)
Definition answered_then_killed : list move :=
  [Esend (PyObject 60) (PyTuple []) (PyObject 51); Await 9 1;
   Esend (PyObject 62) (PyTuple []) (PyObject 51); Await 8 2].

End Tpool.

(** ** hubs/libevent.py *)

Module Libevent.

(** The truth value of an object in [if read:]. *)
Definition truthy (o : pyobj) : bool :=
  match o with
  | PyNone | PyInt 0 | PyStr EmptyString | PyTuple [] => false
  | _ => true
  end.

(** The events of the [event] module (pyevent), by what made them:
    [event.read(fileno, cb, fileno)], [event.write(fileno, cb, fileno)],
    [event.timeout(seconds, cb)] and [event.signal(...)]. *)
Inductive pyevent : Type :=
| EvRead (fileno : Z) (cb : pyobj)
| EvWrite (fileno : Z) (cb : pyobj)
| EvTimeout (seconds : pyobj)
| EvSignal.

(** The hub.  [readers], [writers] and [excs] are the dictionaries of
    [BaseHub]; an entry of [readers] or [writers] is the pair of an event,
    known by its identity, and the callback.  [added] holds the events that
    were added to libevent with [evt.add()] and not deleted since with
    [evt.delete()]: it stands for what libevent watches.  [squelched] is
    what [squelch_exception] was given. *)
Record Hub : Type := mk_Hub {
  interrupted : bool;
  readers : gmap Z (nat * pyobj);
  writers : gmap Z (nat * pyobj);
  excs : gmap Z pyobj;
  added : gmap nat pyevent;
  next_event : nat;
  squelched : list pyobj
}.

(** Modelled from the spec: [BaseHub.__init__] is not among the sources.
    A hub starts with no reader, writer or exception callback and nothing
    reported. *)
Definition BaseHub_init : Hub := mk_Hub false ∅ ∅ ∅ ∅ 0 [].

(** [Hub.__init__]: after [BaseHub.__init__] the flag is cleared, and the
    event of the SIGINT handler is made and added. *)
Definition Hub_init : Hub :=
  let h := BaseHub_init in
  mk_Hub false (readers h) (writers h) (excs h) (<[next_event h := EvSignal]> (added h))
         (S (next_event h)) (squelched h).

(** [Hub.add_descriptor] *)
Definition add_descriptor (fileno : Z) (read write exc : pyobj) (h : Hub) : Hub * Z :=
  let h1 :=
    if truthy read then
      mk_Hub (interrupted h) (<[fileno := (next_event h, read)]> (readers h)) (writers h)
             (excs h) (<[next_event h := EvRead fileno read]> (added h))
             (S (next_event h)) (squelched h)
    else h in
  let h2 :=
    if truthy write then
      mk_Hub (interrupted h1) (readers h1) (<[fileno := (next_event h1, write)]> (writers h1))
             (excs h1) (<[next_event h1 := EvWrite fileno write]> (added h1))
             (S (next_event h1)) (squelched h1)
    else h1 in
  let h3 :=
    if truthy exc then
      mk_Hub (interrupted h2) (readers h2) (writers h2) (<[fileno := exc]> (excs h2))
             (added h2) (next_event h2) (squelched h2)
    else h2 in
  (h3, fileno).

(** [tpl = queue.pop(fileno, None)] and [tpl[0].delete()], on what
    libevent watches. *)
Definition delete_popped (tpl : option (nat * pyobj)) (a : gmap nat pyevent)
  : gmap nat pyevent :=
  match tpl with
  | Some (evt, _) => delete evt a
  | None => a
  end.

(** [Hub.remove_descriptor] *)
Definition remove_descriptor (fileno : Z) (h : Hub) : Hub :=
  mk_Hub (interrupted h) (delete fileno (readers h)) (delete fileno (writers h))
         (delete fileno (excs h))
         (delete_popped (writers h !! fileno) (delete_popped (readers h !! fileno) (added h)))
         (next_event h) (squelched h).

(** [Hub.signal_received]; [event.abort()] makes the running
    [event.dispatch()] return. *)
Definition signal_received (h : Hub) : Hub :=
  mk_Hub true (readers h) (writers h) (excs h) (added h) (next_event h) (squelched h).

(** Modelled from the spec: [BaseHub.SYSTEM_EXCEPTIONS] is not among the
    sources; the system set is keyboard-interrupt and process-exit. *)
Definition SYSTEM_EXCEPTIONS (x : pyobj) : bool :=
  isinstance x "KeyboardInterrupt" || isinstance x "SystemExit".

(** Modelled from the spec: [BaseHub.squelch_exception] is not among the
    sources; it reports the exception and returns. *)
Definition squelch_exception (x : pyobj) (h : Hub) : Hub :=
  mk_Hub (interrupted h) (readers h) (writers h) (excs h) (added h) (next_event h)
         (squelched h ++ [x]).

Definition KeyboardInterrupt : pyobj := PyInstance KeyboardInterrupt_mro "".

(** [timer = event.timeout(seconds, lambda: None)] and [timer.add()] *)
Definition add_timeout (seconds : pyobj) (h : Hub) : Hub :=
  mk_Hub (interrupted h) (readers h) (writers h) (excs h)
         (<[next_event h := EvTimeout seconds]> (added h)) (S (next_event h)) (squelched h).

Section Wait.

(** [event.dispatch()]: libevent runs the callbacks of what it watches,
    which act on the hub, until it is aborted or the timeout fires; the call
    returns or raises. *)
Variable dispatch : Hub -> Hub * result unit.

(** [Hub.wait] *)
Definition wait (seconds : pyobj) (h : Hub) : Hub * result unit :=
  let timer := next_event h in
  match dispatch (add_timeout seconds h) with
  | (h2, out) =>
      let h3 := match out with
                | Return _ => h2
                | Raise x =>
                    if SYSTEM_EXCEPTIONS x
                    then mk_Hub true (readers h2) (writers h2) (excs h2) (added h2)
                                (next_event h2) (squelched h2)
                    else squelch_exception x h2
                end in
      let h4 := mk_Hub (interrupted h3) (readers h3) (writers h3) (excs h3)
                       (delete timer (added h3)) (next_event h3) (squelched h3) in
      if interrupted h4
      then (mk_Hub false (readers h4) (writers h4) (excs h4) (added h4) (next_event h4)
                   (squelched h4), Raise KeyboardInterrupt)
      else (h4, Return tt)
  end.

End Wait.

(** The dictionaries and libevent agree: every entry of [readers] and
    [writers] is watched as such, every read or write event watched is an
    entry, and the identities in use are below the next one. *)
Definition consistent (h : Hub) : Prop :=
  (forall f e cb, readers h !! f = Some (e, cb) <-> added h !! e = Some (EvRead f cb)) /\
  (forall f e cb, writers h !! f = Some (e, cb) <-> added h !! e = Some (EvWrite f cb)) /\
  (forall e ev, added h !! e = Some ev -> e < next_event h).

(** *** Inputs used below *)

(** A new hub that watches descriptor 4 for reading. *)
Definition reading_4 : Hub :=
  (add_descriptor 4 (PyObject 70) PyNone PyNone Hub_init).1.

End Libevent.

(** * Properties *)

Import Coros.

(** Conjuncts that hold by computation or by a hypothesis. *)
Ltac easy_conjuncts := repeat (split; [first [reflexivity | assumption]|]).

(** ** The one-shot event *)

Lemma is_NOT_USED_spec (o : pyobj) : is_NOT_USED o = true <-> o = NOT_USED.
Proof.
  unfold NOT_USED; split.
  - destruct o as [ |[|n]| | | | | | ]; simpl; intros H; congruence.
  - intros ->. reflexivity.
Qed.

Lemma is_NOT_USED_false (o : pyobj) : is_NOT_USED o = false <-> o <> NOT_USED.
Proof.
  rewrite <- is_NOT_USED_spec. destruct (is_NOT_USED o); split; congruence.
Qed.

Lemma fresh_is_NOT_USED (e : event) : FRESH e -> is_NOT_USED (_result e) = true.
Proof. intros H. now apply is_NOT_USED_spec. Qed.

Lemma triggered_is_NOT_USED (e : event) : TRIGGERED e -> is_NOT_USED (_result e) = false.
Proof. intros H. now apply is_NOT_USED_false. Qed.

Lemma fresh_or_triggered (e : event) : FRESH e \/ TRIGGERED e.
Proof.
  unfold FRESH, TRIGGERED. destruct (is_NOT_USED (_result e)) eqn:E.
  - left. now apply is_NOT_USED_spec.
  - right. now apply is_NOT_USED_false.
Qed.

(** A new event is FRESH, with no waiter. *)
Lemma event_init_fresh (now : Z) :
  event_init now = Return {| epoch := now; _result := NOT_USED; _exc := None; _waiters := ∅ |}.
Proof. reflexivity. Qed.

(** [raise] of an exception instance raises that very instance. *)
Lemma raise_stmt_instance (x : pyobj) :
  isinstance x "BaseException" = true -> raise_stmt x = x.
Proof.
  destruct x; simpl; try discriminate. intros ->. reflexivity.
Qed.

(** A fiber that calls [wait] on a TRIGGERED event whose [send] had an
    exception gets the exception raised. *)
Lemma wait_triggered_raises (g : fiber) (e : event) (x : pyobj) :
  TRIGGERED e -> _exc e = Some x -> isinstance x "BaseException" = true ->
  wait g e = (e, Raised x).
Proof.
  intros Ht Hx Hi. unfold wait. rewrite (triggered_is_NOT_USED _ Ht), Hx.
  destruct x; simpl in *; try discriminate. now rewrite Hi.
Qed.

(** The calls [send] schedules carry the result and no exception, whatever
    exception [send] was given: the hub resumes each waiter by a plain
    switch. *)
Lemma send_schedules_plain_switch (result x : pyobj) (e e' : event)
  (h h' : list scheduled_call) :
  send result x e h = Return (e', h') ->
  exists woken, h' = h ++ woken /\
    (forall g, g ∈ dom (_waiters e) <-> g ∈ map other woken) /\
    Forall (fun c => greenlib_switch c = (other c, SwitchTo result)) woken.
Proof.
  unfold send. destruct (is_NOT_USED (_result e)); [|discriminate].
  intros [= <- <-]. exists (wake_calls {| epoch := epoch e; _result := result;
    _exc := Some x; _waiters := _waiters e |}). split; [reflexivity|]. split.
  - intros g. unfold wake_calls; simpl. rewrite map_map; simpl.
    rewrite elem_of_dom. rewrite list_elem_of_fmap. split.
    + intros [b Hb]. exists (g, b). split; [reflexivity|]. now apply elem_of_map_to_list.
    + intros [[g' b] [-> Hb]]. exists b. now apply elem_of_map_to_list in Hb.
  - unfold wake_calls; simpl. apply Forall_forall. intros c Hc.
    apply list_elem_of_fmap in Hc as [[g b] [-> _]]. reflexivity.
Qed.

(** The doctest of [event.cancel]: a fiber blocked in [wait] is cancelled
    and gets [Cancelled] raised; a fiber that waits afterwards is not
    affected and receives what is sent. *)
Example cancel_doctest :
  match event_init 0 with
  | Return evt =>
      let (e1, h1) := cancel 7 (wait 7 evt).1 [] in
      let e2 := (wait 8 e1).1 in
      map greenlib_switch h1 = [(7%nat, ThrowInto Cancelled)] /\
      wait_resumed (ThrowInto Cancelled) = Raise Cancelled /\
      match send (PyStr "stuff") PyNone e2 h1 with
      | Return (_, h2) =>
          map greenlib_switch h2
          = [(7%nat, ThrowInto Cancelled); (8%nat, SwitchTo (PyStr "stuff"))]
      | Raise _ => False
      end
  | Raise _ => False
  end.
Proof. vm_compute. repeat split; reflexivity. Qed.

(** C1, on the code.  An event is made, fiber 7 blocks in [wait], and
    [send(exc=ValueError("boom"))] is called.  The event is TRIGGERED and
    stores the exception, and fiber 8, which calls [wait] afterwards, gets
    it raised; but the one call scheduled for fiber 7 is a plain switch
    with the value [None], so its [wait] returns [None] and raises
    nothing. *)
Theorem C1_blocked_waiter_gets_value_not_exception :
  (wait 7 {| epoch := 0; _result := NOT_USED; _exc := None; _waiters := ∅ |}).2 = Switched /\
  TRIGGERED blocked_then_sent.1 /\
  _exc blocked_then_sent.1 = Some (ValueError "boom") /\
  (wait 8 blocked_then_sent.1).2 = Raised (ValueError "boom") /\
  map greenlib_switch blocked_then_sent.2 = [(7, SwitchTo PyNone)] /\
  wait_resumed (SwitchTo PyNone) = Return PyNone.
Proof.
  repeat split; try reflexivity. vm_compute. discriminate.
Qed.

(** C4.  On a TRIGGERED event [send] raises the assertion error at the
    call and changes nothing: the shared state, and with it the stored
    value, exception and waiters of the event, is the one before the call.
    A [send] that returns was made on a FRESH event. *)
Theorem C4_send_on_triggered_raises (w : world) (id : nat) (e : event) (result x : pyobj) :
  heap w !! id = Some e ->
  (TRIGGERED e ->
     obj_send (PyObject id) result x w
     = (w, Raise (AssertionError "Trying to re-send() an already-triggered event."))
     /\ send result x e (calls w)
        = Raise (AssertionError "Trying to re-send() an already-triggered event.")) /\
  (forall w', obj_send (PyObject id) result x w = (w', Return tt) -> FRESH e).
Proof.
  intros Hid. unfold obj_send, bind, the_event. rewrite Hid. simpl. unfold send. split.
  - intros Ht. rewrite (triggered_is_NOT_USED _ Ht). split; reflexivity.
  - intros w'. destruct (is_NOT_USED (_result e)) eqn:E; [|discriminate].
    intros _. now apply is_NOT_USED_spec.
Qed.

Lemma C4_send_on_triggered_raises_witness :
  obj_send (PyObject 5) (PyInt 2) PyNone triggered_world
  = (triggered_world, Raise (AssertionError "Trying to re-send() an already-triggered event.")).
Proof.
  refine (proj1 (proj1 (C4_send_on_triggered_raises triggered_world 5
            {| epoch := 0; _result := PyInt 1; _exc := Some PyNone;
               _waiters := {[ 7%nat := true ]} |} (PyInt 2) PyNone _) _)).
  - reflexivity.
  - unfold TRIGGERED; simpl. discriminate.
Defined.

(** C5.  On a FRESH event and for values [x], [y] (objects other than the
    marker [NOT_USED], which is what makes an event FRESH): [send(x)],
    [reset()], [send(y)] all succeed and a [wait()] after them returns [y]
    at once.  [reset] succeeds exactly on a TRIGGERED event, and raises the
    assertion error on a FRESH one. *)
Theorem C5_send_reset_send_wait (now : Z) (e0 : event) (h0 : list scheduled_call)
  (x y : pyobj) (g : fiber) :
  FRESH e0 -> x <> NOT_USED -> y <> NOT_USED ->
  (exists e1 h1 e2 e3 h3,
     send x PyNone e0 h0 = Return (e1, h1) /\
     reset now e1 = Return e2 /\
     send y PyNone e2 h1 = Return (e3, h3) /\
     wait g e3 = (e3, Returned y)) /\
  (forall e : event, (exists e', reset now e = Return e') <-> TRIGGERED e) /\
  (forall e : event,
     FRESH e -> reset now e = Raise (AssertionError "Trying to re-reset() a fresh event.")).
Proof.
  intros Hf Hx Hy. split; [|split].
  - apply is_NOT_USED_false in Hx, Hy.
    set (e1 := {| epoch := epoch e0; _result := x; _exc := Some PyNone;
                  _waiters := _waiters e0 |}).
    set (e2 := {| epoch := now; _result := NOT_USED; _exc := Some PyNone; _waiters := ∅ |}).
    set (e3 := {| epoch := now; _result := y; _exc := Some PyNone; _waiters := ∅ |}).
    exists e1, (h0 ++ wake_calls e1), e2, e3, ((h0 ++ wake_calls e1) ++ wake_calls e3).
    unfold send, reset, wait. rewrite (fresh_is_NOT_USED _ Hf). simpl.
    rewrite Hx, Hy. repeat split; reflexivity.
  - intros e. unfold reset. split.
    + intros [e' H]. destruct (is_NOT_USED (_result e)) eqn:E; [discriminate|].
      now apply is_NOT_USED_false.
    + intros Ht. rewrite (triggered_is_NOT_USED _ Ht). eauto.
  - intros e He. unfold reset. now rewrite (fresh_is_NOT_USED _ He).
Qed.

Lemma C5_send_reset_send_wait_witness :
  exists e1 h1 e2 e3 h3,
    send (PyInt 1) PyNone {| epoch := 0; _result := NOT_USED; _exc := None; _waiters := ∅ |} []
    = Return (e1, h1) /\
    reset 3 e1 = Return e2 /\
    send (PyInt 2) PyNone e2 h1 = Return (e3, h3) /\
    wait 7 e3 = (e3, Returned (PyInt 2)).
Proof.
  refine (proj1 (C5_send_reset_send_wait 3
            {| epoch := 0; _result := NOT_USED; _exc := None; _waiters := ∅ |} []
            (PyInt 1) (PyInt 2) 7 _ _ _)).
  - reflexivity.
  - discriminate.
  - discriminate.
Defined.

(** ** The coroutine pool *)

Lemma after_job_spec (current : fiber) (sender : pyobj) (w : world) :
  Forall (fun tm => tm_greenlet tm = current -> tm_pending tm = false)
         (timers (after_job current sender w)) /\
  free_items (after_job current sender w) = free_items w ++ [sender] /\
  heap (after_job current sender w) = heap w /\
  calls (after_job current sender w) = calls w /\
  stderr (after_job current sender w) = stderr w.
Proof.
  unfold after_job, put, cancel_timers; simpl. repeat split.
  apply Forall_forall. intros tm Htm Hg.
  apply list_elem_of_fmap in Htm as [tm0 [-> Hin]].
  destruct (bool_decide (tm_greenlet tm0 = current)) eqn:Eb; simpl.
  - destruct (tm_pending tm0) eqn:Ep; [reflexivity | exact Ep].
  - simpl in Hg. apply bool_decide_eq_false in Eb. contradiction.
Qed.

Section Job.

Variable apply : pyobj -> pyobj -> pyobj -> M world pyobj.
Variables (current : fiber) (sid : nat) (s : event) (evt func args kw : pyobj).
Variables (w w2 : world).

Hypothesis Hsender : heap w !! sid = Some s.
Hypothesis Htriggered : TRIGGERED s.

Lemma job_unfold (out : result pyobj) :
  apply func args kw (sender_reset sid s w) = (w2, out) ->
  _main_loop_job apply current (PyObject sid) (PyTuple [evt; func; args; kw]) w
  = ((try_except
        (result <- (fun _ => (w2, out)) ;;
         if is_None evt then ret tt else obj_send evt result PyNone)
        (fun e =>
           if isinstance e "GreenletExit" then ret tt
           else if isinstance e "Exception" then
             print_exc e ;;;
             if is_None evt then ret tt else obj_send evt PyNone e
           else raise e) ;;;
      cancel_timers current ;;;
      put (PyObject sid))%py (sender_reset sid s w)).
Proof.
  intros Happly. unfold _main_loop_job, obj_reset, the_event, bind, lift, try_except.
  rewrite Hsender. cbn [fst snd]. unfold reset.
  rewrite (triggered_is_NOT_USED _ Htriggered). cbn [unpack4].
  fold (sender_reset sid s w). now rewrite Happly.
Qed.

(** [fn] raised [GreenletExit]: nothing is sent or printed. *)
Lemma job_greenlet_exit (e : pyobj) :
  apply func args kw (sender_reset sid s w) = (w2, Raise e) ->
  isinstance e "GreenletExit" = true ->
  _main_loop_job apply current (PyObject sid) (PyTuple [evt; func; args; kw]) w
  = (after_job current (PyObject sid) w2, Return tt).
Proof.
  intros Ha He. rewrite (job_unfold _ Ha). unfold try_except, bind. rewrite He. reflexivity.
Qed.

(** [fn] raised an ordinary exception and the job has no result event:
    the traceback is printed and nothing is sent. *)
Lemma job_exception_async (e : pyobj) :
  apply func args kw (sender_reset sid s w) = (w2, Raise e) ->
  isinstance e "GreenletExit" = false -> isinstance e "Exception" = true ->
  evt = PyNone ->
  _main_loop_job apply current (PyObject sid) (PyTuple [evt; func; args; kw]) w
  = (after_job current (PyObject sid) (print_exc e w2).1, Return tt).
Proof.
  intros Ha Hg He Hevt. rewrite (job_unfold _ Ha), Hevt.
  unfold try_except, bind. rewrite Hg, He. reflexivity.
Qed.

(** [fn] raised an ordinary exception and the job has a FRESH result
    event: the traceback is printed and the event is sent the exception. *)
Lemma job_exception_sent (e : pyobj) (id : nat) (ev : event) :
  apply func args kw (sender_reset sid s w) = (w2, Raise e) ->
  isinstance e "GreenletExit" = false -> isinstance e "Exception" = true ->
  evt = PyObject id -> heap w2 !! id = Some ev -> FRESH ev ->
  _main_loop_job apply current (PyObject sid) (PyTuple [evt; func; args; kw]) w
  = (after_job current (PyObject sid)
       (set_event id (holding_exc e ev) (calls w2 ++ wake_calls (holding_exc e ev))
                  (print_exc e w2).1),
     Return tt).
Proof.
  intros Ha Hg He Hevt Hid Hf. rewrite (job_unfold _ Ha), Hevt.
  unfold try_except, bind. rewrite Hg, He.
  cbn [is_None print_exc]. unfold obj_send, the_event, bind. cbn [heap fst snd].
  rewrite Hid. cbn [fst snd]. unfold send. rewrite (fresh_is_NOT_USED _ Hf). reflexivity.
Qed.

(** [fn] returned: the value is sent to the result event, if there is one. *)
Lemma job_returned (v : pyobj) :
  apply func args kw (sender_reset sid s w) = (w2, Return v) ->
  (evt = PyNone ->
   _main_loop_job apply current (PyObject sid) (PyTuple [evt; func; args; kw]) w
   = (after_job current (PyObject sid) w2, Return tt)) /\
  (forall id ev, evt = PyObject id -> heap w2 !! id = Some ev -> FRESH ev ->
   _main_loop_job apply current (PyObject sid) (PyTuple [evt; func; args; kw]) w
   = (after_job current (PyObject sid)
        (set_event id {| epoch := epoch ev; _result := v; _exc := Some PyNone;
                         _waiters := _waiters ev |}
                   (calls w2 ++ wake_calls {| epoch := epoch ev; _result := v;
                                              _exc := Some PyNone;
                                              _waiters := _waiters ev |}) w2),
      Return tt)).
Proof.
  intros Ha. split.
  - intros Hevt. rewrite (job_unfold _ Ha), Hevt. reflexivity.
  - intros id ev Hevt Hid Hf. rewrite (job_unfold _ Ha), Hevt. unfold try_except, bind.
    cbn [is_None]. unfold obj_send, the_event, bind. rewrite Hid. cbn [fst snd].
    unfold send. rewrite (fresh_is_NOT_USED _ Hf). reflexivity.
Qed.

End Job.

(** C7, on the code.  Fiber 9 calls [execute] with a function that raises
    [ValueError("boom")] and waits on the event it gets, before the worker
    (fiber 3) runs.  The worker captures the exception, prints it and calls
    [evt.send(exc=e)]: the event holds the exception, and fiber 8, which
    calls [wait] afterwards, gets it raised.  But the one call scheduled for
    the requester is a plain switch with [None]: its [wait] returns [None]
    and raises nothing.  The worker ends its turn with no timer of its own
    pending and back on the free list. *)
Theorem C7_blocked_requester_is_resumed_with_none :
  let r := _main_loop raises_boom 3 (PyObject 1) requested_world in
  (execute (PyObject 50) (PyTuple []) (PyObject 51) empty_world).2 = Return (PyObject 2) /\
  (_waiters <$> heap requested_world !! 2%nat) = Some {[ 9%nat := true ]} /\
  r.2 = Again /\
  stderr r.1 = [ValueError "boom"] /\
  (_exc <$> heap r.1 !! 2%nat) = Some (Some (ValueError "boom")) /\
  (obj_wait 8 (PyObject 2) r.1).2 = Return (Raised (ValueError "boom")) /\
  map greenlib_switch (calls r.1) = [(9%nat, SwitchTo PyNone)] /\
  wait_resumed (SwitchTo PyNone) = Return PyNone /\
  Forall (fun tm => tm_greenlet tm = 3%nat -> tm_pending tm = false) (timers r.1) /\
  free_items r.1 = [PyObject 1].
Proof.
  cbv zeta. repeat (split; [reflexivity|]). split; [constructor | reflexivity].
Qed.

(** ** The actor *)

Section ActorInvariant.

Variable received : pyobj -> received_does.

Lemma pairs_snoc (ms : list pyobj) (m : pyobj) :
  (pairs ms ++ [Enter m]) ++ [Leave m] = pairs (ms ++ [m]).
Proof.
  unfold pairs. rewrite flat_map_app. simpl. now rewrite <- app_assoc.
Qed.


Lemma entered_pairs (ms : list pyobj) : entered (pairs ms) = ms.
Proof. induction ms as [|m ms IH]; simpl; [reflexivity | now rewrite IH]. Qed.


(** The loop, started with a closed log, an idle event and turns enough,
    stops in a state of the invariant. *)
Lemma run_forever_inv : forall (mb : list pyobj) (a : Actor) (n : nat) (ms : list pyobj),
  _mailbox a = mb -> at_ a = Running -> log a = pairs ms -> hub a = [] ->
  idle_event (_event a) -> length mb + 2 <= n ->
  Inv received (ms ++ mb) (run_forever received n a) /\
  ((forall m, received m = Completes) -> at_ (run_forever received n a) = InWait).
Proof.
  induction mb as [|m rest IH]; intros a n ms Hmb Hat Hlog Hhub [Hw Hev] Hn.
  - destruct n as [|[|n]]; [simpl in Hn; lia | simpl in Hn; lia |].
    destruct a as [c mbx ev k h p l]. simpl in *. subst mbx h l.
    unfold wait. destruct Hev as [Hf | [Ht Hx]].
    + rewrite (fresh_is_NOT_USED _ Hf). simpl. split; [|reflexivity].
      unfold Inv; simpl. exists ms. rewrite Hw, insert_empty.
      repeat split; auto.
    + rewrite (triggered_is_NOT_USED _ Ht), Hx. simpl.
      unfold reset. rewrite (triggered_is_NOT_USED _ Ht). simpl. split; [|reflexivity].
      unfold Inv; simpl. exists ms. rewrite insert_empty.
      repeat split; auto. left. repeat split; reflexivity.
  - destruct n as [|n]; [simpl in Hn; lia|].
    destruct a as [c mbx ev k h p l]. simpl in *. subst mbx h l p.
    destruct (received m) eqn:Hr.
    + unfold popleft. simpl.
      match goal with |- context [run_forever received n ?a2] =>
        destruct (IH a2 n (ms ++ [m])) as [H1 H2] end; simpl; auto.
      * apply pairs_snoc.
      * split; assumption.
      * lia.
      * rewrite <- app_assoc in H1. simpl in H1. split; assumption.
    + split.
      * unfold Inv; simpl. exists ms, m, rest.
        repeat (split; [reflexivity|]). split; [unfold idle_event; split; assumption|].
        exists m. congruence.
      * intros Hall. rewrite Hall in Hr. discriminate.
    + split.
      * unfold Inv; simpl. exists ms, m, rest. rewrite pairs_snoc.
        repeat (split; [reflexivity|]). split; [now rewrite <- app_assoc|].
        exists m. congruence.
      * intros Hall. rewrite Hall in Hr. discriminate.
Qed.

Lemma only_message (mb : list pyobj) (m : pyobj) :
  (length (mb ++ [m]) =? 1)%nat = match mb with [] => true | _ => false end.
Proof.
  destruct mb as [|x mb]; [reflexivity|]. simpl. rewrite length_app. simpl.
  destruct (length mb); reflexivity.
Qed.

Lemma cast_inv (enq : list pyobj) (a : Actor) (m : pyobj) :
  Inv received enq a -> exists a', cast m a = Return a' /\ Inv received (enq ++ [m]) a'.
Proof.
  destruct a as [c mb ev k h p l]. unfold Inv, cast. simpl. rewrite only_message.
  destruct p; simpl.
  - intros (-> & -> & <- & Hw & [[-> Hf] | (Hne & Ht & Hx)]).
    + unfold send. rewrite (fresh_is_NOT_USED _ Hf). unfold wake_calls. simpl.
      rewrite Hw, map_to_list_empty. simpl. eexists. split; [reflexivity|]. simpl.
      easy_conjuncts. right.
      split; [discriminate|]. split; [unfold TRIGGERED; simpl; discriminate | reflexivity].
    + destruct mb as [|x mb]; [contradiction|]. eexists. split; [reflexivity|]. simpl.
      easy_conjuncts. right. split; [discriminate|]. split; assumption.
  - intros [].
  - intros (ms & -> & <- & Hw & [(-> & Hf & ->) | (Hne & Hr & Hx & ->)]).
    + unfold send. rewrite (fresh_is_NOT_USED _ Hf). unfold wake_calls. simpl.
      rewrite Hw, map_to_list_singleton. simpl. eexists. split; [reflexivity|]. simpl.
      exists ms. rewrite app_nil_r. easy_conjuncts.
      right. split; [discriminate|]. repeat split; reflexivity.
    + destruct mb as [|x mb]; [contradiction|]. eexists. split; [reflexivity|]. simpl.
      exists ms. rewrite <- app_assoc. easy_conjuncts.
      right. split; [discriminate|]. repeat split; assumption.
  - intros (ms & m0 & rest & -> & -> & <- & -> & Hidle & Hnc).
    eexists. split; [reflexivity|]. simpl. exists ms, m0, (rest ++ [m]).
    rewrite <- app_assoc. easy_conjuncts. assumption.
  - intros (ms & m0 & rest & -> & -> & <- & Hnc).
    eexists. split; [reflexivity|]. simpl. exists ms, m0, (rest ++ [m]).
    rewrite <- !app_assoc. easy_conjuncts. assumption.
Qed.

Lemma run_forever_hub (n : nat) : forall a : Actor,
  hub (run_forever received n a) = hub a.
Proof.
  induction n as [|n IH]; intros a; simpl; [reflexivity|].
  destruct (_mailbox a) as [|m rest] eqn:Hmb.
  - destruct (wait (_killer a) (_event a)) as [e1 [v|x|]]; try reflexivity.
    destruct (reset (clock a) e1); [rewrite IH|]; reflexivity.
  - destruct (received m); try reflexivity.
    unfold popleft. simpl. rewrite Hmb. cbn [at_ set_mailbox add_log].
    destruct (at_ a); try (rewrite IH); reflexivity.
Qed.

Lemma run_inv (enq : list pyobj) (a : Actor) :
  Inv received enq a ->
  Inv received enq (run received a) /\
  ((forall m, received m = Completes) ->
   at_ (run received a) = InWait /\ hub (run received a) = []).
Proof.
  intros H. unfold run. unfold Inv in H. destruct (at_ a) eqn:Hat.
  - destruct H as (Hlog & Hhub & Hmb & Hw & Hev).
    rewrite <- (app_nil_l enq), <- Hmb.
    destruct (run_forever_inv (_mailbox a) (set_at Running a) (turns a) []) as [H1 H2];
      try reflexivity; try assumption; try (unfold turns; simpl; lia).
    { split; [exact Hw|]. destruct Hev as [[_ Hf] | (_ & Ht & Hx)]; auto. }
    split; [exact H1|]. intros Hall. split; [now apply H2|].
    rewrite run_forever_hub. exact Hhub.
  - destruct H.
  - destruct H as (ms & Hlog & Hmb & Hw & [(Hm & Hf & Hh) | (Hne & Hr & Hx & Hh)]).
    + rewrite Hh. split; [|auto]. unfold Inv. rewrite Hat. exists ms.
      easy_conjuncts. left. auto.
    + rewrite Hh. unfold greenlib_switch. simpl.
      rewrite bool_decide_eq_true_2 by reflexivity. simpl.
      unfold reset. rewrite Hr. simpl. rewrite <- Hmb.
      match goal with |- context [run_forever received ?n ?a2] =>
        destruct (run_forever_inv (_mailbox a) a2 n ms) as [H1 H2] end;
        try reflexivity; try assumption; try (unfold turns; simpl; lia).
      { split; [reflexivity|]. left. reflexivity. }
      split; [exact H1|]. intros Hall. split; [now apply H2|].
      now rewrite run_forever_hub.
  - split; [unfold Inv; now rewrite Hat|].
    intros Hall. destruct H as (_ & _ & _ & _ & _ & _ & _ & _ & m' & Hm').
    destruct (Hm' (Hall m')).
  - split; [unfold Inv; now rewrite Hat|].
    intros Hall. destruct H as (_ & _ & _ & _ & _ & _ & m' & Hm').
    destruct (Hm' (Hall m')).
Qed.

Lemma resume_inv (enq : list pyobj) (a : Actor) (how : received_does) :
  Inv received enq a -> Inv received enq (resume received how a).
Proof.
  intros H. unfold resume. destruct (at_ a) eqn:Hat; try exact H.
  unfold Inv in H. rewrite Hat in H.
  destruct H as (ms & m & rest & Hmb & Hlog & Henq & Hh & Hidle & Hnc).
  rewrite Hmb. destruct how.
  - unfold popleft. cbn [add_log _mailbox]. rewrite Hmb.
    replace enq with ((ms ++ [m]) ++ rest) by (now rewrite <- app_assoc).
    match goal with |- context [run_forever received ?n ?a2] =>
      apply (run_forever_inv rest a2 n (ms ++ [m])) end;
      try reflexivity; try assumption; try (unfold turns; simpl; lia).
    simpl. rewrite Hlog. apply pairs_snoc.
  - unfold Inv. rewrite Hat. exists ms, m, rest. repeat split; auto; apply Hidle.
  - unfold Inv. simpl. exists ms, m, rest. rewrite Hlog, pairs_snoc.
    split; [exact Hmb|]. split; [reflexivity|]. split; [now rewrite <- app_assoc|].
    exact Hnc.
Qed.

Lemma steps_inv (acts : list action) : forall (enq : list pyobj) (a : Actor),
  Inv received enq a ->
  exists a', steps received acts a = Return a' /\ Inv received (enq ++ cast_messages acts) a'.
Proof.
  induction acts as [|act acts IH]; intros enq a H; simpl.
  - exists a. rewrite app_nil_r. auto.
  - destruct act as [m| |how]; simpl.
    + destruct (cast_inv enq a m H) as (a1 & -> & H1).
      destruct (IH _ _ H1) as (a' & E & H'). exists a'. split; [exact E|].
      now rewrite <- app_assoc in H'.
    + apply IH. now apply run_inv.
    + apply IH, resume_inv, H.
Qed.

Lemma steps_app (acts1 acts2 : list action) (a : Actor) :
  steps received (acts1 ++ acts2) a
  = match steps received acts1 a with
    | Return a' => steps received acts2 a'
    | Raise x => Raise x
    end.
Proof.
  revert a. induction acts1 as [|act acts1 IH]; intros a; simpl; [reflexivity|].
  destruct (step received act a); [apply IH | reflexivity].
Qed.


End ActorInvariant.

(** A new actor satisfies the invariant, no message being cast yet. *)
Lemma Actor_init_inv (received : pyobj -> received_does) (t : Z) (g : fiber) :
  exists a, Actor_init t g = Return a /\ Inv received [] a.
Proof.
  eexists. split; [reflexivity|]. unfold Inv; simpl. easy_conjuncts. left. split; reflexivity.
Qed.

(** The doctest of [Actor.received], run: each message is received once,
    in the order of the casts, and the actor ends waiting on a FRESH event. *)
Example greeter_doctest :
  match Actor_init 0 5 with
  | Return a0 =>
      match steps always_completes greeter_actions a0 with
      | Return a =>
          log a = pairs [PyStr "message 1"; PyStr "message 2"; PyStr "message 3"] /\
          at_ a = InWait /\ _mailbox a = [] /\ hub a = [] /\ _result (_event a) = NOT_USED
      | Raise _ => False
      end
  | Raise _ => False
  end.
Proof. vm_compute. repeat split; reflexivity. Qed.

(** ** More on the one-shot event *)

(** ** More on the one-shot event *)

(** What [send] does on a FRESH event. *)
Lemma send_fresh (result x : pyobj) (e : event) (h : list scheduled_call) :
  FRESH e ->
  exists woken,
    send result x e h
    = Return ({| epoch := epoch e; _result := result; _exc := Some x;
                 _waiters := _waiters e |}, h ++ woken) /\
    NoDup (map other woken) /\
    (forall g, g ∈ map other woken <-> g ∈ dom (_waiters e)) /\
    Forall (fun c => greenlib_switch c = (other c, SwitchTo result)) woken.
Proof.
  intros Hf. unfold send. rewrite (fresh_is_NOT_USED _ Hf).
  eexists. split; [reflexivity|]. unfold wake_calls; simpl. rewrite map_map; simpl.
  split; [apply NoDup_fst_map_to_list|]. split.
  - intros g. rewrite elem_of_dom, list_elem_of_fmap. split.
    + intros [[g' b] [-> Hb]]. exists b. now apply elem_of_map_to_list in Hb.
    + intros [b Hb]. exists (g, b). split; [reflexivity|]. now apply elem_of_map_to_list.
  - apply Forall_forall. intros c Hc.
    apply list_elem_of_fmap in Hc as [[g b] [-> _]]. reflexivity.
Qed.

(** What [wait] does on a FRESH event. *)
Lemma wait_fresh (g : fiber) (e : event) :
  FRESH e ->
  wait g e = ({| epoch := epoch e; _result := _result e; _exc := _exc e;
                 _waiters := <[g := true]> (_waiters e) |}, Switched).
Proof. intros Hf. unfold wait. now rewrite (fresh_is_NOT_USED _ Hf). Qed.

(** X1.  A [send] on a FRESH event stores the result and the exception,
    keeps the waiters, and appends to the hub one call per waiting fiber:
    every waiter has exactly one, no other fiber has any, and each call
    resumes its fiber by a plain switch with the result. *)
Theorem X1_send_wakes_each_waiter_once (result x : pyobj) (e : event)
  (h : list scheduled_call) :
  FRESH e ->
  exists woken,
    send result x e h
    = Return ({| epoch := epoch e; _result := result; _exc := Some x;
                 _waiters := _waiters e |}, h ++ woken) /\
    NoDup (map other woken) /\
    (forall g, g ∈ map other woken <-> g ∈ dom (_waiters e)) /\
    Forall (fun c => greenlib_switch c = (other c, SwitchTo result)) woken.
Proof. apply send_fresh. Qed.

Lemma X1_send_wakes_each_waiter_once_witness :
  exists woken,
    send (PyInt 4) PyNone (wait 8 (wait 7 just_made).1).1 []
    = Return ({| epoch := 0; _result := PyInt 4; _exc := Some PyNone;
                 _waiters := _waiters (wait 8 (wait 7 just_made).1).1 |}, [] ++ woken) /\
    NoDup (map other woken) /\
    (forall g, g ∈ map other woken <-> g ∈ dom (_waiters (wait 8 (wait 7 just_made).1).1)) /\
    Forall (fun c => greenlib_switch c = (other c, SwitchTo (PyInt 4))) woken.
Proof.
  exact (X1_send_wakes_each_waiter_once (PyInt 4) PyNone (wait 8 (wait 7 just_made).1).1 []
           eq_refl).
Defined.

(** X2.  The two round trips of an event.  After [send(x)] on a FRESH
    event, every [wait] returns [x] at once and leaves the event as it is.
    A fiber that called [wait] before, and was switched out, has a call on
    the hub after [send(x)] that resumes it with [x] as the value of its
    [wait]. *)
Theorem X2_send_wait_round_trips (x : pyobj) (e : event) (h : list scheduled_call)
  (g : fiber) :
  FRESH e -> x <> NOT_USED ->
  (exists e' h', send x PyNone e h = Return (e', h') /\
     forall g', wait g' e' = (e', Returned x)) /\
  ((wait g e).2 = Switched /\
   exists e' h', send x PyNone (wait g e).1 h = Return (e', h') /\
     exists c, c ∈ h' /\ greenlib_switch c = (g, SwitchTo x) /\
               wait_resumed (greenlib_switch c).2 = Return x).
Proof.
  intros Hf Hx. apply is_NOT_USED_false in Hx. split.
  - unfold send. rewrite (fresh_is_NOT_USED _ Hf). eexists _, _. split; [reflexivity|].
    intros g'. unfold wait. simpl. now rewrite Hx.
  - rewrite (wait_fresh g e Hf). split; [reflexivity|]. cbn [fst].
    destruct (send_fresh x PyNone
                {| epoch := epoch e; _result := _result e; _exc := _exc e;
                   _waiters := <[g := true]> (_waiters e) |} h Hf)
      as (woken & Hs & _ & Hiff & Hall).
    eexists _, _. split; [exact Hs|].
    assert (Hg : g ∈ map other woken).
    { apply Hiff. simpl. rewrite dom_insert_L. apply elem_of_union. left.
      now apply elem_of_singleton. }
    apply list_elem_of_fmap in Hg as (c & Hc & Hin).
    exists c. rewrite Forall_forall in Hall. rewrite (Hall c Hin), <- Hc.
    split; [apply elem_of_app; now right|]. split; reflexivity.
Qed.

Lemma X2_send_wait_round_trips_witness :
  (exists e' h', send (PyStr "result") PyNone just_made [] = Return (e', h') /\
     forall g', wait g' e' = (e', Returned (PyStr "result"))) /\
  ((wait 7 just_made).2 = Switched /\
   exists e' h', send (PyStr "result") PyNone (wait 7 just_made).1 [] = Return (e', h') /\
     exists c, c ∈ h' /\ greenlib_switch c = (7%nat, SwitchTo (PyStr "result")) /\
               wait_resumed (greenlib_switch c).2 = Return (PyStr "result")).
Proof.
  apply (X2_send_wait_round_trips (PyStr "result") just_made [] 7).
  - reflexivity.
  - discriminate.
Defined.

(** What [cancel] does to a fiber that waits. *)
Lemma cancel_waiting (w : fiber) (e : event) (h : list scheduled_call) :
  w ∈ dom (_waiters e) ->
  cancel w e h
  = ({| epoch := epoch e; _result := _result e; _exc := _exc e;
        _waiters := delete w (_waiters e) |}, h ++ [mk_call 0 w PyNone Cancelled]).
Proof.
  intros Hw. apply elem_of_dom in Hw as [b Hb]. unfold cancel. now rewrite Hb.
Qed.

(** X3.  [cancel(waiter)] on a fiber that does not wait changes nothing.
    On a fiber that waits on a FRESH event it takes the fiber out of the
    waiters, leaves the event FRESH, and schedules one call that throws
    [Cancelled] into the fiber; a [send] after it wakes every other waiter
    and not the cancelled one. *)
Theorem X3_cancel_targets_one_waiter (w : fiber) (e : event) (h : list scheduled_call)
  (result x : pyobj) :
  (w ∉ dom (_waiters e) -> cancel w e h = (e, h)) /\
  (w ∈ dom (_waiters e) -> FRESH e ->
   exists e1 c, cancel w e h = (e1, h ++ [c]) /\ FRESH e1 /\
     greenlib_switch c = (w, ThrowInto Cancelled) /\
     wait_resumed (greenlib_switch c).2 = Raise Cancelled /\
     exists e2 woken, send result x e1 (h ++ [c]) = Return (e2, (h ++ [c]) ++ woken) /\
       (w ∉ map other woken) /\
       (forall g, g <> w -> g ∈ dom (_waiters e) -> g ∈ map other woken)).
Proof.
  split.
  - intros Hw. apply not_elem_of_dom in Hw. unfold cancel. now rewrite Hw.
  - intros Hw Hf. rewrite (cancel_waiting w e h Hw).
    eexists _, _. split; [reflexivity|]. split; [exact Hf|].
    split; [reflexivity|]. split; [reflexivity|].
    destruct (send_fresh result x
                {| epoch := epoch e; _result := _result e; _exc := _exc e;
                   _waiters := delete w (_waiters e) |}
                (h ++ [mk_call 0 w PyNone Cancelled]) Hf)
      as (woken & Hs & _ & Hiff & _).
    eexists _, woken. split; [exact Hs|]. simpl in Hiff. split.
    + intros Hin. apply Hiff in Hin. rewrite dom_delete_L in Hin.
      apply elem_of_difference in Hin as [_ Hne]. apply Hne. now apply elem_of_singleton.
    + intros g Hne Hg. apply Hiff. rewrite dom_delete_L. apply elem_of_difference.
      split; [exact Hg|]. intros Heq. apply elem_of_singleton in Heq. contradiction.
Qed.

Lemma X3_cancel_targets_one_waiter_witness :
  exists e1 c, cancel 7 (wait 8 (wait 7 just_made).1).1 [] = (e1, [] ++ [c]) /\ FRESH e1 /\
    greenlib_switch c = (7%nat, ThrowInto Cancelled) /\
    wait_resumed (greenlib_switch c).2 = Raise Cancelled /\
    exists e2 woken,
      send (PyStr "stuff") PyNone e1 ([] ++ [c]) = Return (e2, ([] ++ [c]) ++ woken) /\
      (7%nat ∉ map other woken) /\
      (forall g, g <> 7%nat -> g ∈ dom (_waiters (wait 8 (wait 7 just_made).1).1) ->
                 g ∈ map other woken).
Proof.
  apply (X3_cancel_targets_one_waiter 7 (wait 8 (wait 7 just_made).1).1 [] (PyStr "stuff")
           PyNone).
  - apply elem_of_dom. exists true. reflexivity.
  - reflexivity.
Defined.

(** X4.  [reset] starts a new generation.  On a TRIGGERED event, whatever
    value or exception it holds and whoever waited on it, [reset] succeeds;
    a [send(y)] after it wakes none of the earlier waiters, and a [wait]
    after that returns [y], clear of the exception sent before. *)
Theorem X4_reset_starts_afresh (now : Z) (e : event) (h : list scheduled_call)
  (y : pyobj) (g : fiber) :
  TRIGGERED e -> y <> NOT_USED ->
  exists e1 e2, reset now e = Return e1 /\ FRESH e1 /\ _waiters e1 = ∅ /\
    send y PyNone e1 h = Return (e2, h) /\
    wait g e2 = (e2, Returned y).
Proof.
  intros Ht Hy. apply is_NOT_USED_false in Hy.
  unfold reset. rewrite (triggered_is_NOT_USED _ Ht).
  eexists _, _. split; [reflexivity|]. split; [reflexivity|]. split; [reflexivity|].
  unfold send, wake_calls; simpl. rewrite map_to_list_empty, app_nil_r.
  split; [reflexivity|]. unfold wait; simpl. now rewrite Hy.
Qed.

Lemma X4_reset_starts_afresh_witness :
  exists e1 e2, reset 3 blocked_then_sent.1 = Return e1 /\ FRESH e1 /\ _waiters e1 = ∅ /\
    send (PyInt 2) PyNone e1 [] = Return (e2, []) /\
    wait 8 e2 = (e2, Returned (PyInt 2)).
Proof.
  apply (X4_reset_starts_afresh 3 blocked_then_sent.1 [] (PyInt 2) 8).
  - vm_compute. discriminate.
  - discriminate.
Defined.

(** ** More on the coroutine pool *)

(** X5.  An exception of [func] that is neither [GreenletExit] nor an
    [Exception] leaves [_main_loop]: the state is the one [func] left,
    nothing is sent to the result event, no timer is cancelled and the
    sender is not put back on the free list. *)
Theorem X5_uncaught_exception_ends_worker
  (apply : pyobj -> pyobj -> pyobj -> M world pyobj) (current : fiber) (sid : nat)
  (s : event) (evt func args kw : pyobj) (w w2 : world) (e : pyobj) :
  heap w !! sid = Some s -> TRIGGERED s ->
  apply func args kw (sender_reset sid s w) = (w2, Raise e) ->
  isinstance e "GreenletExit" = false -> isinstance e "Exception" = false ->
  _main_loop_job apply current (PyObject sid) (PyTuple [evt; func; args; kw]) w
  = (w2, Raise e) /\
  _main_loop_resumed apply current (PyObject sid) (SwitchTo (PyTuple [evt; func; args; kw])) w
  = (w2, Died e).
Proof.
  intros Hs Ht Ha Hg He.
  assert (E : _main_loop_job apply current (PyObject sid) (PyTuple [evt; func; args; kw]) w
              = (w2, Raise e)).
  { rewrite (job_unfold apply current sid s evt func args kw w w2 Hs Ht _ Ha).
    unfold try_except, bind. now rewrite Hg, He. }
  split; [exact E|]. unfold _main_loop_resumed. cbn [wait_resumed]. now rewrite E.
Qed.

Lemma X5_uncaught_exception_ends_worker_witness :
  _main_loop_job raises_interrupt 3 (PyObject 1) (job_tuple (PyObject 2)) requested_world
  = (sender_reset 1 {| epoch := 0; _result := job_tuple (PyObject 2); _exc := Some PyNone;
                       _waiters := ∅ |} requested_world,
     Raise (PyInstance KeyboardInterrupt_mro "")).
Proof.
  refine (proj1 (X5_uncaught_exception_ends_worker raises_interrupt 3 1
            {| epoch := 0; _result := job_tuple (PyObject 2); _exc := Some PyNone;
               _waiters := ∅ |}
            (PyObject 2) (PyObject 50) (PyTuple []) (PyObject 51) requested_world _
            (PyInstance KeyboardInterrupt_mro "") _ _ _ _ _)).
  - reflexivity.
  - unfold TRIGGERED; simpl. discriminate.
  - reflexivity.
  - reflexivity.
  - reflexivity.
Defined.

(** X6.  When [func] returns and the result event is already TRIGGERED,
    [evt.send(result)] raises inside the [try]; the handler prints the
    assertion error and calls [evt.send(exc=e)], which raises again, this
    time out of [_main_loop].  The event keeps what it held, no timer is
    cancelled and the sender is not put back on the free list. *)
Theorem X6_send_on_triggered_result_event_ends_worker
  (apply : pyobj -> pyobj -> pyobj -> M world pyobj) (current : fiber) (sid : nat)
  (s : event) (evt func args kw : pyobj) (w w2 : world) (v : pyobj) (id : nat) (ev : event) :
  heap w !! sid = Some s -> TRIGGERED s ->
  apply func args kw (sender_reset sid s w) = (w2, Return v) ->
  evt = PyObject id -> heap w2 !! id = Some ev -> TRIGGERED ev ->
  let err := AssertionError "Trying to re-send() an already-triggered event." in
  _main_loop_job apply current (PyObject sid) (PyTuple [evt; func; args; kw]) w
  = ((print_exc err w2).1, Raise err).
Proof.
  intros Hs Ht Ha Hevt Hid Hev err.
  rewrite (job_unfold apply current sid s evt func args kw w w2 Hs Ht _ Ha), Hevt.
  unfold try_except, bind. cbn [is_None]. unfold obj_send, the_event, bind.
  rewrite Hid. cbn [fst snd]. unfold send. rewrite (triggered_is_NOT_USED _ Hev).
  replace (isinstance (AssertionError "Trying to re-send() an already-triggered event.")
                      "GreenletExit") with false by reflexivity.
  replace (isinstance (AssertionError "Trying to re-send() an already-triggered event.")
                      "Exception") with true by reflexivity.
  unfold print_exc. cbn [heap fst snd]. rewrite Hid. cbn [fst snd].
  rewrite (triggered_is_NOT_USED _ Hev). reflexivity.
Qed.

Lemma X6_send_on_triggered_result_event_ends_worker_witness :
  (_main_loop_job sends_then_returns_42 3 (PyObject 1) (job_tuple (PyObject 2))
     requested_world).2
  = Raise (AssertionError "Trying to re-send() an already-triggered event.").
Proof.
  refine (f_equal snd
    (X6_send_on_triggered_result_event_ends_worker sends_then_returns_42 3 1
       {| epoch := 0; _result := job_tuple (PyObject 2); _exc := Some PyNone; _waiters := ∅ |}
       (PyObject 2) (PyObject 50) (PyTuple []) (PyObject 51) requested_world _ (PyInt 42) 2
       {| epoch := 0; _result := PyInt 1; _exc := Some PyNone;
          _waiters := {[ 9%nat := true ]} |} _ _ eq_refl eq_refl _ _)).
  - reflexivity.
  - unfold TRIGGERED; simpl. discriminate.
  - reflexivity.
  - unfold TRIGGERED; simpl. discriminate.
Defined.

(** A turn of [_main_loop] on a FRESH sender registers the worker and
    switches to the hub. *)
Lemma main_loop_waits (apply : pyobj -> pyobj -> pyobj -> M world pyobj) (current : fiber)
  (sid : nat) (s : event) (w : world) :
  heap w !! sid = Some s -> FRESH s ->
  _main_loop apply current (PyObject sid) w
  = (set_event sid (wait current s).1 (calls w) w, Suspended) /\
  current ∈ dom (_waiters (wait current s).1).
Proof.
  intros Hs Hf. unfold _main_loop, obj_wait, bind, the_event. rewrite Hs. cbn [fst snd].
  rewrite (wait_fresh current s Hf). split; [reflexivity|]. cbn [fst _waiters].
  rewrite dom_insert_L. apply elem_of_union. left. now apply elem_of_singleton.
Qed.

(** X7.  A worker is reusable after each job.  When [func] returns or
    raises [GreenletExit] or an [Exception], leaves the worker's sender
    alone, and the job has no result event or a FRESH one other than the
    sender: the turn ends normally with the sender FRESH, without waiters,
    last on the free list; and the next turn of [_main_loop] waits on it,
    the worker registered as its waiter. *)
Theorem X7_worker_is_reusable_after_a_job
  (apply : pyobj -> pyobj -> pyobj -> M world pyobj) (current : fiber) (sid : nat)
  (s : event) (evt func args kw : pyobj) (w w2 : world) (out : result pyobj) :
  heap w !! sid = Some s -> TRIGGERED s ->
  apply func args kw (sender_reset sid s w) = (w2, out) ->
  heap w2 !! sid = heap (sender_reset sid s w) !! sid ->
  match out with
  | Return _ => True
  | Raise e => isinstance e "GreenletExit" = true \/ isinstance e "Exception" = true
  end ->
  (evt = PyNone \/
   exists id ev, evt = PyObject id /\ id <> sid /\ heap w2 !! id = Some ev /\ FRESH ev) ->
  exists w3,
    _main_loop_job apply current (PyObject sid) (PyTuple [evt; func; args; kw]) w
    = (w3, Return tt) /\
    heap w3 !! sid = Some (reset_sender w s) /\
    free_items w3 = free_items w2 ++ [PyObject sid] /\
    (_main_loop apply current (PyObject sid) w3).2 = Suspended /\
    current ∈ dom (_waiters (wait current (reset_sender w s)).1).
Proof.
  intros Hs Ht Ha Hkeep Hout Hevt.
  assert (Hsid : heap w2 !! sid = Some (reset_sender w s)).
  { rewrite Hkeep. unfold sender_reset, set_event; cbn [heap]. apply lookup_insert_eq. }
  assert (Hgoal : forall w', heap w' !! sid = Some (reset_sender w s) ->
            free_items w' = free_items w2 ->
            _main_loop_job apply current (PyObject sid) (PyTuple [evt; func; args; kw]) w
            = (after_job current (PyObject sid) w', Return tt) ->
            exists w3,
              _main_loop_job apply current (PyObject sid) (PyTuple [evt; func; args; kw]) w
              = (w3, Return tt) /\
              heap w3 !! sid = Some (reset_sender w s) /\
              free_items w3 = free_items w2 ++ [PyObject sid] /\
              (_main_loop apply current (PyObject sid) w3).2 = Suspended /\
              current ∈ dom (_waiters (wait current (reset_sender w s)).1)).
  { intros w' Hh Hfree E. exists (after_job current (PyObject sid) w').
    destruct (after_job_spec current (PyObject sid) w') as (_ & Hf & Hheap & _).
    split; [exact E|]. rewrite Hheap, Hf, Hfree. split; [exact Hh|]. split; [reflexivity|].
    assert (Hh' : heap (after_job current (PyObject sid) w') !! sid
                  = Some (reset_sender w s)) by now rewrite Hheap.
    destruct (main_loop_waits apply current sid _ _ Hh' eq_refl) as [-> Hin].
    split; [reflexivity | exact Hin]. }
  destruct out as [v|e].
  - destruct (job_returned apply current sid s evt func args kw w w2 Hs Ht v Ha) as [E1 E2].
    destruct Hevt as [Hn | (id & ev & Hid & Hne & Hev & Hf)].
    + apply (Hgoal w2 Hsid eq_refl (E1 Hn)).
    + refine (Hgoal _ _ _ (E2 id ev Hid Hev Hf)); [|reflexivity].
      unfold set_event; cbn [heap]. now rewrite lookup_insert_ne.
  - destruct (isinstance e "GreenletExit") eqn:Hg.
    + apply (Hgoal w2 Hsid eq_refl).
      exact (job_greenlet_exit apply current sid s evt func args kw w w2 Hs Ht e Ha Hg).
    + destruct Hout as [Hout | He]; [discriminate|].
      destruct Hevt as [Hn | (id & ev & Hid & Hne & Hev & Hf)].
      * refine (Hgoal _ _ _
                  (job_exception_async apply current sid s evt func args kw w w2 Hs Ht
                     e Ha Hg He Hn)); [exact Hsid | reflexivity].
      * refine (Hgoal _ _ _
                  (job_exception_sent apply current sid s evt func args kw w w2 Hs Ht
                     e id ev Ha Hg He Hid Hev Hf)); [|reflexivity].
        unfold set_event, print_exc; cbn [heap fst]. now rewrite lookup_insert_ne.
Qed.

Lemma X7_worker_is_reusable_after_a_job_witness :
  exists w3,
    _main_loop_job raises_boom 3 (PyObject 1) (job_tuple (PyObject 2)) requested_world
    = (w3, Return tt) /\
    heap w3 !! 1%nat
    = Some (reset_sender requested_world
              {| epoch := 0; _result := job_tuple (PyObject 2); _exc := Some PyNone;
                 _waiters := ∅ |}) /\
    free_items w3 = [] ++ [PyObject 1] /\
    (_main_loop raises_boom 3 (PyObject 1) w3).2 = Suspended /\
    3%nat ∈ dom (_waiters (wait 3 (reset_sender requested_world
              {| epoch := 0; _result := job_tuple (PyObject 2); _exc := Some PyNone;
                 _waiters := ∅ |})).1).
Proof.
  refine (X7_worker_is_reusable_after_a_job raises_boom 3 1
            {| epoch := 0; _result := job_tuple (PyObject 2); _exc := Some PyNone;
               _waiters := ∅ |}
            (PyObject 2) (PyObject 50) (PyTuple []) (PyObject 51) requested_world _ _
            _ _ eq_refl eq_refl _ _).
  - reflexivity.
  - unfold TRIGGERED; simpl. discriminate.
  - right. reflexivity.
  - right. exists 2%nat, (wait 9 just_made).1.
    split; [reflexivity|]. split; [lia|]. split; reflexivity.
Defined.

Lemma next_id_new (w : world) : next_id w <> 0%nat /\ heap w !! next_id w = None.
Proof.
  unfold next_id.
  pose proof (is_fresh ({[ 0%nat ]} ∪ dom (heap w))) as Hf.
  split.
  - intros E. apply Hf. apply elem_of_union. left. now apply elem_of_singleton.
  - apply not_elem_of_dom. intros Hin. apply Hf. apply elem_of_union. now right.
Qed.

Lemma new_event_spec (w : world) :
  new_event w
  = ({| now := now w;
        heap := <[next_id w := {| epoch := now w; _result := NOT_USED; _exc := None;
                                  _waiters := ∅ |}]> (heap w);
        calls := calls w; timers := timers w; free_items := free_items w;
        stderr := stderr w |}, Return (PyObject (next_id w))).
Proof. reflexivity. Qed.

Lemma execute_free (func args kw : pyobj) (sid : nat) (s : event) (rest : list pyobj)
  (w : world) :
  free_items w = PyObject sid :: rest -> heap w !! sid = Some s -> FRESH s ->
  execute func args kw w
  = (handed_over sid s rest func args kw w, Return (PyObject (next_id w))).
Proof.
  intros Hfree Hs Hf. destruct (next_id_new w) as [_ Hnone].
  assert (Hne : next_id w <> sid) by (intros E; rewrite E in Hnone; congruence).
  unfold execute, bind, get. rewrite Hfree. cbn [fst snd]. rewrite new_event_spec.
  cbn [fst snd now heap calls timers free_items stderr].
  unfold obj_send, the_event, bind. cbn [heap fst snd].
  rewrite lookup_insert_ne by exact Hne. rewrite Hs. cbn [fst snd calls].
  unfold send. rewrite (fresh_is_NOT_USED _ Hf). reflexivity.
Qed.

Lemma wake_calls_waiter (g : fiber) (e : event) :
  g ∈ dom (_waiters e) ->
  exists c, c ∈ wake_calls e /\ greenlib_switch c = (g, SwitchTo (_result e)).
Proof.
  intros Hin. apply elem_of_dom in Hin as [b Hb].
  exists (mk_call 0 g (_result e) PyNone). split; [|reflexivity].
  unfold wake_calls. apply list_elem_of_fmap. exists (g, b). split; [reflexivity|].
  now apply elem_of_map_to_list.
Qed.

(** X8.  [CoroutinePool.execute] with a free worker whose sender is FRESH
    and on which the worker waits: the call returns a new event, FRESH and
    without waiters, which is neither the sender nor [NOT_USED]; the worker
    leaves the free list; the hub gets a call that resumes the worker with
    the job tuple, whose first component is the returned event; and the other
    events are untouched. *)
Theorem X8_execute_hands_job_to_free_worker (func args kw : pyobj) (sid : nat) (s : event)
  (rest : list pyobj) (w : world) (worker : fiber) :
  free_items w = PyObject sid :: rest ->
  heap w !! sid = Some s -> FRESH s -> worker ∈ dom (_waiters s) ->
  exists rid w1,
    execute func args kw w = (w1, Return (PyObject rid)) /\
    PyObject rid <> NOT_USED /\ rid <> sid /\ heap w !! rid = None /\
    (exists r, heap w1 !! rid = Some r /\ FRESH r /\ _waiters r = ∅) /\
    (exists s1, heap w1 !! sid = Some s1 /\ TRIGGERED s1) /\
    free_items w1 = rest /\
    (exists c, c ∈ calls w1 /\
       greenlib_switch c = (worker, SwitchTo (PyTuple [PyObject rid; func; args; kw]))) /\
    (forall id, id <> sid -> id <> rid -> heap w1 !! id = heap w !! id).
Proof.
  intros Hfree Hs Hf Hw. destruct (next_id_new w) as [H0 Hnone].
  assert (Hne : next_id w <> sid) by (intros E; rewrite E in Hnone; congruence).
  exists (next_id w), (handed_over sid s rest func args kw w).
  split; [now apply execute_free|].
  split; [unfold NOT_USED; congruence|]. split; [exact Hne|]. split; [exact Hnone|].
  unfold handed_over; cbn [heap calls free_items]. split; [|split; [|split; [|split]]].
  - eexists. rewrite lookup_insert_ne by congruence. rewrite lookup_insert_eq.
    split; [reflexivity|]. split; reflexivity.
  - eexists. rewrite lookup_insert_eq. split; [reflexivity|].
    unfold TRIGGERED, holding_job, NOT_USED; cbn. discriminate.
  - reflexivity.
  - destruct (wake_calls_waiter worker (holding_job (next_id w) func args kw s) Hw)
      as (c & Hc & Hsw).
    exists c. split; [|exact Hsw]. apply elem_of_app. now right.
  - intros id H1 H2. rewrite lookup_insert_ne by congruence.
    now rewrite lookup_insert_ne by congruence.
Qed.

Lemma X8_execute_hands_job_to_free_worker_witness :
  exists rid w1,
    execute (PyObject 50) (PyTuple []) (PyObject 51) one_free_worker
    = (w1, Return (PyObject rid)) /\
    PyObject rid <> NOT_USED /\ rid <> 1%nat /\ heap one_free_worker !! rid = None /\
    (exists r, heap w1 !! rid = Some r /\ FRESH r /\ _waiters r = ∅) /\
    (exists s1, heap w1 !! 1%nat = Some s1 /\ TRIGGERED s1) /\
    free_items w1 = [] /\
    (exists c, c ∈ calls w1 /\
       greenlib_switch c
       = (3%nat, SwitchTo (PyTuple [PyObject rid; PyObject 50; PyTuple []; PyObject 51]))) /\
    (forall id, id <> 1%nat -> id <> rid -> heap w1 !! id = heap one_free_worker !! id).
Proof.
  refine (X8_execute_hands_job_to_free_worker (PyObject 50) (PyTuple []) (PyObject 51) 1
            (wait 3 just_made).1 [] one_free_worker 3 eq_refl _ eq_refl _).
  - reflexivity.
  - apply elem_of_dom. exists true. reflexivity.
Defined.

Lemma holding_job_triggered (rid : nat) (func args kw : pyobj) (s : event) :
  TRIGGERED (holding_job rid func args kw s).
Proof. unfold TRIGGERED, holding_job, NOT_USED; cbn. discriminate. Qed.

(** A worker resumed with a job whose function returns [v] and touches
    nothing sends [v] to the FRESH result event [r]. *)
Lemma resumed_job_returns (apply : pyobj -> pyobj -> pyobj -> M world pyobj)
  (worker : fiber) (sid rid : nat) (s r : event) (func args kw v : pyobj) (w : world) :
  (forall w', apply func args kw w' = (w', Return v)) ->
  heap w !! sid = Some s -> TRIGGERED s -> rid <> sid ->
  heap w !! rid = Some r -> FRESH r ->
  _main_loop_resumed apply worker (PyObject sid)
    (SwitchTo (PyTuple [PyObject rid; func; args; kw])) w
  = (after_job worker (PyObject sid)
       (set_event rid {| epoch := epoch r; _result := v; _exc := Some PyNone;
                         _waiters := _waiters r |}
          (calls w ++ wake_calls {| epoch := epoch r; _result := v; _exc := Some PyNone;
                                    _waiters := _waiters r |})
          (sender_reset sid s w)), Again).
Proof.
  intros Hpure Hs Ht Hne Hr Hf. unfold _main_loop_resumed. cbn [wait_resumed].
  destruct (job_returned apply worker sid s (PyObject rid) func args kw w
              (sender_reset sid s w) Hs Ht v (Hpure _)) as [_ E].
  rewrite (E rid r eq_refl); [reflexivity | | exact Hf].
  unfold sender_reset, set_event; cbn [heap]. now rewrite lookup_insert_ne by congruence.
Qed.

(** X9.  The round trip through the pool.  With a free worker whose sender
    is FRESH and a function that returns [v] (not [NOT_USED]) and touches
    nothing: once the worker, resumed with the job [execute] sent it, has
    finished its turn, [wait] on the event [execute] returned gives [v] to
    any fiber; and a fiber that waited before the worker ran is suspended,
    and the worker's turn schedules a call that resumes it with [v]. *)
Theorem X9_pool_execute_then_wait_gives_the_result
  (apply : pyobj -> pyobj -> pyobj -> M world pyobj) (worker : fiber)
  (func args kw v : pyobj) (sid : nat) (s : event) (rest : list pyobj) (w : world) :
  free_items w = PyObject sid :: rest -> heap w !! sid = Some s -> FRESH s ->
  (forall w', apply func args kw w' = (w', Return v)) -> v <> NOT_USED ->
  exists rid w1,
    execute func args kw w = (w1, Return (PyObject rid)) /\
    (exists w3,
       _main_loop_resumed apply worker (PyObject sid)
         (SwitchTo (PyTuple [PyObject rid; func; args; kw])) w1 = (w3, Again) /\
       forall g, (obj_wait g (PyObject rid) w3).2 = Return (Returned v)) /\
    (forall g,
       (obj_wait g (PyObject rid) w1).2 = Return Switched /\
       exists w3 c,
         _main_loop_resumed apply worker (PyObject sid)
           (SwitchTo (PyTuple [PyObject rid; func; args; kw]))
           (obj_wait g (PyObject rid) w1).1 = (w3, Again) /\
         c ∈ calls w3 /\ greenlib_switch c = (g, SwitchTo v)).
Proof.
  intros Hfree Hs Hf Hpure Hv. apply is_NOT_USED_false in Hv.
  destruct (next_id_new w) as [H0 Hnone].
  assert (Hne : next_id w <> sid) by (intros E; rewrite E in Hnone; congruence).
  set (rid := next_id w) in *.
  set (r := {| epoch := now w; _result := NOT_USED; _exc := None; _waiters := ∅ |}).
  set (s1 := holding_job rid func args kw s).
  set (w1 := handed_over sid s rest func args kw w).
  assert (Hs1 : heap w1 !! sid = Some s1) by (unfold w1, handed_over; cbn [heap];
    apply lookup_insert_eq).
  assert (Hr1 : heap w1 !! rid = Some r).
  { unfold w1, handed_over; cbn [heap]. fold rid.
    rewrite lookup_insert_ne by congruence. apply lookup_insert_eq. }
  exists rid, w1. split; [now apply execute_free|]. split.
  - eexists. split.
    + apply (resumed_job_returns apply worker sid rid s1 r func args kw v w1 Hpure Hs1
               (holding_job_triggered _ _ _ _ _) Hne Hr1 eq_refl).
    + intros g. destruct (after_job_spec worker (PyObject sid)
        (set_event rid {| epoch := epoch r; _result := v; _exc := Some PyNone;
                          _waiters := _waiters r |}
           (calls w1 ++ wake_calls {| epoch := epoch r; _result := v; _exc := Some PyNone;
                                      _waiters := _waiters r |})
           (sender_reset sid s1 w1))) as (_ & _ & Hheap & _).
      unfold obj_wait, the_event, bind. rewrite Hheap. unfold set_event at 1; cbn [heap].
      rewrite lookup_insert_eq. cbn [fst snd]. unfold wait; cbn [_result _exc].
      rewrite Hv. reflexivity.
  - intros g.
    assert (Hwait : obj_wait g (PyObject rid) w1
                    = (set_event rid (wait g r).1 (calls w1) w1, Return Switched)).
    { unfold obj_wait, the_event, bind. rewrite Hr1. reflexivity. }
    rewrite Hwait. cbn [fst snd]. split; [reflexivity|].
    set (w1b := set_event rid (wait g r).1 (calls w1) w1).
    assert (Hs1b : heap w1b !! sid = Some s1).
    { unfold w1b, set_event; cbn [heap]. rewrite lookup_insert_ne by congruence. exact Hs1. }
    assert (Hr1b : heap w1b !! rid = Some (wait g r).1).
    { unfold w1b, set_event; cbn [heap]. apply lookup_insert_eq. }
    eexists. 
    destruct (wake_calls_waiter g
                {| epoch := epoch (wait g r).1; _result := v; _exc := Some PyNone;
                   _waiters := _waiters (wait g r).1 |}) as (c & Hc & Hsw).
    { cbn. rewrite dom_insert_L. apply elem_of_union. left. now apply elem_of_singleton. }
    exists c. split.
    + apply (resumed_job_returns apply worker sid rid s1 (wait g r).1 func args kw v w1b
               Hpure Hs1b (holding_job_triggered _ _ _ _ _) Hne Hr1b eq_refl).
    + split; [|exact Hsw].
      destruct (after_job_spec worker (PyObject sid)
        (set_event rid {| epoch := epoch (wait g r).1; _result := v; _exc := Some PyNone;
                          _waiters := _waiters (wait g r).1 |}
           (calls w1b ++ wake_calls {| epoch := epoch (wait g r).1; _result := v;
                                       _exc := Some PyNone;
                                       _waiters := _waiters (wait g r).1 |})
           (sender_reset sid s1 w1b))) as (_ & _ & _ & Hcalls & _).
      rewrite Hcalls. unfold set_event at 1; cbn [calls]. apply elem_of_app. now right.
Qed.

Lemma X9_pool_execute_then_wait_gives_the_result_witness :
  exists rid w1,
    execute (PyObject 50) (PyTuple []) (PyObject 51) one_free_worker
    = (w1, Return (PyObject rid)) /\
    (exists w3,
       _main_loop_resumed returns_42 3 (PyObject 1)
         (SwitchTo (PyTuple [PyObject rid; PyObject 50; PyTuple []; PyObject 51])) w1
       = (w3, Again) /\
       forall g, (obj_wait g (PyObject rid) w3).2 = Return (Returned (PyInt 42))) /\
    (forall g,
       (obj_wait g (PyObject rid) w1).2 = Return Switched /\
       exists w3 c,
         _main_loop_resumed returns_42 3 (PyObject 1)
           (SwitchTo (PyTuple [PyObject rid; PyObject 50; PyTuple []; PyObject 51]))
           (obj_wait g (PyObject rid) w1).1 = (w3, Again) /\
         c ∈ calls w3 /\ greenlib_switch c = (g, SwitchTo (PyInt 42))).
Proof.
  refine (X9_pool_execute_then_wait_gives_the_result returns_42 3 (PyObject 50) (PyTuple [])
            (PyObject 51) (PyInt 42) 1 (wait 3 just_made).1 [] one_free_worker
            eq_refl _ eq_refl _ _).
  - reflexivity.
  - intros w'. reflexivity.
  - discriminate.
Defined.

(** ** The module's execute *)

(** X10.  [execute] of the module and its coroutine, for a function that
    touches nothing.  The call returns a new event; a fiber that waits on
    it before the coroutine runs is suspended.  When the function returns
    [v] (not [NOT_USED]), the coroutine schedules a call that resumes the
    fiber with [v], and a later [wait] returns [v].  When the function
    raises, the coroutine ends with the exception and changes nothing: the
    event stays FRESH, the fiber stays among its waiters and no call is
    scheduled for it. *)
Theorem X10_coros_execute_delivers_values_only
  (apply : pyobj -> pyobj -> pyobj -> M world pyobj) (func args kw : pyobj)
  (out : result pyobj) (g : fiber) (w : world) :
  (forall w', apply func args kw w' = (w', out)) ->
  exists rid w1,
    coros_execute w = (w1, Return (PyObject rid)) /\ heap w !! rid = None /\
    (obj_wait g (PyObject rid) w1).2 = Return Switched /\
    let w2 := (obj_wait g (PyObject rid) w1).1 in
    let r := _really_execute apply (PyObject rid) func args kw w2 in
    match out with
    | Return v =>
        v <> NOT_USED ->
        r.2 = Return tt /\
        (exists c, c ∈ calls r.1 /\ greenlib_switch c = (g, SwitchTo v)) /\
        (forall g', (obj_wait g' (PyObject rid) r.1).2 = Return (Returned v))
    | Raise e =>
        r = (w2, Raise e) /\ calls w2 = calls w /\
        exists ev, heap w2 !! rid = Some ev /\ FRESH ev /\ g ∈ dom (_waiters ev)
    end.
Proof.
  intros Hpure. destruct (next_id_new w) as [H0 Hnone].
  exists (next_id w). eexists. split; [apply new_event_spec|]. split; [exact Hnone|].
  set (r0 := {| epoch := now w; _result := NOT_USED; _exc := None; _waiters := ∅ |}).
  match goal with |- context [obj_wait g _ ?x] => set (w1 := x) end.
  assert (Hwait : obj_wait g (PyObject (next_id w)) w1
                  = (set_event (next_id w) (wait g r0).1 (calls w1) w1, Return Switched)).
  { unfold obj_wait, the_event, bind. unfold w1 at 1; cbn [heap].
    rewrite lookup_insert_eq. reflexivity. }
  rewrite Hwait. cbn [fst snd]. split; [reflexivity|].
  unfold _really_execute, bind. rewrite Hpure. destruct out as [v|e]; cbn [fst snd].
  - intros Hv. apply is_NOT_USED_false in Hv.
    set (sent_v := {| epoch := now w; _result := v; _exc := Some PyNone;
                      _waiters := <[g := true]> ∅ |}).
    assert (Hsend : obj_send (PyObject (next_id w)) v PyNone
                      (set_event (next_id w) (wait g r0).1 (calls w1) w1)
                    = (set_event (next_id w) sent_v (calls w1 ++ wake_calls sent_v)
                         (set_event (next_id w) (wait g r0).1 (calls w1) w1), Return tt)).
    { unfold obj_send, the_event, bind, set_event; cbn [heap].
      rewrite lookup_insert_eq. reflexivity. }
    rewrite Hsend. cbn [fst snd]. split; [reflexivity|]. split.
    + exists (mk_call 0 g v PyNone). split; [|reflexivity].
      unfold set_event at 1; cbn [calls]. apply elem_of_app. right.
      unfold wake_calls, sent_v; cbn [_waiters _result].
      rewrite insert_empty, map_to_list_singleton. cbn. now apply list_elem_of_singleton.
    + intros g'. unfold obj_wait, the_event, bind, set_event; cbn [heap].
      rewrite lookup_insert_eq. cbn [fst snd]. unfold wait, sent_v; cbn [_result _exc].
      rewrite Hv. reflexivity.
  - split; [reflexivity|]. split; [reflexivity|].
    eexists. unfold set_event; cbn [heap]. rewrite lookup_insert_eq.
    split; [reflexivity|]. split; [reflexivity|]. cbn.
    rewrite dom_insert_L. apply elem_of_union. left. now apply elem_of_singleton.
Qed.

Lemma X10_coros_execute_delivers_values_only_witness :
  exists rid w1,
    coros_execute empty_world = (w1, Return (PyObject rid)) /\
    heap empty_world !! rid = None /\
    (obj_wait 9 (PyObject rid) w1).2 = Return Switched /\
    let w2 := (obj_wait 9 (PyObject rid) w1).1 in
    let r := _really_execute raises_boom (PyObject rid) (PyObject 50) (PyTuple [])
               (PyObject 51) w2 in
    r = (w2, Raise (ValueError "boom")) /\ calls w2 = calls empty_world /\
    exists ev, heap w2 !! rid = Some ev /\ FRESH ev /\ 9%nat ∈ dom (_waiters ev).
Proof.
  exact (X10_coros_execute_delivers_values_only raises_boom (PyObject 50) (PyTuple [])
           (PyObject 51) (Raise (ValueError "boom")) 9 empty_world (fun _ => eq_refl)).
Defined.

(** ** More on the actor *)

Section ActorEnds.

Variable received : pyobj -> received_does.

(** A dead actor with a message at the head of its mailbox stays as it
    is, but for the messages cast to it. *)
Lemma dead_steps (x : pyobj) (acts : list action) : forall a : Actor,
  at_ a = Dead x -> _mailbox a <> [] ->
  exists a', steps received acts a = Return a' /\
    at_ a' = Dead x /\ log a' = log a /\ hub a' = hub a /\ _event a' = _event a /\
    _mailbox a' = _mailbox a ++ cast_messages acts.
Proof.
  induction acts as [|act acts IH]; intros a Hat Hmb.
  - exists a. simpl. rewrite app_nil_r. easy_conjuncts. reflexivity.
  - destruct act as [m| |how]; simpl.
    + unfold cast. cbn [set_mailbox _mailbox]. rewrite only_message.
      destruct (_mailbox a) as [|m0 mb] eqn:E; [congruence|].
      destruct (IH (set_mailbox ((m0 :: mb) ++ [m]) a)) as (a' & Es & H1 & H2 & H3 & H4 & H5).
      * exact Hat.
      * simpl. discriminate.
      * exists a'. split; [exact Es|]. rewrite H1, H2, H3, H4, H5. simpl.
        easy_conjuncts. now rewrite <- app_assoc.
    + unfold run. rewrite Hat. apply (IH a Hat Hmb).
    + unfold resume. rewrite Hat. apply (IH a Hat Hmb).
Qed.

(** The loop on a mailbox whose first messages complete and whose next
    one fails. *)
Lemma run_forever_fails (x m : pyobj) (rest : list pyobj) :
  received m = Fails x ->
  forall (ms : list pyobj) (a : Actor) (n : nat),
    Forall (fun m' => received m' = Completes) ms ->
    _mailbox a = ms ++ m :: rest -> at_ a = Running -> length ms < n ->
    let a' := run_forever received n a in
    at_ a' = Dead x /\ log a' = log a ++ pairs (ms ++ [m]) /\ _mailbox a' = m :: rest /\
    hub a' = hub a /\ _event a' = _event a.
Proof.
  intros Hm. induction ms as [|m0 ms IH]; intros a n Hall Hmb Hat Hn.
  - destruct n as [|n]; [simpl in Hn; lia|]. simpl in *. rewrite Hmb, Hm. simpl.
    easy_conjuncts. split; [|split; [exact Hmb | split; reflexivity]].
    now rewrite <- app_assoc.
  - destruct n as [|n]; [simpl in Hn; lia|]. simpl in Hn.
    apply Forall_cons in Hall as [Hm0 Hall]. cbn zeta. cbn [run_forever].
    rewrite Hmb. cbn [app]. rewrite Hm0. unfold popleft. cbn [add_log _mailbox].
    rewrite Hmb. cbn [app set_mailbox add_log at_]. rewrite Hat.
    match goal with |- context [run_forever received n ?b] =>
      destruct (IH b n Hall eq_refl Hat ltac:(lia)) as (H1 & H2 & H3 & H4 & H5) end.
    split; [exact H1|]. split; [|split; [exact H3 | split; [exact H4 | exact H5]]].
    rewrite H2. cbn [log set_mailbox add_log]. rewrite <- !app_assoc. reflexivity.
Qed.

(** Casts leave the fiber where it stands and queue the messages. *)
Lemma casts_queue (ms : list pyobj) : forall (enq : list pyobj) (a : Actor),
  Inv received enq a ->
  exists a', steps received (map Cast ms) a = Return a' /\ Inv received (enq ++ ms) a' /\
    at_ a' = at_ a /\ log a' = log a /\ _mailbox a' = _mailbox a ++ ms.
Proof.
  induction ms as [|m ms IH]; intros enq a H.
  - exists a. simpl. rewrite !app_nil_r. easy_conjuncts. reflexivity.
  - simpl. destruct (cast_inv received enq a m H) as (a1 & E1 & H1). rewrite E1.
    destruct (IH _ _ H1) as (a' & E & H' & Hat & Hlog & Hmb).
    exists a'. split; [exact E|]. rewrite <- app_assoc in H'. split; [exact H'|].
    assert (Hc : at_ a1 = at_ a /\ log a1 = log a /\ _mailbox a1 = _mailbox a ++ [m]).
    { unfold cast in E1. destruct (_ =? 1)%nat.
      - destruct (send _ _ _ _) as [[e' h']|]; [|discriminate].
        injection E1 as <-. repeat split.
      - injection E1 as <-. repeat split. }
    destruct Hc as (Hc1 & Hc2 & Hc3). rewrite Hat, Hlog, Hmb, Hc1, Hc2, Hc3.
    easy_conjuncts. now rewrite <- app_assoc.
Qed.

End ActorEnds.

(** X11.  The first message whose [received] raises kills the actor.  A
    new actor is cast messages of which the first [ms] complete and the next
    one, [m], raises [x]; when its fiber first runs, [received] is called with
    the messages of [ms] and with [m], in this order and each once, the fiber
    dies with [x], [m] stays at the head of the mailbox and the messages
    behind it are never received. *)
Theorem X11_failing_received_kills_the_actor (received : pyobj -> received_does)
  (t : Z) (g : fiber) (ms rest : list pyobj) (m x : pyobj) :
  Forall (fun m' => received m' = Completes) ms -> received m = Fails x ->
  exists a0 a,
    Actor_init t g = Return a0 /\
    steps received (map Cast (ms ++ m :: rest) ++ [Run]) a0 = Return a /\
    at_ a = Dead x /\ log a = pairs (ms ++ [m]) /\ entered (log a) = ms ++ [m] /\
    _mailbox a = m :: rest.
Proof.
  intros Hall Hm. destruct (Actor_init_inv received t g) as (a0 & E0 & H0).
  destruct (casts_queue received (ms ++ m :: rest) [] a0 H0) as (a1 & E1 & _ & Hat & Hlog & Hmb).
  assert (Hs : at_ a0 = Spawned /\ log a0 = [] /\ _mailbox a0 = []).
  { unfold Actor_init in E0. simpl in E0. injection E0 as <-. repeat split. }
  destruct Hs as (Hs1 & Hs2 & Hs3). rewrite Hs1 in Hat. rewrite Hs2 in Hlog.
  rewrite Hs3 in Hmb. simpl in Hmb.
  exists a0, (run received a1). split; [exact E0|]. rewrite steps_app, E1. simpl.
  split; [reflexivity|]. unfold run. rewrite Hat.
  destruct (run_forever_fails received x m rest Hm ms (set_at Running a1) (turns a1) Hall)
    as (H1 & H2 & H3 & _).
  - exact Hmb.
  - reflexivity.
  - unfold turns. rewrite Hmb, length_app. simpl. lia.
  - cbn [log set_at] in H2. rewrite Hlog in H2. simpl in H2.
    split; [exact H1|]. split; [exact H2|]. split; [|exact H3].
    rewrite H2. apply entered_pairs.
Qed.

Lemma X11_failing_received_kills_the_actor_witness :
  exists a0 a,
    Actor_init 0 5 = Return a0 /\
    steps received (map Cast ([] ++ PyStr "hello" :: [PyStr "again"]) ++ [Run]) a0
    = Return a /\
    at_ a = Dead (PyInstance ("NotImplementedError" :: RuntimeError_mro) "") /\
    log a = pairs ([] ++ [PyStr "hello"]) /\ entered (log a) = [] ++ [PyStr "hello"] /\
    _mailbox a = PyStr "hello" :: [PyStr "again"].
Proof.
  apply (X11_failing_received_kills_the_actor received 0 5 [] [PyStr "again"] (PyStr "hello")
           (PyInstance ("NotImplementedError" :: RuntimeError_mro) "")).
  - constructor.
  - reflexivity.
Defined.

(** X12.  A dead actor is never revived.  Once the fiber of an actor has
    died, whatever happens next, no [cast] raises, the fiber stays dead with
    the same exception, [received] is not called again, nothing is scheduled
    on the hub and the messages cast pile up in the mailbox. *)
Theorem X12_dead_actor_only_queues (received : pyobj -> received_does) (t : Z) (g : fiber)
  (acts1 acts2 : list action) (a0 a : Actor) (x : pyobj) :
  Actor_init t g = Return a0 -> steps received acts1 a0 = Return a -> at_ a = Dead x ->
  exists a', steps received acts2 a = Return a' /\
    at_ a' = Dead x /\ log a' = log a /\ hub a' = hub a /\ _event a' = _event a /\
    _mailbox a' = _mailbox a ++ cast_messages acts2.
Proof.
  intros E0 E1 Hat. destruct (Actor_init_inv received t g) as (a0' & E0' & H0).
  rewrite E0 in E0'. injection E0' as <-.
  destruct (steps_inv received acts1 [] a0 H0) as (a1 & E1' & H1).
  rewrite E1 in E1'. injection E1' as <-.
  apply dead_steps; [exact Hat|].
  unfold Inv in H1. rewrite Hat in H1. destruct H1 as (ms & m & rest & -> & _). discriminate.
Qed.

Lemma X12_dead_actor_only_queues_witness :
  exists a', steps received [Cast (PyStr "more"); Run; Resume Completes]
               (run received (set_signal
                  {| epoch := 0; _result := PyNone; _exc := Some PyNone; _waiters := ∅ |} []
                  (mk_Actor 0 [PyStr "hello"] event_class 5 [] Spawned []))) = Return a' /\
    at_ a' = Dead (PyInstance ("NotImplementedError" :: RuntimeError_mro) "") /\
    log a' = [Enter (PyStr "hello"); Leave (PyStr "hello")] /\ hub a' = [] /\
    _event a' = {| epoch := 0; _result := PyNone; _exc := Some PyNone; _waiters := ∅ |} /\
    _mailbox a' = [PyStr "hello"] ++ cast_messages [Cast (PyStr "more"); Run; Resume Completes].
Proof.
  exact (X12_dead_actor_only_queues received 0 5 [Cast (PyStr "hello"); Run]
           [Cast (PyStr "more"); Run; Resume Completes] _ _ _ eq_refl eq_refl eq_refl).
Defined.

(** ** What the actor receives *)

Section ActorSettles.

Variable received : pyobj -> received_does.

(** No call of [received] raises when it is entered. *)
Hypothesis never_fails : forall m x, received m <> Fails x.











End ActorSettles.




(** ** The pipe *)

Lemma append_nil_r (s : string) : (s ++ "")%string = s.
Proof.
  induction s as [|c s IH]; [reflexivity|].
  change (String c (s ++ "")%string = String c s). now rewrite IH.
Qed.

Lemma append_assoc (s1 s2 s3 : string) :
  ((s1 ++ s2) ++ s3)%string = (s1 ++ (s2 ++ s3))%string.
Proof.
  induction s1 as [|c s1 IH]; [reflexivity|].
  change (String c ((s1 ++ s2) ++ s3)%string = String c (s1 ++ (s2 ++ s3))%string).
  now rewrite IH.
Qed.

Lemma substring_all (s : string) : String.substring 0 (String.length s) s = s.
Proof. induction s as [|c s IH]; simpl; [reflexivity | now rewrite IH]. Qed.

(** A string is its two slices at a bound within it. *)
Lemma substring_split (s : string) : forall k : nat,
  k <= String.length s ->
  (String.substring 0 k s ++ String.substring k (String.length s - k) s)%string = s /\
  String.length (String.substring 0 k s) = k.
Proof.
  induction s as [|c s IH]; intros k Hk.
  - simpl in Hk. assert (k = 0) as -> by lia. split; reflexivity.
  - destruct k as [|k].
    + simpl. rewrite substring_all. split; reflexivity.
    + simpl in Hk. destruct (IH k ltac:(lia)) as [E L]. split.
      * change (String c (String.substring 0 k s
                          ++ String.substring k (String.length s - k) s)%string
                = String c s). now rewrite E.
      * simpl. now rewrite L.
Qed.

Lemma slice_bound_le (num : Z) (n : nat) : Pipe.slice_bound num n <= n.
Proof. unfold Pipe.slice_bound. destruct (num <? 0)%Z eqn:E; lia. Qed.

Lemma joined_snoc (l : list string) (s : string) :
  Pipe.joined (l ++ [s]) = (Pipe.joined l ++ s)%string.
Proof.
  unfold Pipe.joined. induction l as [|x l IH].
  - change ((s ++ "")%string = s). apply append_nil_r.
  - change ((x ++ fold_right String.append "" (l ++ [s]))%string
            = ((x ++ fold_right String.append "" l) ++ s)%string).
    rewrite IH. now rewrite append_assoc.
Qed.

(** [take] splits the buffer in two. *)
Lemma take_splits (num : Z) (p : Pipe.pipe) :
  ((Pipe.take num p).2 ++ Pipe._buffer (Pipe.take num p).1)%string = Pipe._buffer p /\
  Pipe._event (Pipe.take num p).1 = Pipe._event p /\
  Pipe.hub (Pipe.take num p).1 = Pipe.hub p /\
  Pipe.clock (Pipe.take num p).1 = Pipe.clock p.
Proof.
  unfold Pipe.take. destruct (num >=? _)%Z; simpl.
  - rewrite append_nil_r. repeat split.
  - split; [|repeat split]. unfold Pipe.slice_to, Pipe.slice_from.
    apply substring_split, slice_bound_le.
Qed.

(** A [send] on a pipe whose event is FRESH. *)
Lemma pipe_send_fresh (txt : string) (p : Pipe.pipe) :
  FRESH (Pipe._event p) ->
  exists woken,
    Pipe.send txt p
    = (Pipe.mk_pipe (Pipe.clock p)
         {| epoch := Pipe.clock p; _result := NOT_USED; _exc := None; _waiters := ∅ |}
         (Pipe._buffer p ++ txt)%string (Pipe.hub p ++ woken), Return tt) /\
    NoDup (map other woken) /\
    (forall g, g ∈ map other woken <-> g ∈ dom (_waiters (Pipe._event p))) /\
    Forall (fun c => greenlib_switch c = (other c, SwitchTo PyNone)) woken.
Proof.
  intros Hf. destruct (send_fresh PyNone PyNone (Pipe._event p) (Pipe.hub p) Hf)
    as (woken & E & H1 & H2 & H3).
  exists woken. unfold Pipe.send. rewrite event_init_fresh, E. auto.
Qed.

(** X13.  A pipe is a stream.  From a new pipe, whatever calls of [send]
    and [recv] follow, with any sizes asked for (negative ones too), and
    whenever suspended receivers are resumed: no call raises, the pipe's
    event stays FRESH, and the strings returned by [recv] so far, in order,
    followed by the buffer, are exactly the strings sent so far, in
    order. *)
Theorem X13_pipe_keeps_the_stream (t : Z) (acts : list Pipe.action) :
  exists p0 p got,
    Pipe.pipe_init t = Return p0 /\ Pipe.steps acts p0 [] = Return (p, got) /\
    FRESH (Pipe._event p) /\
    (Pipe.joined got ++ Pipe._buffer p)%string = Pipe.sent acts.
Proof.
  eexists. cut (forall (p : Pipe.pipe) (got : list string),
    FRESH (Pipe._event p) ->
    exists p' got', Pipe.steps acts p got = Return (p', got') /\
      FRESH (Pipe._event p') /\
      (Pipe.joined got' ++ Pipe._buffer p')%string
      = ((Pipe.joined got ++ Pipe._buffer p) ++ Pipe.sent acts)%string).
  { intros H. destruct (H (Pipe.mk_pipe t
        {| epoch := t; _result := NOT_USED; _exc := None; _waiters := ∅ |} "" []) []
        eq_refl) as (p' & got' & E & Hf & Hs).
    exists p', got'. split; [reflexivity|]. split; [exact E|]. split; [exact Hf|].
    exact Hs. }
  induction acts as [|act acts IH]; intros p got Hf.
  - exists p, got. simpl. rewrite append_nil_r. auto.
  - destruct act as [txt|g num|num]; simpl.
    + destruct (pipe_send_fresh txt p Hf) as (woken & -> & _).
      match goal with |- context [Pipe.steps acts ?q got] =>
        destruct (IH q got eq_refl) as (p' & got' & E & Hf' & Hs) end.
      exists p', got'. split; [exact E|]. split; [exact Hf'|]. rewrite Hs. simpl.
      now rewrite !append_assoc.
    + unfold Pipe.recv. destruct (Pipe._buffer p) as [|c b] eqn:Hb.
      * rewrite (wait_fresh g _ Hf).
        match goal with |- context [Pipe.steps acts ?q got] =>
          destruct (IH q got Hf) as (p' & got' & E & Hf' & Hs) end.
        exists p', got'. split; [exact E|]. split; [exact Hf'|]. rewrite Hs. reflexivity.
      * destruct (take_splits num p) as (Hs & He & _).
        destruct (Pipe.take num p) as [p1 buf]. simpl in Hs, He.
        destruct (IH p1 (got ++ [buf])) as (p' & got' & E & Hf' & Hs').
        { unfold FRESH. rewrite He. exact Hf. }
        exists p', got'. split; [exact E|]. split; [exact Hf'|]. rewrite Hs'.
        rewrite joined_snoc, (append_assoc (Pipe.joined got)), Hs, Hb. reflexivity.
    + unfold Pipe.recv_resumed. cbn [wait_resumed].
      destruct (take_splits num p) as (Hs & He & _).
      destruct (Pipe.take num p) as [p1 buf]. simpl in Hs, He.
      destruct (IH p1 (got ++ [buf])) as (p' & got' & E & Hf' & Hs').
      { unfold FRESH. rewrite He. exact Hf. }
      exists p', got'. split; [exact E|]. split; [exact Hf'|]. rewrite Hs'.
      rewrite joined_snoc, (append_assoc (Pipe.joined got)), Hs. reflexivity.
Qed.

(** X14.  [recv] on a pipe that holds data returns at once, without
    touching the event or the hub: what it returns and what it leaves in the
    buffer are the two parts of the buffer; it returns the whole buffer when
    [num] is at least its length, [num] characters when [num] is smaller and
    not negative, and all but the last [-num] characters when [num] is
    negative. *)
Theorem X14_pipe_recv_takes_a_prefix (g : fiber) (num : Z) (p : Pipe.pipe) :
  Pipe._buffer p <> "" ->
  exists buf p',
    Pipe.recv g num p = (p', Pipe.Got buf) /\
    (buf ++ Pipe._buffer p')%string = Pipe._buffer p /\
    Pipe._event p' = Pipe._event p /\ Pipe.hub p' = Pipe.hub p /\
    let n := Z.of_nat (String.length (Pipe._buffer p)) in
    Z.of_nat (String.length buf)
    = (if (num <? 0)%Z then Z.max 0 (n + num) else Z.min num n).
Proof.
  intros Hne. unfold Pipe.recv. destruct (Pipe._buffer p) as [|c b] eqn:Hb; [congruence|].
  destruct (take_splits num p) as (Hs & He & Hh & _).
  assert (Hlen : Z.of_nat (String.length (Pipe.take num p).2)
                 = (if (num <? 0)%Z
                    then Z.max 0 (Z.of_nat (String.length (Pipe._buffer p)) + num)
                    else Z.min num (Z.of_nat (String.length (Pipe._buffer p))))).
  { unfold Pipe.take. destruct (num >=? _)%Z eqn:E; simpl.
    - destruct (num <? 0)%Z eqn:E0; lia.
    - unfold Pipe.slice_to.
      rewrite (proj2 (substring_split _ _ (slice_bound_le num _))).
      unfold Pipe.slice_bound. destruct (num <? 0)%Z eqn:E0; lia. }
  destruct (Pipe.take num p) as [p1 buf]. simpl in *.
  exists buf, p1. rewrite <- Hb. easy_conjuncts. rewrite Hlen, Hb. reflexivity.
Qed.

Lemma X14_pipe_recv_takes_a_prefix_witness :
  exists buf p',
    Pipe.recv 7 (-2) (Pipe.mk_pipe 0 just_made "abcde" []) = (p', Pipe.Got buf) /\
    (buf ++ Pipe._buffer p')%string = "abcde" /\
    Pipe._event p' = just_made /\ Pipe.hub p' = [] /\
    Z.of_nat (String.length buf) = 3%Z.
Proof.
  refine (X14_pipe_recv_takes_a_prefix 7 (-2) (Pipe.mk_pipe 0 just_made "abcde" []) _).
  simpl. discriminate.
Defined.

(** X15.  A receiver blocked on an empty pipe gets what is sent next.  On
    a pipe with an empty buffer and a FRESH event, [recv] suspends the
    caller; the next [send] schedules a call that resumes it by a plain
    switch, and installs a new event on which nobody waits; resumed, the
    call of [recv] returns the string sent when [num] is at least its
    length, and leaves the buffer empty. *)
Theorem X15_pipe_send_wakes_blocked_receiver (g : fiber) (num : Z) (txt : string)
  (p : Pipe.pipe) :
  Pipe._buffer p = "" -> FRESH (Pipe._event p) ->
  (Z.of_nat (String.length txt) <= num)%Z ->
  exists p1 p2 c p3,
    Pipe.recv g num p = (p1, Pipe.Waits) /\
    Pipe.send txt p1 = (p2, Return tt) /\
    c ∈ Pipe.hub p2 /\ greenlib_switch c = (g, SwitchTo PyNone) /\
    FRESH (Pipe._event p2) /\ _waiters (Pipe._event p2) = ∅ /\
    Pipe.recv_resumed (greenlib_switch c).2 num p2 = (p3, Pipe.Got txt) /\
    Pipe._buffer p3 = "".
Proof.
  intros Hb Hf Hnum.
  assert (Hrecv : Pipe.recv g num p
                  = (Pipe.mk_pipe (Pipe.clock p) (wait g (Pipe._event p)).1 "" (Pipe.hub p),
                     Pipe.Waits)).
  { unfold Pipe.recv. rewrite Hb, (wait_fresh g _ Hf). reflexivity. }
  destruct (pipe_send_fresh txt
              (Pipe.mk_pipe (Pipe.clock p) (wait g (Pipe._event p)).1 "" (Pipe.hub p)))
    as (woken & Es & _ & Hw & Hall).
  { simpl. rewrite (wait_fresh g _ Hf). exact Hf. }
  assert (Hin : g ∈ map other woken).
  { apply Hw. simpl. rewrite (wait_fresh g _ Hf). simpl. rewrite dom_insert_L.
    apply elem_of_union. left. now apply elem_of_singleton. }
  apply list_elem_of_fmap in Hin as (c & Hg & Hc).
  pose proof (proj1 (Forall_forall _ _) Hall c Hc) as Hsw. cbv beta in Hsw. rewrite <- Hg in Hsw.
  eexists _, _, c, _. split; [exact Hrecv|]. split; [exact Es|].
  split; [simpl; apply elem_of_app; now right|]. split; [exact Hsw|].
  split; [reflexivity|]. split; [reflexivity|].
  rewrite Hsw. unfold Pipe.recv_resumed, Pipe.take. simpl.
  change ("" ++ txt)%string with txt.
  destruct (num >=? _)%Z eqn:E; [|lia]. split; reflexivity.
Qed.

Lemma X15_pipe_send_wakes_blocked_receiver_witness :
  exists p1 p2 c p3,
    Pipe.recv 7 16384 (Pipe.mk_pipe 0 just_made "" []) = (p1, Pipe.Waits) /\
    Pipe.send "data" p1 = (p2, Return tt) /\
    c ∈ Pipe.hub p2 /\ greenlib_switch c = (7%nat, SwitchTo PyNone) /\
    FRESH (Pipe._event p2) /\ _waiters (Pipe._event p2) = ∅ /\
    Pipe.recv_resumed (greenlib_switch c).2 16384 p2 = (p3, Pipe.Got "data") /\
    Pipe._buffer p3 = "".
Proof.
  refine (X15_pipe_send_wakes_blocked_receiver 7 16384 "data"
            (Pipe.mk_pipe 0 just_made "" []) eq_refl eq_refl _).
  simpl. lia.
Defined.

(** ** The trampoline *)

Import Hubs.

Lemma removed_listener_gone (l : FdListener) (ls : list FdListener) :
  l ∉ filter (fun l' => l_id l' ≠ l_id l) ls.
Proof. rewrite list_elem_of_filter. intros [H _]. now apply H. Qed.

Lemma cancelled_timer_not_pending (id : nat) (f : frame) :
  timer_pending (the_hub (cancel_timer id f).1) id = false.
Proof.
  unfold cancel_timer, timer_pending; simpl.
  rewrite lookup_alter_eq. destruct (timers (the_hub f) !! id); reflexivity.
Qed.

(** The inner [try: return hub.switch() finally: hub.remove(listener)]. *)
Lemma switch_then_remove (others : hub_state -> hub_state * resumption) (f : frame) :
  let r := try_finally (switch others) remove_listener f in
  t r.1 = t f /\ listener r.1 = listener f /\
  (forall l, listener f = Some l ->
     (l ∉ listeners (the_hub r.1)) /\ r.2 = wait_resumed (others (the_hub f)).2) /\
  (listener f = None ->
     r.2 = Raise (UnboundLocalError "local variable 'listener' referenced before assignment")).
Proof.
  unfold try_finally, switch, remove_listener.
  destruct (others (the_hub f)) as [h' r] eqn:E; simpl.
  destruct (listener f) as [l|] eqn:El; simpl.
  - split; [reflexivity|]. split; [congruence|]. split; [|discriminate].
    intros ? [= <-]. split; [apply removed_listener_gone | reflexivity].
  - split; [reflexivity|]. split; [congruence|]. split; [discriminate | reflexivity].
Qed.

(** The outer [finally]: whatever the body did, a timer bound to [t] is
    not pending afterwards, and the locals and listeners are the body's. *)
Lemma finally_cancels (body : M frame pyobj) (f : frame) :
  let fin := fun f1 : frame => match t f1 with
                               | Some id => cancel_timer id f1
                               | None => (f1, Return tt)
                               end in
  let r := try_finally body fin f in
  t r.1 = t (body f).1 /\ listener r.1 = listener (body f).1 /\
  listeners (the_hub r.1) = listeners (the_hub (body f).1) /\
  r.2 = (body f).2 /\
  (forall id, t r.1 = Some id -> timer_pending (the_hub r.1) id = false).
Proof.
  unfold try_finally. destruct (body f) as [f1 out]; simpl.
  destruct (t f1) as [id|] eqn:Et.
  - pose proof (cancelled_timer_not_pending id f1) as Hc.
    unfold cancel_timer in *; simpl in *.
    split; [exact Et|]. repeat (split; [reflexivity|]).
    intros id0 H. rewrite Et in H. injection H as <-. exact Hc.
  - simpl. split; [exact Et|]. repeat (split; [reflexivity|]). intros; congruence.
Qed.

(** The body of the outer [try]: the listener is installed, the fiber
    switches out, and the listener is removed when it is resumed. *)
Lemma body_removes_listener (others : hub_state -> hub_state * resumption)
  (current : fiber) (fileno : Z) (read write : bool) (f : frame) :
  listener f = None ->
  let r := ((if read then add READ fileno current
             else if write then add WRITE fileno current
             else ret tt) ;;;
            try_finally (switch others) remove_listener)%py f in
  t r.1 = t f /\
  (forall l, listener r.1 = Some l -> l ∉ listeners (the_hub r.1)) /\
  (forall ev, asked read write = Some ev -> taken ev fileno (the_hub f) = false ->
     exists l h1, listener r.1 = Some l /\ l_evtype l = ev /\ l_fileno l = fileno /\
                  l_cb l = current /\ l ∈ listeners h1 /\ r.2 = wait_resumed (others h1).2).
Proof.
  intros Hl. unfold bind, asked, taken.
  assert (Hadd : forall ev,
    let r := match add ev fileno current f with
             | (s1, Return _) => try_finally (switch others) remove_listener s1
             | (s1, Raise x) => (s1, Raise x)
             end in
    t r.1 = t f /\
    (forall l, listener r.1 = Some l -> l ∉ listeners (the_hub r.1)) /\
    (existsb (fun l => evtype_eqb (l_evtype l) ev && (l_fileno l =? fileno)%Z)
             (listeners (the_hub f)) = false ->
     exists l h1, listener r.1 = Some l /\ l_evtype l = ev /\ l_fileno l = fileno /\
                  l_cb l = current /\ l ∈ listeners h1 /\ r.2 = wait_resumed (others h1).2)).
  { intros ev. unfold add.
    destruct (existsb _ (listeners (the_hub f))) eqn:Ex; simpl.
    - split; [reflexivity|]. split; [|discriminate]. intros l. rewrite Hl. discriminate.
    - match goal with |- context [try_finally _ _ ?g] =>
        destruct (switch_then_remove others g) as (Et & El & Hs & _) end.
      simpl in Et, El, Hs. split; [exact Et|]. split.
      + intros l Hl'. rewrite El in Hl'. exact (proj1 (Hs _ Hl')).
      + intros _.
        exists (mk_listener (fresh (the_hub f)) ev fileno current),
               (mk_hub (greenlet (the_hub f))
                       (listeners (the_hub f)
                          ++ [mk_listener (fresh (the_hub f)) ev fileno current])
                       (timers (the_hub f)) (S (fresh (the_hub f)))).
        split; [exact El|]. repeat (split; [reflexivity|]).
        split; [|exact (proj2 (Hs _ eq_refl))].
        simpl. apply elem_of_app. right. constructor. }
  destruct read; [|destruct write].
  - destruct (Hadd READ) as (H1 & H2 & H3). split; [exact H1|]. split; [exact H2|].
    intros ev [= <-]. exact H3.
  - destruct (Hadd WRITE) as (H1 & H2 & H3). split; [exact H1|]. split; [exact H2|].
    intros ev [= <-]. exact H3.
  - unfold ret.
    destruct (switch_then_remove others f) as (Et & El & _ & _).
    split; [exact Et|]. split; [|discriminate].
    intros l. rewrite El, Hl. discriminate.
Qed.

(** [trampoline] once its assertions have passed. *)
Lemma trampoline_after_assertions (others : hub_state -> hub_state * resumption)
  (current : fiber) (fileno : Z) (read write : bool) (timeout timeout_exc : pyobj)
  (f : frame) :
  listener f = None ->
  let r := ((if is_None timeout then ret tt
             else schedule_call_global timeout current timeout_exc) ;;;
            try_finally
              ((if read then add READ fileno current
                else if write then add WRITE fileno current
                else ret tt) ;;;
               try_finally (switch others) remove_listener)
              (fun f1 => match t f1 with
                         | Some id => cancel_timer id f1
                         | None => (f1, Return tt)
                         end))%py f in
  (forall l, listener r.1 = Some l -> l ∉ listeners (the_hub r.1)) /\
  (forall id, t r.1 = Some id -> timer_pending (the_hub r.1) id = false) /\
  (is_None timeout = false -> t r.1 = Some (fresh (the_hub f))) /\
  (forall ev, asked read write = Some ev -> taken ev fileno (the_hub f) = false ->
     exists l h1, listener r.1 = Some l /\ l_evtype l = ev /\ l_fileno l = fileno /\
                  l_cb l = current /\ l ∈ listeners h1 /\ r.2 = wait_resumed (others h1).2).
Proof.
  intros Hl0. unfold bind at 1.
  destruct ((if is_None timeout then ret tt
             else schedule_call_global timeout current timeout_exc) f) as [f1 o1] eqn:Em.
  assert (Hf1 : o1 = Return tt /\ listener f1 = None
                /\ listeners (the_hub f1) = listeners (the_hub f)
                /\ (is_None timeout = false -> t f1 = Some (fresh (the_hub f)))).
  { destruct (is_None timeout); injection Em as <- <-; simpl; repeat split; auto; discriminate. }
  destruct Hf1 as (-> & Hl1 & Hls1 & Ht1).
  match goal with |- context [try_finally ?b ?fin f1] =>
    pose proof (finally_cancels b f1) as Hfin;
    pose proof (body_removes_listener others current fileno read write f1 Hl1) as Hbody
  end.
  cbv zeta in Hfin, Hbody. destruct Hfin as (Ht & Hl & Hls & Hout & Hpend).
  destruct Hbody as (Hbt & Hbl & Hbi).
  cbv zeta. split; [|split; [|split]].
  - intros l Hl'. rewrite Hl in Hl'. rewrite Hls. now apply Hbl.
  - exact Hpend.
  - intros Hto. rewrite Ht, Hbt. now apply Ht1.
  - intros ev Hask Hfree. rewrite Hl, Hout. apply (Hbi ev Hask).
    unfold taken in *. now rewrite Hls1.
Qed.

(** C2.  Whatever the other fibers do while the caller is switched out and
    however it is resumed (a value after readiness, or an exception thrown
    in by the timer), when [trampoline] returns or propagates: the listener
    bound to [listener] is not among the hub's listeners, and the timer
    bound to [t] is not pending.  When the assertions pass and a timeout is
    given, [t] is the timer scheduled by this call; when a direction is
    asked for and its descriptor is free, [listener] is the listener
    installed by this call, which the hub held while the fiber was switched
    out, and the outcome is the one the fiber was resumed with. *)
Theorem C2_trampoline_removes_listener_and_cancels_timer
  (others : hub_state -> hub_state * resumption) (current : fiber) (fd : fd_arg)
  (read write : bool) (timeout timeout_exc : pyobj) (h : hub_state) :
  let r := trampoline others current fd read write timeout timeout_exc (enter h) in
  let fileno := match fd with WithFileno n => n | Number n => n end in
  (forall l, listener r.1 = Some l -> l ∉ listeners (the_hub r.1)) /\
  (forall id, t r.1 = Some id -> timer_pending (the_hub r.1) id = false) /\
  (greenlet h <> current -> read && write = false -> is_None timeout = false ->
     t r.1 = Some (fresh h)) /\
  (forall ev, greenlet h <> current -> read && write = false ->
     asked read write = Some ev -> taken ev fileno h = false ->
     exists l h1, listener r.1 = Some l /\ l_evtype l = ev /\ l_fileno l = fileno /\
                  l_cb l = current /\ l ∈ listeners h1 /\ r.2 = wait_resumed (others h1).2).
Proof.
  unfold trampoline, enter. cbv zeta.
  change (the_hub {| the_hub := h; t := None; listener := None |}) with h.
  change (listener {| the_hub := h; t := None; listener := None |}) with (@None FdListener).
  case_bool_decide as Eg.
  { simpl.
    split; [intros l; discriminate|]. split; [intros id; discriminate|].
    split; [intros Hne; destruct (Hne Eg)|]. intros ev Hne. destruct (Hne Eg). }
  destruct (read && write) eqn:Erw.
  { simpl. split; [intros l; discriminate|]. split; [intros id; discriminate|].
    split; [intros _; discriminate|]. intros ev _. discriminate. }
  pose proof (trampoline_after_assertions others current
                (match fd with WithFileno n => n | Number n => n end)
                read write timeout timeout_exc
                {| the_hub := h; t := None; listener := None |} eq_refl) as H.
  cbv zeta in H. destruct H as (H1 & H2 & H3 & H4).
  split; [exact H1|]. split; [exact H2|]. split.
  - intros _ _. exact H3.
  - intros ev _ _. exact (H4 ev).
Qed.

Lemma C2_trampoline_removes_listener_and_cancels_timer_witness :
  let r := trampoline timer_fires 5 (Number 3) true false (PyInt 2)
                      (PyClass ("Timeout" :: Exception_mro)) (enter idle_hub) in
  t r.1 = Some 1%nat /\ timer_pending (the_hub r.1) 1 = false /\
  exists l h1, listener r.1 = Some l /\ l_evtype l = READ /\ l_fileno l = 3%Z /\
               l_cb l = 5%nat /\ l ∈ listeners h1 /\ r.2 = wait_resumed (timer_fires h1).2.
Proof.
  destruct (C2_trampoline_removes_listener_and_cancels_timer timer_fires 5 (Number 3)
              true false (PyInt 2) (PyClass ("Timeout" :: Exception_mro)) idle_hub)
    as (_ & H2 & H3 & H4).
  assert (Hne : greenlet idle_hub <> 5%nat) by (simpl; lia).
  split; [exact (H3 Hne eq_refl eq_refl)|].
  split; [exact (H2 1%nat (H3 Hne eq_refl eq_refl))|].
  exact (H4 READ Hne eq_refl eq_refl eq_refl).
Defined.

(** A call that waits for reading with a timeout and is resumed by
    readiness: it returns the value it was switched to with, and leaves no
    listener and no pending timer. *)
Example trampoline_returns_after_readiness :
  let ready := fun h : hub_state => (h, SwitchTo (PyInt 3)) in
  let r := trampoline ready 5 (WithFileno 3) true false (PyInt 2)
                      (PyClass ("Timeout" :: Exception_mro)) (enter idle_hub) in
  r.2 = Return (PyInt 3) /\ listeners (the_hub r.1) = [] /\
  timer_pending (the_hub r.1) 1 = false.
Proof. repeat split; reflexivity. Qed.




(** ** The default hub *)

(** C9, as stated, fails on the code: with no argument and no environment
    name, on a system where epoll is available, a process that has loaded
    the Twisted reactor gets the [twistedr] hub, not [epolls]. *)
Lemma C9_twisted_comes_before_epoll :
  environ with_twisted !! "EVENTLET_HUB" = None /\
  epolls_imports with_twisted = true /\
  get_default_hub with_twisted = "eventlet.hubs.twistedr" /\
  use_hub None with_twisted (mk_threadlocal None None)
  = (mk_threadlocal (Some (HubOf "eventlet.hubs.twistedr")) None, Return tt).
Proof. repeat split; reflexivity. Qed.

(** C9, amended.  With no argument and no [EVENTLET_HUB] in the
    environment, [use_hub] takes the module of [get_default_hub]: [twistedr]
    if the Twisted reactor is already loaded; otherwise [epolls] if its
    import succeeds, else [poll] if [select] has a [poll], else [selects].
    It binds [_threadlocal.Hub] to the [Hub] of that module (to the module
    itself if it has none) and deletes [_threadlocal.hub]. *)
Theorem C9_default_hub_selection (p : platform) (tl : threadlocal) :
  environ p !! "EVENTLET_HUB" = None ->
  let twisted := "twisted.internet.reactor" ∈ sys_modules p in
  let has_poll := "poll" ∈ select_attrs p in
  (twisted -> get_default_hub p = "eventlet.hubs.twistedr") /\
  (~ twisted -> epolls_imports p = true -> get_default_hub p = "eventlet.hubs.epolls") /\
  (~ twisted -> epolls_imports p = false -> has_poll ->
     get_default_hub p = "eventlet.hubs.poll") /\
  (~ twisted -> epolls_imports p = false -> ~ has_poll ->
     get_default_hub p = "eventlet.hubs.selects") /\
  use_hub None p tl
  = (mk_threadlocal
       (Some (if bool_decide (get_default_hub p ∈ with_Hub p)
              then HubOf (get_default_hub p) else Itself (get_default_hub p)))
       None, Return tt).
Proof.
  intros Henv twisted has_poll. unfold get_default_hub.
  split; [|split; [|split; [|split]]].
  - intros Ht. now rewrite bool_decide_eq_true_2.
  - intros Ht ->. now rewrite bool_decide_eq_false_2.
  - intros Ht -> Hp. rewrite bool_decide_eq_false_2 by assumption.
    now rewrite bool_decide_eq_true_2.
  - intros Ht -> Hp. rewrite bool_decide_eq_false_2 by assumption.
    now rewrite bool_decide_eq_false_2.
  - unfold use_hub. rewrite Henv. simpl. fold (get_default_hub p).
    now destruct (bool_decide (get_default_hub p ∈ with_Hub p)).
Qed.

Lemma C9_default_hub_selection_witness :
  get_default_hub plain_poll = "eventlet.hubs.poll".
Proof.
  refine (proj1 (proj2 (proj2 (C9_default_hub_selection plain_poll (mk_threadlocal None None)
                                 _))) _ _ _).
  - reflexivity.
  - simpl. set_solver.
  - reflexivity.
  - simpl. set_solver.
Defined.

(** ** More on the hub and trampoline *)

(** A [get_hub] that finds no hub bound makes one. *)
Lemma get_hub_makes (construct : hub_factory -> result unit) (p : platform)
  (s s1 : process) (h : nat) :
  hub (tl s) = None -> get_hub construct p s = (s1, Return h) ->
  h = made s /\ made s1 = S (made s) /\ hub (tl s1) = Some h /\
  exists f, Hub (tl s1) = Some f /\ construct f = Return tt /\
    (Hub (tl s) = Some f \/ (Hub (tl s) = None /\ Hub (use_hub None p (tl s)).1 = Some f)).
Proof.
  unfold get_hub. intros ->. destruct (Hub (tl s)) as [f0|] eqn:HH.
  - rewrite HH. destruct (construct f0) as [[]|] eqn:Hc; [|discriminate].
    intros [= <- <-]. simpl. easy_conjuncts.
    exists f0. split; [reflexivity|]. split; [exact Hc|]. now left.
  - destruct (use_hub None p (tl s)) as [tl1 [u|x]] eqn:Hu; [|discriminate].
    destruct (Hub tl1) as [f|] eqn:H1; [|discriminate].
    destruct (construct f) as [[]|] eqn:Hc; [|discriminate].
    intros [= <- <-]. simpl. easy_conjuncts.
    exists f. split; [reflexivity|]. split; [exact Hc|]. right. now split.
Qed.

(** X16.  [get_hub] returns a singleton.  A call that returns leaves its
    hub bound to [hub], and every later call returns the same hub and
    changes nothing, whatever the platform has become.  When a hub was
    bound already, it is returned and nothing changes; otherwise the hub is a
    new object, made by the factory bound to [Hub], which is the one
    [use_hub()] selects when none was bound. *)
Theorem X16_get_hub_is_a_singleton (construct : hub_factory -> result unit)
  (p : platform) (s s1 : process) (h : nat) :
  get_hub construct p s = (s1, Return h) ->
  hub (tl s1) = Some h /\
  (forall p', get_hub construct p' s1 = (s1, Return h)) /\
  (forall h0, hub (tl s) = Some h0 -> s1 = s /\ h = h0) /\
  (hub (tl s) = None ->
     h = made s /\ made s1 = S (made s) /\
     exists f, Hub (tl s1) = Some f /\ construct f = Return tt /\
       (Hub (tl s) = Some f \/
        (Hub (tl s) = None /\ Hub (use_hub None p (tl s)).1 = Some f))).
Proof.
  intros Hg. destruct (hub (tl s)) as [h0|] eqn:Hh.
  - unfold get_hub in Hg. rewrite Hh in Hg. injection Hg as <- <-.
    split; [exact Hh|]. split; [intros p'; unfold get_hub; now rewrite Hh|].
    split; [|discriminate]. intros ? [= <-]. split; reflexivity.
  - destruct (get_hub_makes construct p s s1 h Hh Hg) as (E1 & E2 & E3 & E4).
    split; [exact E3|]. split; [intros p'; unfold get_hub; now rewrite E3|].
    split; [discriminate|]. intros _. split; [exact E1|]. split; [exact E2 | exact E4].
Qed.

Lemma X16_get_hub_is_a_singleton_witness :
  hub (tl (get_hub constructs plain_poll (mk_process (mk_threadlocal None None) 0)).1)
  = Some 0%nat /\
  forall p', get_hub constructs p'
               (get_hub constructs plain_poll (mk_process (mk_threadlocal None None) 0)).1
             = ((get_hub constructs plain_poll (mk_process (mk_threadlocal None None) 0)).1,
                Return 0%nat).
Proof.
  destruct (X16_get_hub_is_a_singleton constructs plain_poll
              (mk_process (mk_threadlocal None None) 0)
              (get_hub constructs plain_poll (mk_process (mk_threadlocal None None) 0)).1
              0%nat eq_refl) as (H1 & H2 & _).
  split; [exact H1 | exact H2].
Defined.

(** X17.  [use_hub] forgets the hub object, also when it fails.  After
    any call of [use_hub] no hub is bound to [hub]; a call that raises keeps
    the factory bound to [Hub].  So the next [get_hub] that returns makes a
    new hub object, which is none of the objects made before: from the
    factory [use_hub] bound when it returned, from the old one when it
    raised. *)
Theorem X17_use_hub_forgets_the_hub_object (construct : hub_factory -> result unit)
  (mod_ : option hub_arg) (p p' : platform) (s s1 : process) (h : nat) :
  let r := use_hub mod_ p (tl s) in
  get_hub construct p' (mk_process r.1 (made s)) = (s1, Return h) ->
  hub r.1 = None /\ (forall x, r.2 = Raise x -> Hub r.1 = Hub (tl s)) /\
  h = made s /\ (forall h0, h0 < made s -> h <> h0) /\
  (forall f, Hub r.1 = Some f -> Hub (tl s1) = Some f /\ construct f = Return tt).
Proof.
  intros r Hg.
  assert (Hr : hub r.1 = None /\ (forall x, r.2 = Raise x -> Hub r.1 = Hub (tl s))).
  { unfold r, use_hub.
    destruct (match mod_ with
              | Some m => Some m
              | None => Name <$> environ p !! "EVENTLET_HUB"
              end) as [[nm|nm]|]; simpl.
    - destruct (strip_nonempty nm); [|split; [reflexivity | intros; reflexivity]].
      case_bool_decide; simpl; [|split; [reflexivity | intros; reflexivity]].
      case_bool_decide; simpl; (split; [reflexivity | intros; discriminate]).
    - case_bool_decide; simpl; (split; [reflexivity | intros; discriminate]).
    - case_bool_decide; simpl; (split; [reflexivity | intros; discriminate]). }
  destruct Hr as [Hnone Hkeep]. split; [exact Hnone|]. split; [exact Hkeep|].
  destruct (get_hub_makes construct p' (mk_process r.1 (made s)) s1 h Hnone Hg)
    as (E1 & _ & _ & f' & E3 & E4 & E5).
  simpl in E1, E5. split; [exact E1|]. split; [intros h0 H0; lia|].
  intros f Hf. destruct E5 as [E5 | [E5 _]]; [|congruence].
  assert (f' = f) as -> by congruence. split; [exact E3 | exact E4].
Qed.

Lemma X17_use_hub_forgets_the_hub_object_witness :
  let r := use_hub (Some (Name "nosuchhub")) plain_poll (tl with_hub) in
  hub r.1 = None /\ (forall x, r.2 = Raise x -> Hub r.1 = Hub (tl with_hub)) /\
  1%nat = made with_hub /\ (forall h0, h0 < made with_hub -> 1%nat <> h0) /\
  (forall f, Hub r.1 = Some f ->
     Hub (tl (get_hub constructs plain_poll (mk_process r.1 (made with_hub))).1) = Some f /\
     constructs f = Return tt).
Proof.
  exact (X17_use_hub_forgets_the_hub_object constructs (Some (Name "nosuchhub")) plain_poll
           plain_poll with_hub _ 1%nat eq_refl).
Defined.

(** The frame after the optional [schedule_call_global] of [trampoline]. *)
Lemma timer_scheduled (current : fiber) (timeout timeout_exc : pyobj) (h : hub_state) :
  (if is_None timeout then ret tt
   else schedule_call_global timeout current timeout_exc) (enter h)
  = (if is_None timeout then enter h
     else mk_frame (mk_hub (greenlet h) (listeners h)
                      (<[fresh h := mk_timer timeout current timeout_exc false false]>
                         (timers h)) (S (fresh h)))
                   (Some (fresh h)) None, Return tt).
Proof. destruct (is_None timeout); reflexivity. Qed.

(** X18.  [trampoline] with neither [read] nor [write] never returns a
    value.  When the caller is not the hub's greenlet, the fiber switches to
    the hub without a listener, and however it is resumed (with a value, or
    by the timeout's exception) the call raises [UnboundLocalError] for the
    local [listener]; the hub's listeners are those the other fibers left,
    and a timer scheduled for the timeout is not pending afterwards. *)
Theorem X18_trampoline_without_direction_raises
  (others : hub_state -> hub_state * resumption) (current : fiber) (fd : fd_arg)
  (timeout timeout_exc : pyobj) (h : hub_state) :
  greenlet h <> current ->
  let r := trampoline others current fd false false timeout timeout_exc (enter h) in
  let h1 := the_hub ((if is_None timeout then ret tt
                      else schedule_call_global timeout current timeout_exc) (enter h)).1 in
  r.2 = Raise (UnboundLocalError "local variable 'listener' referenced before assignment") /\
  listeners h1 = listeners h /\
  listeners (the_hub r.1) = listeners (others h1).1 /\
  (is_None timeout = false ->
     t r.1 = Some (fresh h) /\ timer_pending h1 (fresh h) = true /\
     timer_pending (the_hub r.1) (fresh h) = false).
Proof.
  intros Hne. unfold trampoline. cbv zeta.
  change (the_hub (enter h)) with h.
  change (mk_frame h None (listener (enter h))) with (enter h).
  case_bool_decide as Eg; [contradiction|]. cbn [andb].
  unfold bind at 1. rewrite timer_scheduled. cbn [fst snd].
  destruct (is_None timeout) eqn:Et.
  - unfold try_finally, bind, ret, switch, remove_listener. cbn.
    destruct (others h) as [h' res]. cbn. destruct (wait_resumed res); cbn.
    + easy_conjuncts. discriminate.
    + easy_conjuncts. discriminate.
  - unfold try_finally, bind, ret, switch, remove_listener. cbn.
    destruct (others _) as [h' res]. cbn. destruct (wait_resumed res); cbn.
    + do 3 (split; [reflexivity|]). intros _. split; [reflexivity|]. split.
      * unfold timer_pending; cbn. now rewrite lookup_insert_eq.
      * apply (cancelled_timer_not_pending (fresh h) (mk_frame h' (Some (fresh h)) None)).
    + do 3 (split; [reflexivity|]). intros _. split; [reflexivity|]. split.
      * unfold timer_pending; cbn. now rewrite lookup_insert_eq.
      * apply (cancelled_timer_not_pending (fresh h) (mk_frame h' (Some (fresh h)) None)).
Qed.

Lemma X18_trampoline_without_direction_raises_witness :
  let r := trampoline timer_fires 5 (Number 3) false false (PyInt 2)
             (PyClass ("Timeout" :: Exception_mro)) (enter idle_hub) in
  r.2 = Raise (UnboundLocalError "local variable 'listener' referenced before assignment") /\
  timer_pending (the_hub r.1) 1 = false.
Proof.
  assert (Hne : greenlet idle_hub <> 5%nat) by (simpl; lia).
  destruct (X18_trampoline_without_direction_raises timer_fires 5 (Number 3) (PyInt 2)
              (PyClass ("Timeout" :: Exception_mro)) idle_hub Hne) as (H1 & _ & _ & H4).
  split; [exact H1 | exact (proj2 (proj2 (H4 eq_refl)))].
Defined.

(** The body of [trampoline] once the listener [l] is installed: the
    switch, then the removal. *)
Lemma installed_then_removed (others : hub_state -> hub_state * resumption)
  (tm : option nat) (l : FdListener) (h1 : hub_state) :
  let r := try_finally (switch others) remove_listener (mk_frame h1 tm (Some l)) in
  r.2 = wait_resumed (others h1).2 /\ t r.1 = tm /\ listener r.1 = Some l /\
  listeners (the_hub r.1) = filter (fun l' => l_id l' ≠ l_id l) (listeners (others h1).1) /\
  timers (the_hub r.1) = timers (others h1).1 /\
  greenlet (the_hub r.1) = greenlet (others h1).1 /\
  fresh (the_hub r.1) = fresh (others h1).1.
Proof.
  unfold try_finally, switch, remove_listener. cbn.
  destruct (others h1) as [h' res]. cbn. repeat split.
Qed.

(** The outer [finally] of [trampoline] changes the timer bound to [t]
    and nothing else. *)
Lemma finally_frame (body : M frame pyobj) (f : frame) :
  let fin := fun f1 : frame => match t f1 with
                               | Some id => cancel_timer id f1
                               | None => (f1, Return tt)
                               end in
  let r := try_finally body fin f in
  r.2 = (body f).2 /\ t r.1 = t (body f).1 /\ listener r.1 = listener (body f).1 /\
  listeners (the_hub r.1) = listeners (the_hub (body f).1) /\
  greenlet (the_hub r.1) = greenlet (the_hub (body f).1) /\
  fresh (the_hub r.1) = fresh (the_hub (body f).1) /\
  (forall id', t r.1 <> Some id' ->
     timers (the_hub r.1) !! id' = timers (the_hub (body f).1) !! id').
Proof.
  unfold try_finally. destruct (body f) as [f1 out]. destruct (t f1) as [id|] eqn:Et; cbn.
  - rewrite Et. repeat (split; [reflexivity|]).
    intros id' Hid. now rewrite lookup_alter_ne by congruence.
  - rewrite Et. repeat (split; [reflexivity|]). reflexivity.
Qed.

(** X19.  [trampoline] leaves the other fibers' listeners and timers
    alone.  When it asks for one direction of a descriptor that is free, the
    caller not being the hub's greenlet: its listener is added to those of
    the hub; when the call ends, the hub's listeners are those the other
    fibers left, less this one, every timer but the call's own is as the
    other fibers left it, and the call ends as the fiber was resumed. *)
Theorem X19_trampoline_leaves_the_others_alone
  (others : hub_state -> hub_state * resumption) (current : fiber) (fd : fd_arg)
  (read write : bool) (timeout timeout_exc : pyobj) (h : hub_state) (ev : evtype) :
  greenlet h <> current -> read && write = false -> asked read write = Some ev ->
  taken ev (match fd with WithFileno n => n | Number n => n end) h = false ->
  let r := trampoline others current fd read write timeout timeout_exc (enter h) in
  exists l h1,
    listener r.1 = Some l /\ listeners h1 = listeners h ++ [l] /\
    r.2 = wait_resumed (others h1).2 /\
    (forall l', l' ∈ listeners (the_hub r.1)
                <-> l' ∈ listeners (others h1).1 /\ l_id l' <> l_id l) /\
    (forall id', t r.1 <> Some id' ->
                 timers (the_hub r.1) !! id' = timers (others h1).1 !! id') /\
    greenlet (the_hub r.1) = greenlet (others h1).1 /\
    fresh (the_hub r.1) = fresh (others h1).1.
Proof.
  intros Hne Hrw Hask Hfree. unfold trampoline. cbv zeta.
  change (the_hub (enter h)) with h.
  change (mk_frame h None (listener (enter h))) with (enter h).
  case_bool_decide as Eg; [contradiction|]. rewrite Hrw.
  set (fileno := match fd with WithFileno n => n | Number n => n end) in *.
  unfold bind at 1. rewrite timer_scheduled. cbn [fst snd].
  assert (Hadd : forall f : frame,
    listeners (the_hub f) = listeners h -> listener f = None ->
    (if read then add READ fileno current
     else if write then add WRITE fileno current else ret tt) f
    = (mk_frame (mk_hub (greenlet (the_hub f))
                   (listeners (the_hub f)
                      ++ [mk_listener (fresh (the_hub f)) ev fileno current])
                   (timers (the_hub f)) (S (fresh (the_hub f))))
                (t f) (Some (mk_listener (fresh (the_hub f)) ev fileno current)),
       Return tt)).
  { intros f Hl _. unfold taken in Hfree. unfold asked in Hask.
    destruct read; [|destruct write; [|discriminate]]; injection Hask as <-;
      unfold add; rewrite Hl, Hfree; reflexivity. }
  assert (Hgoal : forall f : frame,
    listeners (the_hub f) = listeners h -> listener f = None ->
    (forall id, t f = Some id -> True) ->
    let r := try_finally
               ((if read then add READ fileno current
                 else if write then add WRITE fileno current else ret tt) ;;;
                try_finally (switch others) remove_listener)%py
               (fun f1 => match t f1 with
                          | Some id => cancel_timer id f1
                          | None => (f1, Return tt)
                          end) f in
    exists l h1,
      listener r.1 = Some l /\ listeners h1 = listeners h ++ [l] /\
      r.2 = wait_resumed (others h1).2 /\
      (forall l', l' ∈ listeners (the_hub r.1)
                  <-> l' ∈ listeners (others h1).1 /\ l_id l' <> l_id l) /\
      (forall id', t r.1 <> Some id' ->
                   timers (the_hub r.1) !! id' = timers (others h1).1 !! id') /\
      greenlet (the_hub r.1) = greenlet (others h1).1 /\
      fresh (the_hub r.1) = fresh (others h1).1).
  { intros f Hl Hn _.
    match goal with |- context [try_finally ?b ?fin f] =>
      pose proof (finally_frame b f) as Hfin; cbv zeta in Hfin;
      assert (Hbody : b f = try_finally (switch others) remove_listener
                (mk_frame (mk_hub (greenlet (the_hub f))
                             (listeners (the_hub f)
                                ++ [mk_listener (fresh (the_hub f)) ev fileno current])
                             (timers (the_hub f)) (S (fresh (the_hub f))))
                          (t f) (Some (mk_listener (fresh (the_hub f)) ev fileno current))))
        by (unfold bind; now rewrite (Hadd f Hl Hn))
    end.
    rewrite Hbody in Hfin. destruct Hfin as (F2 & Ft & Fl & Fls & Fg & Ffr & Ftm).
    match type of Fl with _ = listener (try_finally _ _ (mk_frame ?h1 ?tm (Some ?l))).1 =>
      destruct (installed_then_removed others tm l h1)
        as (E2 & Et & El & Els & Etm & Eg' & Efr);
      exists l, h1 end.
    cbv zeta. rewrite F2, Fl, Fg, Ffr.
    split; [exact El|]. split; [cbn; now rewrite Hl|]. split; [exact E2|].
    split; [intros l'; rewrite Fls, Els, list_elem_of_filter; cbn; tauto|].
    split; [|split; [exact Eg' | exact Efr]].
    intros id' Hid. rewrite (Ftm id' Hid). now rewrite Etm. }
  destruct (is_None timeout).
  - apply (Hgoal (enter h)); [reflexivity | reflexivity | trivial].
  - match goal with |- context [try_finally _ _ ?f] => apply (Hgoal f) end;
      [reflexivity | reflexivity | trivial].
Qed.

Lemma X19_trampoline_leaves_the_others_alone_witness :
  let r := trampoline timer_fires 5 (Number 3) true false (PyInt 2)
             (PyClass ("Timeout" :: Exception_mro)) (enter busy_hub) in
  exists l h1,
    listener r.1 = Some l /\ listeners h1 = listeners busy_hub ++ [l] /\
    r.2 = wait_resumed (timer_fires h1).2 /\
    (forall l', l' ∈ listeners (the_hub r.1)
                <-> l' ∈ listeners (timer_fires h1).1 /\ l_id l' <> l_id l) /\
    (forall id', t r.1 <> Some id' ->
                 timers (the_hub r.1) !! id' = timers (timer_fires h1).1 !! id') /\
    greenlet (the_hub r.1) = greenlet (timer_fires h1).1 /\
    fresh (the_hub r.1) = fresh (timer_fires h1).1.
Proof.
  refine (X19_trampoline_leaves_the_others_alone timer_fires 5 (Number 3) true false (PyInt 2)
            (PyClass ("Timeout" :: Exception_mro)) busy_hub READ _ eq_refl eq_refl eq_refl).
  simpl. lia.
Defined.

(** ** The thread pool *)

Import Tpool.

Section ServedFacts.

Variable apply : pyobj -> pyobj -> pyobj -> result pyobj.

Lemma tworker_turn_captured (r : request) (q : list (option request)) (s : state) :
  _reqq s = Some r :: q -> captured apply r ->
  tworker_turn apply s = (respond (rq_e r) (answer apply r) (set_reqq q s), Loops).
Proof.
  intros Hq Hc. unfold tworker_turn, answer. rewrite Hq.
  destruct (apply (rq_meth r) (rq_args r) (rq_kwargs r)) as [rv|x] eqn:E; [reflexivity|].
  destruct (Hc x E) as [-> ->]. reflexivity.
Qed.

Lemma tworker_serves (reqs : list request) : forall (s : state) (n : nat),
  _reqq s = map Some reqs -> Forall (captured apply) reqs -> length reqs < n ->
  tworker apply n s = (served apply reqs s, Blocks).
Proof.
  induction reqs as [|r rest IH]; intros s n Hq Hc Hn.
  - destruct n as [|n]; [lia|]. simpl. unfold tworker_turn. rewrite Hq. reflexivity.
  - destruct n as [|n]; [simpl in Hn; lia|]. simpl in *.
    apply Forall_cons in Hc as [Hr Hrest].
    rewrite (tworker_turn_captured r (map Some rest) s Hq Hr).
    apply IH; [reflexivity | assumption | lia].
Qed.

Lemma served_fields (reqs : list request) : forall s : state,
  _rspq (served apply reqs s) = _rspq s ++ map (fun r => (rq_e r, answer apply r)) reqs /\
  pipe (served apply reqs s) = (fun k => k + length reqs) <$> pipe s /\
  events (served apply reqs s) = events s /\ sent (served apply reqs s) = sent s /\
  hub_calls (served apply reqs s) = hub_calls s /\
  (reqs <> [] -> _reqq (served apply reqs s) = []).
Proof.
  induction reqs as [|r rest IH]; intros s; simpl.
  - rewrite app_nil_r. repeat split; try reflexivity; try congruence.
    destruct (pipe s); simpl; [f_equal; lia | reflexivity].
  - destruct (IH (respond (rq_e r) (answer apply r) (set_reqq (map Some rest) s)))
      as (H1 & H2 & H3 & H4 & H5 & H6).
    rewrite H1, H2, H3, H4, H5. simpl. rewrite <- app_assoc. repeat split; try reflexivity.
    + destruct (pipe s); simpl; [f_equal; lia | reflexivity].
    + intros _. destruct rest; [reflexivity | apply H6; discriminate].
Qed.

End ServedFacts.

(** The bridge fiber sends every response of the queue, once, when the
    events of the responses are distinct and FRESH. *)
Lemma drain_sends_all (rsp : list (nat * pyobj)) : forall s : state,
  _rspq s = rsp -> NoDup (map fst rsp) ->
  (forall e, e ∈ map fst rsp -> exists ev, events s !! e = Some ev /\ FRESH ev) ->
  exists s', drain (length rsp) s = (s', Return tt) /\
             sent s' = sent s ++ rsp /\ _rspq s' = [] /\ _reqq s' = _reqq s /\
             (forall k, k ∉ map fst rsp -> events s' !! k = events s !! k) /\
             (forall e rv, (e, rv) ∈ rsp ->
                exists ev, events s' !! e = Some ev /\ _result ev = rv).
Proof.
  induction rsp as [|[e rv] rest IH]; intros s Hq Hnd Hev.
  - exists s. simpl. rewrite app_nil_r. repeat split; auto. intros e rv H. inversion H.
  - simpl. rewrite Hq. simpl in Hnd. apply NoDup_cons in Hnd as [Hnotin Hnd].
    destruct (Hev e) as (ev & Hlook & Hfresh); [simpl; left|].
    cbn [events set_rspq]. rewrite Hlook. unfold send. rewrite (fresh_is_NOT_USED _ Hfresh).
    match goal with |- context [drain (length rest) ?s1] =>
      destruct (IH s1) as (s' & Hd & Hsent & Hrq & Hreq & Hkeep & Hres) end.
    + reflexivity.
    + assumption.
    + intros e' He'. simpl. rewrite lookup_insert_ne.
      * apply Hev. simpl. now right.
      * intros ->. contradiction.
    + exists s'. split; [exact Hd|]. simpl in Hsent. rewrite Hsent, <- app_assoc.
      split; [reflexivity|]. split; [exact Hrq|]. split; [exact Hreq|]. split.
      * intros k Hk. rewrite Hkeep.
        -- simpl. apply lookup_insert_ne. intros ->. apply Hk. simpl. left.
        -- intros Hin. apply Hk. simpl. now right.
      * intros e' rv' Hin. apply elem_of_cons in Hin as [[= -> ->]|Hin]; [|now apply Hres].
        rewrite (Hkeep e Hnotin). simpl. rewrite lookup_insert_eq. eexists. split; reflexivity.
Qed.

(** [esend_all] queues the numbered requests and makes a fresh event for
    each of them. *)
Lemma esend_all_fields (jobs : list (pyobj * pyobj * pyobj)) : forall s : state,
  let s' := esend_all jobs s in
  _reqq s' = _reqq s ++ map Some (numbered (next_event s) jobs) /\
  _rspq s' = _rspq s /\ pipe s' = pipe s /\ sent s' = sent s /\
  (forall k, next_event s <= k < next_event s + length jobs -> events s' !! k = Some Event) /\
  (forall k, k < next_event s -> events s' !! k = events s !! k).
Proof.
  induction jobs as [|[[meth args] kwargs] rest IH]; intros s; simpl.
  - rewrite app_nil_r. repeat split; try reflexivity. intros k Hk. lia.
  - destruct (IH (esend meth args kwargs s).1) as (H1 & H2 & H3 & H4 & H5 & H6).
    simpl in *. rewrite H1, H2, H3, H4, <- app_assoc. repeat split; try reflexivity.
    + intros k Hk. destruct (decide (k = next_event s)) as [->|Hne].
      * rewrite H6 by lia. apply lookup_insert_eq.
      * apply H5. lia.
    + intros k Hk. rewrite H6 by lia. apply lookup_insert_ne. lia.
Qed.

Lemma numbered_events (jobs : list (pyobj * pyobj * pyobj)) : forall n : nat,
  map rq_e (numbered n jobs) = seq n (length jobs).
Proof.
  induction jobs as [|[[meth args] kwargs] rest IH]; intros n; simpl; [reflexivity|].
  now rewrite IH.
Qed.

Lemma numbered_length (jobs : list (pyobj * pyobj * pyobj)) (n : nat) :
  length (numbered n jobs) = length jobs.
Proof. rewrite <- (length_map rq_e), numbered_events. apply length_seq. Qed.

Lemma bridged_sends_each_once (apply : pyobj -> pyobj -> pyobj -> result pyobj)
  (jobs : list (pyobj * pyobj * pyobj)) :
  Forall (captured apply) (numbered 1 jobs) ->
  sent (bridged apply jobs) = map (fun r => (rq_e r, answer apply r)) (numbered 1 jobs) /\
  map fst (sent (bridged apply jobs)) = seq 1 (length jobs) /\
  _rspq (bridged apply jobs) = [] /\
  (forall r, r ∈ numbered 1 jobs ->
     exists ev, events (bridged apply jobs) !! rq_e r = Some ev /\ _result ev = answer apply r).
Proof.
  intros Hc.
  destruct (decide (jobs = [])) as [->|Hne].
  { repeat split; try reflexivity. intros r Hin. inversion Hin. }
  unfold bridged.
  destruct (esend_all_fields jobs (setup imported)) as (Hq & Hr & Hp & Hs & Hev & _).
  simpl in Hq, Hr, Hp, Hs, Hev.
  rewrite (tworker_serves apply (numbered 1 jobs) _ _ Hq Hc)
    by (rewrite numbered_length; lia).
  cbn [fst].
  destruct (served_fields apply (numbered 1 jobs) (esend_all jobs (setup imported)))
    as (Hr' & Hp' & Hev' & Hs' & _ & _).
  rewrite Hr in Hr'. rewrite Hp in Hp'. rewrite Hs in Hs'. simpl in Hr', Hp'.
  rewrite numbered_length in Hp'.
  set (s2 := served apply (numbered 1 jobs) (esend_all jobs (setup imported))) in *.
  set (rsp := map (fun r => (rq_e r, answer apply r)) (numbered 1 jobs)) in *.
  assert (Hfst : map fst rsp = seq 1 (length jobs)).
  { subst rsp. rewrite map_map. simpl. apply numbered_events. }
  unfold tpool_trampoline_turn. rewrite Hp'.
  destruct (length jobs) as [|k] eqn:Hlen.
  - apply length_zero_iff_nil in Hlen. contradiction.
  - match goal with |- context [drain ?n ?s] =>
      assert (Hn : n = length rsp) by (cbn [_rspq]; now rewrite Hr');
      rewrite Hn;
      destruct (drain_sends_all rsp s) as (s' & Hd & Hsent & Hrq & _ & _ & Hres) end.
    + exact Hr'.
    + rewrite Hfst. apply NoDup_seq.
    + intros e He. rewrite Hfst in He. apply elem_of_seq in He.
      exists Event. split; [|reflexivity]. cbn [events]. rewrite Hev'. apply Hev. lia.
    + rewrite Hd. cbn [fst].
      cbn [sent] in Hsent. rewrite Hs' in Hsent. simpl in Hsent.
      split; [exact Hsent|]. split; [now rewrite Hsent|]. split; [exact Hrq|].
      intros r Hin. apply (Hres (rq_e r) (answer apply r)).
      subst rsp. apply list_elem_of_fmap. now exists r.
Qed.

(** Draining the responses leaves the pipe alone. *)
Lemma drain_pipe (n : nat) : forall s : state, pipe (drain n s).1 = pipe s.
Proof.
  induction n as [|n IH]; intros s; simpl; [reflexivity|].
  destruct (_rspq s) as [|[e rv] q]; [reflexivity|]. cbn [events set_rspq].
  destruct (events s !! e); [|reflexivity].
  destruct (send rv PyNone e0 _) as [[ev' c']|]; [|reflexivity].
  rewrite IH. reflexivity.
Qed.

Section MovesFacts.

Variable apply : pyobj -> pyobj -> pyobj -> result pyobj.

Lemma pending_app (q1 q2 : list (option request)) :
  pending (q1 ++ q2) = pending q1 ++ pending q2.
Proof. unfold pending. apply omap_app. Qed.

(** A worker's turn on a request, by what the worker answers. *)
Lemma tworker_turn_response (r : request) (q : list (option request)) (s : state) :
  _reqq s = Some r :: q ->
  match response apply r with
  | Some rv => tworker_turn apply s = (respond (rq_e r) rv (set_reqq q s), Loops)
  | None => exists x, tworker_turn apply s = (set_reqq q s, Dies x)
  end.
Proof.
  intros Hq. unfold tworker_turn, response. rewrite Hq.
  destruct (apply (rq_meth r) (rq_args r) (rq_kwargs r)) as [rv|x]; [reflexivity|].
  destruct (SYS_EXCS x); [now exists x|].
  destruct (isinstance x "Exception"); [reflexivity | now exists x].
Qed.

Lemma drain_next_event (n : nat) : forall s : state,
  next_event (drain n s).1 = next_event s.
Proof.
  induction n as [|n IH]; intros s; simpl; [reflexivity|].
  destruct (_rspq s) as [|[e rv] q]; [reflexivity|]. cbn [events set_rspq].
  destruct (events s !! e); [|reflexivity].
  destruct (send rv PyNone e0 _) as [[ev' c']|]; [|reflexivity].
  rewrite IH. reflexivity.
Qed.

Lemma coherent_rspq_byte (s : state) (k : nat) :
  pipe s = Some k -> (_rspq s <> [] -> 1 <= k) -> k = 0 -> _rspq s = [].
Proof.
  intros _ Hk ->. destruct (_rspq s) as [|x l]; [reflexivity|].
  assert (1 <= 0) by (apply Hk; discriminate). lia.
Qed.

(** A turn of the bridge fiber on a module in working order: the queued
    responses are sent, in order, and nothing else changes hands. *)
Lemma bridge_turn (s : state) :
  coherent s ->
  coherent (tpool_trampoline_turn s).1 /\ _rspq (tpool_trampoline_turn s).1 = [] /\
  sent (tpool_trampoline_turn s).1 = responses s /\
  _reqq (tpool_trampoline_turn s).1 = _reqq s /\
  next_event (tpool_trampoline_turn s).1 = next_event s.
Proof.
  intros Hc. pose proof Hc as ((k & Hp & Hk) & Hnd & Hev & Hlt).
  unfold tpool_trampoline_turn. rewrite Hp. destruct k as [|k].
  - pose proof (coherent_rspq_byte s 0 Hp Hk eq_refl) as Hr. cbn [fst].
    split; [exact Hc|]. split; [exact Hr|]. unfold responses. rewrite Hr, app_nil_r.
    repeat split.
  - set (s1 := mk_state (_setup_already s) (_reqq s) (_rspq s) (Some k) (events s)
                        (next_event s) (hub_calls s) (sent s)).
    assert (Hnd2 : NoDup (map fst (_rspq s))).
    { apply NoDup_app in Hnd as (_ & _ & Hnd). unfold responses in Hnd.
      rewrite map_app in Hnd. now apply NoDup_app in Hnd as (_ & _ & Hnd). }
    destruct (drain_sends_all (_rspq s) s1 eq_refl Hnd2)
      as (s' & Hd & Hsent & Hrq & Hreq & Hkeep & _).
    { intros e He. apply Hev. apply elem_of_app. now right. }
    change (length (_rspq s1)) with (length (_rspq s)). rewrite Hd. cbn [fst].
    pose proof (drain_pipe (length (_rspq s)) s1) as Hpipe. rewrite Hd in Hpipe.
    pose proof (drain_next_event (length (_rspq s)) s1) as Hne. rewrite Hd in Hne.
    cbn [fst pipe next_event s1] in Hpipe, Hne. cbn [sent _reqq events s1] in Hsent, Hreq, Hkeep.
    assert (Hresp : responses s' = responses s).
    { unfold responses. now rewrite Hsent, Hrq, app_nil_r. }
    split; [|split; [exact Hrq|]; split; [exact Hsent|]; split; [exact Hreq | exact Hne]].
    split; [exists k; split; [exact Hpipe | rewrite Hrq; congruence]|].
    rewrite Hreq, Hresp, Hne, Hrq. split; [exact Hnd|]. split; [|exact Hlt].
    intros e He. cbn [map] in He. rewrite app_nil_r in He. rewrite Hkeep.
    + apply Hev. apply elem_of_app. now left.
    + intros Hin. apply NoDup_app in Hnd as (_ & Hdis & _). apply (Hdis e He).
      unfold responses. rewrite map_app. apply elem_of_app. now right.
Qed.

(** A step of the module in working order leaves it in working order;
    the responses made grow at the end, by the events of requests that were
    queued; and the requests queued are those queued before and the one
    [esend] makes. *)
Lemma move_step_coherent (m : move) (s : state) :
  coherent s ->
  coherent (move_step apply m s) /\
  (exists more, responses (move_step apply m s) = responses s ++ more /\
     forall e, e ∈ map fst more -> e ∈ pending (_reqq s)) /\
  (forall e, e ∈ pending (_reqq (move_step apply m s)) ->
     e ∈ pending (_reqq s) \/ e = next_event s) /\
  next_event s <= next_event (move_step apply m s).
Proof.
  intros Hc. pose proof Hc as ((k & Hp & Hk) & Hnd & Hev & Hlt).
  destruct m as [meth args kwargs|g e0| | |]; cbn [move_step].
  - (* esend *)
    unfold esend. cbn [fst].
    assert (Hfresh : next_event s ∉ pending (_reqq s) ++ map fst (responses s)).
    { intros Hin. apply Hlt in Hin. lia. }
    split; [|split; [|split]].
    + unfold coherent, responses in *. cbn [pipe _rspq _reqq sent events next_event].
      rewrite pending_app. cbn. split; [now exists k|]. split; [|split].
      * rewrite <- app_assoc. apply NoDup_app. apply NoDup_app in Hnd as (H1 & H2 & H3).
        split; [exact H1|]. split.
        -- intros e He Hin. apply elem_of_cons in Hin as [-> | Hin].
           ++ apply Hfresh. apply elem_of_app. now left.
           ++ now apply (H2 e).
        -- apply NoDup_cons. split; [|exact H3].
           intros Hin. apply Hfresh. apply elem_of_app. now right.
      * intros e He. destruct (decide (e = next_event s)) as [-> | Hne].
        -- rewrite lookup_insert_eq. exists Event. split; reflexivity.
        -- rewrite lookup_insert_ne by congruence. apply Hev.
           rewrite <- app_assoc in He. apply elem_of_app in He as [He | He].
           ++ apply elem_of_app. now left.
           ++ apply elem_of_cons in He as [-> | He]; [congruence|].
              apply elem_of_app. now right.
      * intros e He. rewrite <- app_assoc in He.
        assert (e = next_event s \/ e ∈ pending (_reqq s) ++ map fst (sent s ++ _rspq s))
          as [-> | Hin].
        { apply elem_of_app in He as [He | He]; [right; apply elem_of_app; now left|].
          apply elem_of_cons in He as [-> | He]; [now left|].
          right. apply elem_of_app. now right. }
        -- lia.
        -- apply Hlt in Hin. lia.
    + exists []. rewrite app_nil_r. split; [reflexivity|]. intros e He. inversion He.
    + cbn [_reqq]. intros e He. rewrite pending_app in He.
      apply elem_of_app in He as [He | He]; [now left|]. right.
      cbn in He. now apply list_elem_of_singleton in He.
    + cbn [next_event]. lia.
  - (* a fiber waits *)
    destruct (events s !! e0) as [ev0|] eqn:Hl.
    + split; [|split; [|split]].
      * unfold coherent, responses in *.
        cbn [pipe _rspq _reqq sent events next_event].
        split; [now exists k|]. split; [exact Hnd|]. split; [|exact Hlt].
        intros e He. destruct (decide (e = e0)) as [-> | Hne].
        -- rewrite lookup_insert_eq. destruct (Hev e0 He) as (ev & Hl' & Hf).
           rewrite Hl in Hl'. injection Hl' as ->. rewrite (wait_fresh g ev Hf).
           eexists. split; [reflexivity | exact Hf].
        -- rewrite lookup_insert_ne by congruence. now apply Hev.
      * exists []. rewrite app_nil_r. split; [reflexivity|]. intros e He. inversion He.
      * cbn [_reqq]. intros e He. now left.
      * cbn [next_event]. lia.
    + split; [exact Hc|]. split; [|split; [now left | lia]].
      exists []. rewrite app_nil_r. split; [reflexivity|]. intros e He. inversion He.
  - (* a worker's turn *)
    destruct (_reqq s) as [|[r|] q] eqn:Hq.
    + assert (E : tworker_turn apply s = (s, Blocks)) by (unfold tworker_turn; now rewrite Hq).
      rewrite E. cbn [fst]. rewrite Hq. split; [exact Hc|]. split; [|split; [now left | lia]].
      exists []. rewrite app_nil_r. split; [reflexivity|]. intros e He. inversion He.
    + pose proof (tworker_turn_response r q s Hq) as Ht.
      destruct (response apply r) as [rv|].
      * rewrite Ht. cbn [fst]. split; [|split; [|split]].
        -- unfold coherent, responses in *.
           cbn [pipe _rspq _reqq sent events next_event respond set_reqq].
           rewrite Hp. cbn [fmap option_fmap option_map]. cbn in Hnd, Hev, Hlt.
           split; [exists (S k); split; [reflexivity | lia]|].
           assert (Hperm : pending q ++ map fst (sent s ++ _rspq s ++ [(rq_e r, rv)])
                           ≡ₚ rq_e r :: pending q ++ map fst (sent s ++ _rspq s)).
           { rewrite !map_app. cbn. rewrite !app_assoc.
             now rewrite <- Permutation_cons_append. }
           split; [now rewrite Hperm|]. split.
           ++ intros e He. apply Hev. rewrite map_app in He. cbn in He.
              apply elem_of_app in He as [He | He]; [apply elem_of_cons; right;
                apply elem_of_app; now left|].
              apply elem_of_app in He as [He | He].
              ** apply elem_of_cons. right. apply elem_of_app. now right.
              ** apply list_elem_of_singleton in He as ->. apply elem_of_cons. now left.
           ++ intros e He. apply Hlt. now rewrite <- Hperm.
        -- exists [(rq_e r, rv)]. unfold responses. cbn [sent _rspq respond set_reqq].
           rewrite app_assoc. split; [reflexivity|]. intros e He. cbn in He.
           apply list_elem_of_singleton in He as ->. apply elem_of_cons. now left.
        -- cbn [_reqq respond set_reqq]. intros e He. left. cbn. apply elem_of_cons. now right.
        -- cbn [next_event respond set_reqq]. lia.
      * destruct Ht as [x Ht]. rewrite Ht. cbn [fst]. split; [|split; [|split]].
        -- unfold coherent, responses in *.
           cbn [pipe _rspq _reqq sent events next_event set_reqq]. cbn in Hnd, Hev, Hlt.
           split; [now exists k|]. split; [now apply NoDup_cons in Hnd as [_ Hnd]|]. split.
           ++ intros e He. apply Hev. apply elem_of_cons. now right.
           ++ intros e He. apply Hlt. apply elem_of_cons. now right.
        -- exists []. rewrite app_nil_r. split; [reflexivity|]. intros e He. inversion He.
        -- cbn [_reqq set_reqq]. intros e He. left. cbn. apply elem_of_cons. now right.
        -- cbn [next_event set_reqq]. lia.
    + assert (E : tworker_turn apply s = (set_reqq q s, Exits))
        by (unfold tworker_turn; now rewrite Hq).
      rewrite E. cbn [fst]. split; [|split; [|split]].
      * unfold coherent, responses in *.
        cbn [pipe _rspq _reqq sent events next_event set_reqq]. cbn in Hnd, Hev, Hlt.
        split; [now exists k|]. split; [exact Hnd|]. split; [exact Hev | exact Hlt].
      * exists []. rewrite app_nil_r. split; [reflexivity|]. intros e He. inversion He.
      * cbn [_reqq set_reqq]. intros e He. left. exact He.
      * cbn [next_event set_reqq]. lia.
  - (* the bridge fiber's turn *)
    destruct (bridge_turn s Hc) as (Hc' & Hr & Hs & Hreq & Hne).
    split; [exact Hc'|]. split; [|split].
    + exists []. unfold responses at 1. rewrite Hr, Hs, !app_nil_r.
      split; [reflexivity|]. intros e He. inversion He.
    + rewrite Hreq. intros e He. now left.
    + lia.
  - (* a sentinel *)
    split; [|split; [|split]].
    + unfold coherent, responses in *.
      cbn [pipe _rspq _reqq sent events next_event set_reqq].
      rewrite pending_app. cbn. rewrite app_nil_r.
      split; [now exists k|]. split; [exact Hnd|]. split; [exact Hev | exact Hlt].
    + exists []. rewrite app_nil_r. split; [reflexivity|]. intros e He. inversion He.
    + cbn [_reqq set_reqq]. rewrite pending_app. cbn. rewrite app_nil_r. intros e He. now left.
    + cbn [next_event set_reqq]. lia.
Qed.

Lemma moves_app (ms1 ms2 : list move) (s : state) :
  moves apply (ms1 ++ ms2) s = moves apply ms2 (moves apply ms1 s).
Proof. revert s. induction ms1 as [|m ms1 IH]; intros s; [reflexivity | apply IH]. Qed.

(** Any steps leave a module in working order so, and the responses made
    grow at the end; an event below the next one that is neither queued nor
    answered stays so. *)
Lemma moves_coherent (ms : list move) : forall s : state,
  coherent s ->
  coherent (moves apply ms s) /\
  (exists more, responses (moves apply ms s) = responses s ++ more) /\
  (forall e, e < next_event s -> e ∉ pending (_reqq s) -> e ∉ map fst (responses s) ->
     e ∉ map fst (responses (moves apply ms s))).
Proof.
  induction ms as [|m ms IH]; intros s Hc.
  - split; [exact Hc|]. split; [exists []; now rewrite app_nil_r|]. auto.
  - destruct (move_step_coherent m s Hc) as (Hc1 & (more1 & E1 & Hm1) & Hp1 & Hn1).
    destruct (IH _ Hc1) as (Hc2 & (more2 & E2) & Hk2). cbn [moves].
    split; [exact Hc2|]. split.
    + exists (more1 ++ more2). now rewrite E2, E1, app_assoc.
    + intros e He Hnp Hnr. apply Hk2.
      * lia.
      * intros Hin. apply Hp1 in Hin as [Hin | ->]; [contradiction | lia].
      * rewrite E1, map_app. intros Hin. apply elem_of_app in Hin as [Hin | Hin];
          [contradiction|]. apply Hnp. now apply Hm1.
Qed.

Lemma setup_imported_coherent : coherent (setup imported).
Proof.
  unfold coherent, responses; cbn. split; [exists 0; split; [reflexivity | congruence]|].
  split; [apply NoDup_nil_2|]. split; intros e He; inversion He.
Qed.

(** Every request a worker takes off the queue and answers has its event
    sent the answer exactly once by the time the bridge fiber has taken a
    turn, whatever else happens before and in between; a request whose call
    makes the worker die has its event never sent to. *)
Lemma one_send_per_answer (s0 : state) (ms1 ms2 : list move) (r : request)
  (q : list (option request)) :
  coherent s0 -> _reqq (moves apply ms1 s0) = Some r :: q ->
  match response apply r with
  | Some rv =>
      exists l1 l2,
        sent (moves apply (ms1 ++ Work :: ms2 ++ [Bridge]) s0) = l1 ++ (rq_e r, rv) :: l2 /\
        rq_e r ∉ map fst (l1 ++ l2)
  | None => rq_e r ∉ map fst (responses (moves apply (ms1 ++ Work :: ms2) s0))
  end.
Proof.
  intros Hc0 Hq.
  destruct (moves_coherent ms1 s0 Hc0) as (Hc1 & _ & _).
  set (s1 := moves apply ms1 s0) in *.
  pose proof Hc1 as (_ & Hnd1 & _ & Hlt1). rewrite Hq in Hnd1, Hlt1. cbn in Hnd1, Hlt1.
  pose proof (tworker_turn_response r q s1 Hq) as Ht.
  destruct (move_step_coherent Work s1 Hc1) as (Hcw & _).
  cbn [move_step] in Hcw.
  destruct (response apply r) as [rv|].
  - rewrite moves_app. fold s1. cbn [moves move_step]. rewrite moves_app.
    rewrite Ht in *. cbn [fst] in *.
    set (sw := respond (rq_e r) rv (set_reqq q s1)) in *.
    destruct (moves_coherent ms2 sw Hcw) as (Hc2 & (more & E2) & _).
    destruct (bridge_turn _ Hc2) as (Hcb & Hrb & Hsb & _).
    cbn [moves move_step]. rewrite Hsb, E2.
    assert (Ew : responses sw = responses s1 ++ [(rq_e r, rv)]).
    { unfold responses, sw. cbn [sent _rspq respond set_reqq]. now rewrite app_assoc. }
    rewrite Ew, <- app_assoc. cbn [app].
    exists (responses s1), more. split; [reflexivity|].
    destruct Hc2 as (_ & Hnd2 & _). rewrite E2, Ew, <- app_assoc in Hnd2. cbn [app] in Hnd2.
    apply NoDup_app in Hnd2 as (_ & _ & Hnd2). rewrite map_app in Hnd2. cbn [map fst] in Hnd2.
    apply NoDup_app in Hnd2 as (_ & Hdis & Hnd3). apply NoDup_cons in Hnd3 as [Hnot _].
    rewrite map_app. intros Hin. apply elem_of_app in Hin as [Hin | Hin].
    + apply (Hdis _ Hin). apply elem_of_cons. now left.
    + contradiction.
  - destruct Ht as [x Ht]. rewrite moves_app. fold s1. cbn [moves move_step].
    rewrite Ht in *. cbn [fst] in *.
    apply NoDup_cons in Hnd1 as [Hnot Hnd1].
    destruct (moves_coherent ms2 (set_reqq q s1) Hcw) as (_ & _ & Hk).
    apply Hk.
    + cbn [next_event set_reqq]. apply Hlt1. apply elem_of_cons. now left.
    + cbn [_reqq set_reqq]. intros Hin. apply Hnot. apply elem_of_app. now left.
    + unfold responses. cbn [sent _rspq set_reqq]. intros Hin. apply Hnot.
      apply elem_of_app. now right.
Qed.

End MovesFacts.

(** C8, as stated, fails on the code.  A request that is not the sentinel
    and whose function raises [SystemExit] ends the worker: the exception
    leaves [tworker], no response is queued and no byte is written, so the
    bridge fiber stays blocked and the request's event is never sent to. *)
Lemma C8_system_exit_kills_worker :
  let s1 := esend_all [(PyObject 62, PyTuple [], PyObject 51)] (setup imported) in
  let s2 := tworker_turn forty_two_or_zero_division s1 in
  _reqq s1 = [Some (mk_request 1 (PyObject 62) (PyTuple []) (PyObject 51))] /\
  s2.2 = Dies (PyInstance SystemExit_mro "") /\
  _rspq s2.1 = [] /\ pipe s2.1 = Some 0%nat /\
  tpool_trampoline_turn s2.1 = (s2.1, Blocks) /\
  sent (bridged forty_two_or_zero_division [(PyObject 62, PyTuple [], PyObject 51)]) = [].
Proof. repeat split; reflexivity. Qed.

(** C8, amended.  A worker that finds the queue empty waits; it returns
    exactly on the [None] sentinel.  On a request it calls the function: a
    returned value, or the [exc_info] of a raised [Exception] outside
    [SYS_EXCS], is queued as one response, paired with the request's event,
    and one byte is written to the pipe, and the worker loops.  An
    exception of [SYS_EXCS], or one that is no [Exception], leaves the
    worker without a response.  So when every queued request is of the
    first kind, the bridge fiber sends each request's event exactly once,
    with that request's outcome.  And in any run of a module in working
    order, as the one [setup] makes is (fibers call [esend] and wait,
    workers take turns, the bridge fiber takes turns, sentinels are queued),
    a request that a worker takes off the queue and answers has its event
    sent that answer exactly once by the time the bridge fiber has taken a
    turn, whatever becomes of the other requests and their workers; and a
    request whose call makes its worker die is never answered. *)
Theorem C8_worker_turn_and_one_send_per_request
  (apply : pyobj -> pyobj -> pyobj -> result pyobj) :
  (forall s, _reqq s = [] -> tworker_turn apply s = (s, Blocks)) /\
  (forall s q, _reqq s = None :: q -> tworker_turn apply s = (set_reqq q s, Exits)) /\
  (forall s r q, _reqq s = Some r :: q ->
     (forall rv, apply (rq_meth r) (rq_args r) (rq_kwargs r) = Return rv ->
        tworker_turn apply s = (respond (rq_e r) rv (set_reqq q s), Loops)) /\
     (forall x, apply (rq_meth r) (rq_args r) (rq_kwargs r) = Raise x ->
        SYS_EXCS x = false -> isinstance x "Exception" = true ->
        tworker_turn apply s = (respond (rq_e r) (exc_info x) (set_reqq q s), Loops)) /\
     (forall x, apply (rq_meth r) (rq_args r) (rq_kwargs r) = Raise x ->
        SYS_EXCS x = true \/ isinstance x "Exception" = false ->
        tworker_turn apply s = (set_reqq q s, Dies x))) /\
  (forall e rv s, _rspq (respond e rv s) = _rspq s ++ [(e, rv)] /\
                  pipe (respond e rv s) = S <$> pipe s) /\
  (forall jobs, Forall (captured apply) (numbered 1 jobs) ->
     sent (bridged apply jobs) = map (fun r => (rq_e r, answer apply r)) (numbered 1 jobs) /\
     map fst (sent (bridged apply jobs)) = seq 1 (length jobs) /\
     _rspq (bridged apply jobs) = [] /\
     (forall r, r ∈ numbered 1 jobs ->
        exists ev, events (bridged apply jobs) !! rq_e r = Some ev /\
                   _result ev = answer apply r)) /\
  coherent (setup imported) /\
  (forall s0 ms1 ms2 r q,
     coherent s0 -> _reqq (moves apply ms1 s0) = Some r :: q ->
     match response apply r with
     | Some rv =>
         exists l1 l2,
           sent (moves apply (ms1 ++ Work :: ms2 ++ [Bridge]) s0) = l1 ++ (rq_e r, rv) :: l2 /\
           rq_e r ∉ map fst (l1 ++ l2)
     | None => rq_e r ∉ map fst (responses (moves apply (ms1 ++ Work :: ms2) s0))
     end).
Proof.
  split; [|split; [|split; [|split; [|split; [|split]]]]].
  - intros s Hq. unfold tworker_turn. now rewrite Hq.
  - intros s q Hq. unfold tworker_turn. now rewrite Hq.
  - intros s r q Hq. unfold tworker_turn. rewrite Hq. split; [|split].
    + intros rv ->. reflexivity.
    + intros x -> -> ->. reflexivity.
    + intros x -> [-> | Hx]; [reflexivity|]. rewrite Hx. now destruct (SYS_EXCS x).
  - intros e rv s. split; reflexivity.
  - intros jobs. apply bridged_sends_each_once.
  - apply setup_imported_coherent.
  - intros s0 ms1 ms2 r q. apply one_send_per_answer.
Qed.

Lemma C8_worker_turn_and_one_send_per_request_witness :
  sent (bridged forty_two_or_zero_division two_jobs)
  = [(1%nat, PyInt 42);
     (2%nat, exc_info (PyInstance ZeroDivisionError_mro "integer division or modulo by zero"))] /\
  (exists l1 l2,
     sent (moves forty_two_or_zero_division
             (answered_then_killed ++ Work :: [Work] ++ [Bridge]) (setup imported))
     = l1 ++ (1%nat, PyInt 42) :: l2 /\ 1%nat ∉ map fst (l1 ++ l2)) /\
  2%nat ∉ map fst (responses (moves forty_two_or_zero_division
                               ((answered_then_killed ++ [Work]) ++ Work :: [Bridge; Work])
                               (setup imported))).
Proof.
  split; [|split].
  - refine (proj1 (proj1 (proj2 (proj2 (proj2 (proj2
      (C8_worker_turn_and_one_send_per_request forty_two_or_zero_division))))) two_jobs _)).
    apply Forall_cons; split; [intros x H; simpl in H; discriminate H|].
    apply Forall_cons; split; [|apply Forall_nil_2].
    intros x H; simpl in H. injection H as <-. split; reflexivity.
  - exact (proj2 (proj2 (proj2 (proj2 (proj2 (proj2
      (C8_worker_turn_and_one_send_per_request forty_two_or_zero_division))))))
      (setup imported) answered_then_killed [Work]
      (mk_request 1 (PyObject 60) (PyTuple []) (PyObject 51))
      [Some (mk_request 2 (PyObject 62) (PyTuple []) (PyObject 51))]
      setup_imported_coherent eq_refl).
  - exact (proj2 (proj2 (proj2 (proj2 (proj2 (proj2
      (C8_worker_turn_and_one_send_per_request forty_two_or_zero_division))))))
      (setup imported) (answered_then_killed ++ [Work]) [Bridge; Work]
      (mk_request 2 (PyObject 62) (PyTuple []) (PyObject 51)) []
      setup_imported_coherent eq_refl).
Defined.

(** On a fresh module, [execute] hands the value the function returned to
    [erecv]. *)
Lemma execute_returned (apply : pyobj -> pyobj -> pyobj -> result pyobj) (current : fiber)
  (meth args kwargs rv : pyobj) :
  apply meth args kwargs = Return rv ->
  execute apply current meth args kwargs imported
  = (executed current rv, Some (erecv_got rv)).
Proof.
  intros Ha. unfold execute.
  cbn -[tworker tpool_trampoline_turn resumed_with lookup insert].
  rewrite lookup_insert_eq.
  cbn -[tworker tpool_trampoline_turn resumed_with lookup insert].
  match goal with |- context [tworker apply ?n ?s] =>
    assert (Hw : tworker apply n s = (respond 1 rv (set_reqq [] s), Blocks))
      by (simpl; unfold tworker_turn; simpl; rewrite Ha; reflexivity);
    rewrite Hw; clear Hw
  end.
  cbn -[tpool_trampoline_turn resumed_with lookup insert].
  match goal with |- context [tpool_trampoline_turn ?s] =>
    assert (Hb : tpool_trampoline_turn s = (executed current rv, Loops));
      [|rewrite Hb; clear Hb]
  end.
  { unfold tpool_trampoline_turn. cbn -[lookup insert]. rewrite lookup_insert_eq.
    cbn -[lookup insert]. unfold wake_calls. cbn -[lookup insert].
    rewrite insert_empty, map_to_list_singleton. reflexivity. }
  cbn. rewrite bool_decide_eq_true_2 by reflexivity. reflexivity.
Qed.

(** C10.  A function that completes and returns a 3-tuple whose second
    element is an [Exception] instance: the worker queues the tuple as the
    response, the bridge fiber sends it to the event, the caller is resumed
    with it, and [erecv] takes it for exception info and raises from it.
    [execute] does not return the tuple. *)
Theorem C10_returned_triple_is_raised
  (apply : pyobj -> pyobj -> pyobj -> result pyobj) (current : fiber)
  (meth args kwargs c e tb : pyobj) :
  apply meth args kwargs = Return (PyTuple [c; e; tb]) ->
  isinstance e "Exception" = true ->
  (execute apply current meth args kwargs imported).2 = Some (Raise (raise3 c e tb)) /\
  (execute apply current meth args kwargs imported).2 <> Some (Return (PyTuple [c; e; tb])) /\
  sent (execute apply current meth args kwargs imported).1 = [(1%nat, PyTuple [c; e; tb])].
Proof.
  intros Ha He.
  rewrite (execute_returned apply current meth args kwargs _ Ha).
  cbn [fst snd erecv_got]. rewrite He. repeat split. discriminate.
Qed.

Lemma C10_returned_triple_is_raised_witness :
  (execute returns_triple 7 (PyObject 60) (PyTuple []) (PyObject 51) imported).2
  = Some (Raise (TypeError "exceptions must be old-style classes or derived from BaseException")).
Proof.
  exact (proj1 (C10_returned_triple_is_raised returns_triple 7 (PyObject 60) (PyTuple [])
                  (PyObject 51) (PyInt 1) (PyInstance Exception_mro "x") PyNone
                  eq_refl eq_refl)).
Defined.

(** ** More on the thread pool *)

Lemma resumed_with_app (g : fiber) (c1 c2 : list scheduled_call) :
  resumed_with g (c1 ++ c2)
  = match resumed_with g c1 with
    | Some r => Some r
    | None => resumed_with g c2
    end.
Proof.
  induction c1 as [|c c1 IH]; [reflexivity|]. simpl.
  destruct (greenlib_switch c) as [g' r]. case_bool_decide; [reflexivity | exact IH].
Qed.

Lemma setup_fields (s : state) :
  _setup_already (setup s) = true /\ events (setup s) = events s /\
  next_event (setup s) = next_event s /\ hub_calls (setup s) = hub_calls s /\
  sent (setup s) = sent s.
Proof. unfold setup. destruct (_setup_already s) eqn:E; repeat split; exact E. Qed.

(** [execute] on a module at rest: the queues are empty, no byte is in
    the pipe and no call is scheduled for the caller.  The worker answers
    [rv] (the value returned, or the [exc_info] of a captured exception),
    the bridge fiber sends it to the event, and [erecv] gets it. *)
Lemma execute_at_rest (apply : pyobj -> pyobj -> pyobj -> result pyobj) (current : fiber)
  (meth args kwargs rv : pyobj) (s : state) :
  _reqq (setup s) = [] -> _rspq (setup s) = [] -> pipe (setup s) = Some 0%nat ->
  resumed_with current (hub_calls s) = None ->
  tworker_turn apply (set_reqq [Some (mk_request (next_event s) meth args kwargs)] (setup s))
  = (respond (next_event s) rv (set_reqq [] (setup s)), Loops) ->
  let r := execute apply current meth args kwargs s in
  r.2 = Some (erecv_got rv) /\
  _setup_already r.1 = true /\ _reqq r.1 = [] /\ _rspq r.1 = [] /\ pipe r.1 = Some 0%nat /\
  sent r.1 = sent s ++ [(next_event s, rv)] /\ next_event r.1 = S (next_event s) /\
  hub_calls r.1 = hub_calls s ++ [mk_call 0 current rv PyNone] /\
  (forall g, g <> current -> resumed_with g (hub_calls r.1) = resumed_with g (hub_calls s)).
Proof.
  intros Hq Hr Hp Hcalls Hturn.
  destruct (setup_fields s) as (Hsa & Hev & Hne & Hhc & Hse).
  destruct (setup s) as [sa rq rs pp evs ne hc se] eqn:Es. simpl in *.
  subst sa rq rs pp evs ne hc se.
  unfold execute. rewrite Es. unfold esend.
  cbn -[tworker tpool_trampoline_turn resumed_with lookup insert].
  rewrite lookup_insert_eq.
  cbn -[tworker tpool_trampoline_turn resumed_with lookup insert].
  match goal with |- context [tworker apply ?n ?s0] =>
    assert (Hw : tworker apply n s0
                 = (respond (next_event s) rv (set_reqq [] s0), Blocks))
  end.
  { unfold set_reqq in Hturn. cbn [_setup_already _reqq _rspq pipe events next_event
      hub_calls sent] in Hturn.
    cbn [tworker length]. unfold tworker_turn in *.
    cbn [_reqq rq_meth rq_args rq_kwargs rq_e set_reqq _setup_already _rspq pipe events
         next_event hub_calls sent] in *.
    destruct (apply meth args kwargs) as [v|x].
    - injection Hturn as <-. reflexivity.
    - destruct (SYS_EXCS x); [discriminate|].
      destruct (isinstance x "Exception"); [|discriminate].
      injection Hturn as <-. reflexivity. }
  rewrite Hw. clear Hw.
  cbn -[tpool_trampoline_turn resumed_with lookup insert].
  unfold tpool_trampoline_turn.
  cbn -[resumed_with lookup insert]. rewrite lookup_insert_eq.
  cbn -[resumed_with lookup insert]. unfold wake_calls. cbn -[resumed_with lookup insert].
  rewrite insert_empty, map_to_list_singleton.
  cbn -[resumed_with lookup insert].
  assert (Hres : forall g, resumed_with g (hub_calls s ++ [mk_call 0 current rv PyNone])
                 = match resumed_with g (hub_calls s) with
                   | Some r => Some r
                   | None => if bool_decide (current = g) then Some (SwitchTo rv) else None
                   end).
  { intros g. rewrite resumed_with_app. reflexivity. }
  split.
  - rewrite Hres, Hcalls. rewrite bool_decide_eq_true_2 by reflexivity. reflexivity.
  - repeat (split; [reflexivity|]). intros g Hg. rewrite Hres.
    destruct (resumed_with g (hub_calls s)); [reflexivity|].
    now rewrite bool_decide_eq_false_2 by congruence.
Qed.

(** X20.  An exception of the function comes back to the caller of
    [execute].  On a module at rest, a function that raises an [Exception]
    instance [x] outside [SYS_EXCS] makes [execute] raise [x] itself in the
    calling fiber; the worker goes on, the event was sent the [exc_info] of
    [x] once, and the module is at rest again for the other fibers. *)
Theorem X20_tpool_execute_reraises_the_exception
  (apply : pyobj -> pyobj -> pyobj -> result pyobj) (current : fiber)
  (meth args kwargs x : pyobj) (s : state) :
  _reqq (setup s) = [] -> _rspq (setup s) = [] -> pipe (setup s) = Some 0%nat ->
  resumed_with current (hub_calls s) = None ->
  apply meth args kwargs = Raise x -> SYS_EXCS x = false ->
  isinstance x "Exception" = true -> isinstance x "BaseException" = true ->
  let r := execute apply current meth args kwargs s in
  r.2 = Some (Raise x) /\
  (tworker apply 2 (esend meth args kwargs (setup s)).1).2 = Blocks /\
  sent r.1 = sent s ++ [(next_event s, exc_info x)] /\
  _reqq (setup r.1) = [] /\ _rspq (setup r.1) = [] /\ pipe (setup r.1) = Some 0%nat /\
  (forall g, g <> current -> resumed_with g (hub_calls r.1) = resumed_with g (hub_calls s)).
Proof.
  intros Hq Hr Hp Hcalls Ha Hsys Hexc Hbase.
  assert (Hturn : tworker_turn apply
            (set_reqq [Some (mk_request (next_event s) meth args kwargs)] (setup s))
          = (respond (next_event s) (exc_info x) (set_reqq [] (setup s)), Loops)).
  { unfold tworker_turn. cbn. now rewrite Ha, Hsys, Hexc. }
  destruct (execute_at_rest apply current meth args kwargs (exc_info x) s Hq Hr Hp Hcalls
              Hturn) as (E & Hsa & Hq' & Hr' & Hp' & Hs' & _ & _ & Hg).
  cbv zeta. split.
  - rewrite E. destruct x as [| | | | | |mro msg|]; try discriminate.
    cbn in Hexc, Hbase. unfold exc_info, erecv_got, type_of.
    cbn [isinstance]. rewrite Hexc. unfold raise3. cbn [raised_type].
    rewrite Hbase. now destruct (bool_decide (hd "" mro ∈ mro)).
  - split.
    + unfold esend. cbn [fst]. cbn [tworker]. unfold tworker_turn at 1.
      cbn [_reqq]. rewrite Hq. cbn [app rq_meth rq_args rq_kwargs rq_e].
      rewrite Ha, Hsys, Hexc. unfold tworker_turn. reflexivity.
    + unfold setup. rewrite Hsa. auto.
Qed.

Lemma X20_tpool_execute_reraises_the_exception_witness :
  (execute forty_two_or_zero_division 7 (PyObject 61) (PyTuple []) (PyObject 51) imported).2
  = Some (Raise (PyInstance ZeroDivisionError_mro "integer division or modulo by zero")).
Proof.
  exact (proj1 (X20_tpool_execute_reraises_the_exception forty_two_or_zero_division 7
                  (PyObject 61) (PyTuple []) (PyObject 51)
                  (PyInstance ZeroDivisionError_mro "integer division or modulo by zero")
                  imported eq_refl eq_refl eq_refl eq_refl eq_refl eq_refl eq_refl eq_refl)).
Defined.

(** X21.  A value of the function comes back to the caller of [execute].
    On a module at rest, a function that returns [rv] makes [execute] return
    [rv] to the calling fiber, unless [rv] is a 3-tuple whose second element
    is an [Exception] instance; the event was sent [rv] once, and the module
    is at rest again for the other fibers. *)
Theorem X21_tpool_execute_returns_the_value
  (apply : pyobj -> pyobj -> pyobj -> result pyobj) (current : fiber)
  (meth args kwargs rv : pyobj) (s : state) :
  _reqq (setup s) = [] -> _rspq (setup s) = [] -> pipe (setup s) = Some 0%nat ->
  resumed_with current (hub_calls s) = None ->
  apply meth args kwargs = Return rv ->
  (forall c e tb, rv = PyTuple [c; e; tb] -> isinstance e "Exception" = false) ->
  let r := execute apply current meth args kwargs s in
  r.2 = Some (Return rv) /\
  sent r.1 = sent s ++ [(next_event s, rv)] /\
  _reqq (setup r.1) = [] /\ _rspq (setup r.1) = [] /\ pipe (setup r.1) = Some 0%nat /\
  (forall g, g <> current -> resumed_with g (hub_calls r.1) = resumed_with g (hub_calls s)).
Proof.
  intros Hq Hr Hp Hcalls Ha Hrv.
  assert (Hturn : tworker_turn apply
            (set_reqq [Some (mk_request (next_event s) meth args kwargs)] (setup s))
          = (respond (next_event s) rv (set_reqq [] (setup s)), Loops)).
  { unfold tworker_turn. cbn. now rewrite Ha. }
  destruct (execute_at_rest apply current meth args kwargs rv s Hq Hr Hp Hcalls Hturn)
    as (E & Hsa & Hq' & Hr' & Hp' & Hs' & _ & _ & Hg).
  cbv zeta. split.
  - rewrite E. unfold erecv_got.
    destruct rv as [| | | |items| | |]; try reflexivity.
    destruct items as [|c [|e [|tb [|]]]]; try reflexivity.
    now rewrite (Hrv c e tb eq_refl).
  - unfold setup. rewrite Hsa. auto.
Qed.

Lemma X21_tpool_execute_returns_the_value_witness :
  (execute forty_two_or_zero_division 7 (PyObject 60) (PyTuple []) (PyObject 51)
     (execute forty_two_or_zero_division 8 (PyObject 61) (PyTuple []) (PyObject 51)
        imported).1).2
  = Some (Return (PyInt 42)).
Proof.
  refine (proj1 (X21_tpool_execute_returns_the_value forty_two_or_zero_division 7
                   (PyObject 60) (PyTuple []) (PyObject 51) (PyInt 42)
                   (execute forty_two_or_zero_division 8 (PyObject 61) (PyTuple [])
                      (PyObject 51) imported).1
                   eq_refl eq_refl eq_refl eq_refl eq_refl _)).
  intros c e tb H. discriminate H.
Defined.

(** X22.  The [None] sentinel stops a worker after the requests queued
    before it.  When those requests return or raise exceptions the worker
    captures, the worker answers each of them in order, one response and one
    byte each, then takes the sentinel and returns; what is queued behind the
    sentinel stays in the queue. *)
Theorem X22_sentinel_stops_the_worker (apply : pyobj -> pyobj -> pyobj -> result pyobj)
  (reqs : list request) (q : list (option request)) (n : nat) (s : state) :
  _reqq s = map Some reqs ++ None :: q -> Forall (captured apply) reqs -> length reqs < n ->
  exists s', tworker apply n s = (s', Exits) /\
    _reqq s' = q /\
    _rspq s' = _rspq s ++ map (fun r => (rq_e r, answer apply r)) reqs /\
    pipe s' = (fun k => k + length reqs) <$> pipe s /\
    events s' = events s /\ sent s' = sent s.
Proof.
  revert n s. induction reqs as [|r rest IH]; intros n s Hq Hc Hn.
  - destruct n as [|n]; [lia|]. simpl in *. unfold tworker_turn. rewrite Hq.
    eexists. split; [reflexivity|]. simpl. rewrite app_nil_r. easy_conjuncts.
    split; [|split; reflexivity].
    destruct (pipe s); simpl; [f_equal; lia | reflexivity].
  - destruct n as [|n]; [simpl in Hn; lia|]. simpl in Hn, Hq.
    apply Forall_cons in Hc as [Hr Hrest]. cbn [tworker].
    rewrite (tworker_turn_captured apply r _ s Hq Hr).
    destruct (IH n (respond (rq_e r) (answer apply r) (set_reqq (map Some rest ++ None :: q) s)))
      as (s' & E & H1 & H2 & H3 & H4 & H5); [reflexivity | exact Hrest | lia |].
    exists s'. split; [exact E|]. rewrite H1, H2, H3, H4, H5. simpl.
    rewrite <- app_assoc. easy_conjuncts. split; [|split; reflexivity].
    destruct (pipe s); simpl; [f_equal; lia | reflexivity].
Qed.

Lemma X22_sentinel_stops_the_worker_witness :
  exists s', tworker forty_two_or_zero_division 3
               (set_reqq (map Some (numbered 1 two_jobs) ++ None :: [None]) (setup imported))
             = (s', Exits) /\
    _reqq s' = [None] /\
    _rspq s' = [] ++ map (fun r => (rq_e r, answer forty_two_or_zero_division r))
                         (numbered 1 two_jobs) /\
    pipe s' = Some 2%nat /\ events s' = ∅ /\ sent s' = [].
Proof.
  refine (X22_sentinel_stops_the_worker forty_two_or_zero_division (numbered 1 two_jobs)
            [None] 3
            (set_reqq (map Some (numbered 1 two_jobs) ++ None :: [None]) (setup imported))
            eq_refl _ _).
  - apply Forall_cons; split; [intros x H; simpl in H; discriminate H|].
    apply Forall_cons; split; [|apply Forall_nil_2].
    intros x H; simpl in H. injection H as <-. split; reflexivity.
  - simpl. lia.
Defined.

(** A turn of the bridge fiber that finds a byte and no response sends
    nothing. *)
Lemma idle_bridge_turn (k : nat) (s : state) :
  pipe s = Some (S k) -> _rspq s = [] ->
  tpool_trampoline_turn s
  = (mk_state (_setup_already s) (_reqq s) (_rspq s) (Some k) (events s) (next_event s)
              (hub_calls s) (sent s), Loops).
Proof.
  intros Hp Hr. unfold tpool_trampoline_turn. rewrite Hp. cbn [_rspq]. rewrite Hr. reflexivity.
Qed.

Lemma idle_bridge (k : nat) : forall (s : state) (n : nat),
  pipe s = Some k -> _rspq s = [] -> k < n ->
  exists s', tpool_trampoline n s = (s', Blocks) /\ pipe s' = Some 0%nat /\
    sent s' = sent s /\ _rspq s' = [] /\ events s' = events s /\ _reqq s' = _reqq s /\
    hub_calls s' = hub_calls s.
Proof.
  induction k as [|k IH]; intros s n Hp Hr Hn.
  - destruct n as [|n]; [lia|]. simpl. unfold tpool_trampoline_turn. rewrite Hp.
    exists s. easy_conjuncts. reflexivity.
  - destruct n as [|n]; [lia|]. cbn [tpool_trampoline].
    rewrite (idle_bridge_turn k s Hp Hr).
    match goal with |- context [tpool_trampoline n ?s1] =>
      destruct (IH s1 n eq_refl Hr ltac:(lia)) as (s' & E & H) end.
    exists s'. split; [exact E | exact H].
Qed.

(** X23.  The bridge fiber sends every response once, however many bytes
    are in the pipe.  With the responses of distinct FRESH events in the
    queue and one byte or more in the pipe, [tpool_trampoline] sends all the
    responses on its first turn, in the order of the queue, each to its
    event; the bytes left make it take turns that send nothing, and it ends
    up waiting on the empty pipe with the queue empty. *)
Theorem X23_bridge_sends_each_response_once (rsp : list (nat * pyobj)) (k n : nat)
  (s : state) :
  _rspq s = rsp -> pipe s = Some (S k) -> NoDup (map fst rsp) ->
  (forall e, e ∈ map fst rsp -> exists ev, events s !! e = Some ev /\ FRESH ev) ->
  S k < n ->
  exists s', tpool_trampoline n s = (s', Blocks) /\
    sent s' = sent s ++ rsp /\ _rspq s' = [] /\ pipe s' = Some 0%nat /\
    (forall e rv, (e, rv) ∈ rsp -> exists ev, events s' !! e = Some ev /\ _result ev = rv) /\
    (forall e, e ∉ map fst rsp -> events s' !! e = events s !! e).
Proof.
  intros Hr Hp Hnd Hev Hn. destruct n as [|n]; [lia|]. cbn [tpool_trampoline].
  unfold tpool_trampoline_turn. rewrite Hp. cbn [_rspq]. rewrite Hr.
  match goal with |- context [drain (length rsp) ?s1] =>
    destruct (drain_sends_all rsp s1 eq_refl Hnd Hev)
      as (s1' & Hd & Hsent & Hrq & _ & Hkeep & Hres);
    assert (Hp1 : pipe s1' = Some k)
  end.
  { match type of Hd with drain ?m ?s1 = _ =>
      pose proof (drain_pipe m s1) as Hdp; rewrite Hd in Hdp; exact Hdp end. }
  rewrite Hd.
  destruct (idle_bridge k s1' n Hp1 Hrq ltac:(lia)) as (s' & E & H1 & H2 & H3 & H4 & _).
  exists s'. split; [exact E|]. rewrite H2, H4. cbn [sent events] in Hsent, Hkeep.
  split; [exact Hsent|]. split; [exact H3|]. split; [exact H1|]. split; [exact Hres|].
  exact Hkeep.
Qed.

Lemma X23_bridge_sends_each_response_once_witness :
  exists s', tpool_trampoline 4
               (tworker forty_two_or_zero_division 3 (esend_all two_jobs (setup imported))).1
             = (s', Blocks) /\
    sent s' = [] ++ [(1%nat, PyInt 42);
                     (2%nat, exc_info (PyInstance ZeroDivisionError_mro
                                         "integer division or modulo by zero"))] /\
    _rspq s' = [] /\ pipe s' = Some 0%nat.
Proof.
  destruct (X23_bridge_sends_each_response_once
              [(1%nat, PyInt 42);
               (2%nat, exc_info (PyInstance ZeroDivisionError_mro
                                   "integer division or modulo by zero"))]
              1 4
              (tworker forty_two_or_zero_division 3 (esend_all two_jobs (setup imported))).1
              eq_refl eq_refl) as (s' & E & H1 & H2 & H3 & _).
  - simpl. apply (bool_decide_unpack _). vm_compute. exact I.
  - intros e He. simpl in He. exists Event. split; [|reflexivity].
    apply elem_of_cons in He as [->|He]; [reflexivity|].
    apply elem_of_cons in He as [->|He]; [reflexivity|]. inversion He.
  - lia.
  - exists s'. split; [exact E|]. split; [exact H1|]. split; [exact H2 | exact H3].
Defined.

(** ** The libevent hub *)

Lemma add_reader_consistent (f : Z) (cb : pyobj) (h : Libevent.Hub) :
  Libevent.consistent h -> Libevent.readers h !! f = None ->
  Libevent.consistent
    (Libevent.mk_Hub (Libevent.interrupted h)
       (<[f := (Libevent.next_event h, cb)]> (Libevent.readers h)) (Libevent.writers h)
       (Libevent.excs h)
       (<[Libevent.next_event h := Libevent.EvRead f cb]> (Libevent.added h))
       (S (Libevent.next_event h)) (Libevent.squelched h)).
Proof.
  intros (Hr & Hw & Hb) Hnone. unfold Libevent.consistent; cbn. split; [|split].
  - intros f' e cb'. destruct (decide (e = Libevent.next_event h)) as [->|He].
    + rewrite lookup_insert_eq. destruct (decide (f' = f)) as [->|Hf].
      * rewrite lookup_insert_eq. split; intros [= H1]; congruence.
      * rewrite lookup_insert_ne by congruence. split; [|intros [= H1 H2]; congruence].
        intros H. apply Hr in H. apply Hb in H. lia.
    + rewrite (lookup_insert_ne (Libevent.added h)) by congruence.
      destruct (decide (f' = f)) as [->|Hf].
      * rewrite lookup_insert_eq. split; [intros [= H1 H2]; congruence|].
        intros H. apply Hr in H. congruence.
      * rewrite lookup_insert_ne by congruence. apply Hr.
  - intros f' e cb'. destruct (decide (e = Libevent.next_event h)) as [->|He].
    + rewrite lookup_insert_eq. split; [|discriminate].
      intros H. apply Hw in H. apply Hb in H. lia.
    + rewrite lookup_insert_ne by congruence. apply Hw.
  - intros e ev. destruct (decide (e = Libevent.next_event h)) as [->|He].
    + intros _. lia.
    + rewrite lookup_insert_ne by congruence. intros H. apply Hb in H. lia.
Qed.

Lemma add_writer_consistent (f : Z) (cb : pyobj) (h : Libevent.Hub) :
  Libevent.consistent h -> Libevent.writers h !! f = None ->
  Libevent.consistent
    (Libevent.mk_Hub (Libevent.interrupted h) (Libevent.readers h)
       (<[f := (Libevent.next_event h, cb)]> (Libevent.writers h)) (Libevent.excs h)
       (<[Libevent.next_event h := Libevent.EvWrite f cb]> (Libevent.added h))
       (S (Libevent.next_event h)) (Libevent.squelched h)).
Proof.
  intros (Hr & Hw & Hb) Hnone. unfold Libevent.consistent; cbn. split; [|split].
  - intros f' e cb'. destruct (decide (e = Libevent.next_event h)) as [->|He].
    + rewrite lookup_insert_eq. split; [|discriminate].
      intros H. apply Hr in H. apply Hb in H. lia.
    + rewrite lookup_insert_ne by congruence. apply Hr.
  - intros f' e cb'. destruct (decide (e = Libevent.next_event h)) as [->|He].
    + rewrite lookup_insert_eq. destruct (decide (f' = f)) as [->|Hf].
      * rewrite lookup_insert_eq. split; intros [= H1]; congruence.
      * rewrite lookup_insert_ne by congruence. split; [|intros [= H1 H2]; congruence].
        intros H. apply Hw in H. apply Hb in H. lia.
    + rewrite (lookup_insert_ne (Libevent.added h)) by congruence.
      destruct (decide (f' = f)) as [->|Hf].
      * rewrite lookup_insert_eq. split; [intros [= H1 H2]; congruence|].
        intros H. apply Hw in H. congruence.
      * rewrite lookup_insert_ne by congruence. apply Hw.
  - intros e ev. destruct (decide (e = Libevent.next_event h)) as [->|He].
    + intros _. lia.
    + rewrite lookup_insert_ne by congruence. intros H. apply Hb in H. lia.
Qed.

(** Consistency does not depend on [interrupted], [excs] and
    [squelched]. *)
Lemma consistent_fields (h h' : Libevent.Hub) :
  Libevent.readers h' = Libevent.readers h -> Libevent.writers h' = Libevent.writers h ->
  Libevent.added h' = Libevent.added h -> Libevent.next_event h' = Libevent.next_event h ->
  Libevent.consistent h -> Libevent.consistent h'.
Proof. unfold Libevent.consistent. intros -> -> -> ->. trivial. Qed.

Lemma remove_descriptor_consistent (f : Z) (h : Libevent.Hub) :
  Libevent.consistent h -> Libevent.consistent (Libevent.remove_descriptor f h).
Proof.
  intros (Hr & Hw & Hb).
  assert (Hdel : forall e ev,
    Libevent.delete_popped (Libevent.writers h !! f)
      (Libevent.delete_popped (Libevent.readers h !! f) (Libevent.added h)) !! e = Some ev
    <-> Libevent.added h !! e = Some ev /\
        (forall cb, Libevent.readers h !! f <> Some (e, cb)) /\
        (forall cb, Libevent.writers h !! f <> Some (e, cb))).
  { intros e ev. unfold Libevent.delete_popped.
    destruct (Libevent.readers h !! f) as [[e1 cb1]|] eqn:E1;
      destruct (Libevent.writers h !! f) as [[e2 cb2]|] eqn:E2;
      rewrite ?lookup_delete_Some; split.
    - intros (H2 & H1 & H). split; [exact H|]. split; intros cb; congruence.
    - intros (H & H1 & H2). split; [intros ->; now apply (H2 cb2)|].
      split; [intros ->; now apply (H1 cb1) | exact H].
    - intros (H1 & H). split; [exact H|]. split; intros cb; congruence.
    - intros (H & H1 & H2). split; [intros ->; now apply (H1 cb1) | exact H].
    - intros (H2 & H). split; [exact H|]. split; intros cb; congruence.
    - intros (H & H1 & H2). split; [intros ->; now apply (H2 cb2) | exact H].
    - intros H. split; [exact H|]. split; intros cb; congruence.
    - intros (H & _). exact H. }
  unfold Libevent.consistent, Libevent.remove_descriptor; cbn. split; [|split].
  - intros f' e cb. rewrite lookup_delete_Some, Hdel. split.
    + intros (Hf & H). split; [now apply Hr|]. split.
      * intros cb' H'. apply Hr in H, H'. rewrite H in H'. congruence.
      * intros cb' H'. apply Hr in H. apply Hw in H'. rewrite H in H'. congruence.
    + intros (H & H1 & _). apply Hr in H. split; [|exact H].
      intros <-. now apply (H1 cb).
  - intros f' e cb. rewrite lookup_delete_Some, Hdel. split.
    + intros (Hf & H). split; [now apply Hw|]. split.
      * intros cb' H'. apply Hw in H. apply Hr in H'. rewrite H in H'. congruence.
      * intros cb' H'. apply Hw in H, H'. rewrite H in H'. congruence.
    + intros (H & _ & H2). apply Hw in H. split; [|exact H].
      intros <-. now apply (H2 cb).
  - intros e ev H. apply Hdel in H as (H & _). now apply Hb in H.
Qed.

(** X24.  The libevent hub watches what its dictionaries say.  On a
    consistent hub, [remove_descriptor] keeps the hub consistent, whatever
    the descriptor; so does [add_descriptor] for a descriptor that has no
    reader and no writer yet, and it returns the descriptor.  For a
    descriptor the hub does not know, [add_descriptor] then
    [remove_descriptor] gives back the dictionaries and the set of watched
    events. *)
Theorem X24_libevent_descriptors_stay_consistent (fileno : Z) (read write exc : pyobj)
  (h : Libevent.Hub) :
  Libevent.consistent h ->
  Libevent.consistent (Libevent.remove_descriptor fileno h) /\
  (Libevent.readers h !! fileno = None -> Libevent.writers h !! fileno = None ->
   let r := Libevent.add_descriptor fileno read write exc h in
   r.2 = fileno /\ Libevent.consistent r.1 /\
   (Libevent.truthy read = true ->
      exists e, Libevent.readers r.1 !! fileno = Some (e, read) /\
                Libevent.added r.1 !! e = Some (Libevent.EvRead fileno read)) /\
   (Libevent.truthy write = true ->
      exists e, Libevent.writers r.1 !! fileno = Some (e, write) /\
                Libevent.added r.1 !! e = Some (Libevent.EvWrite fileno write)) /\
   (Libevent.excs h !! fileno = None ->
      let h2 := Libevent.remove_descriptor fileno r.1 in
      Libevent.readers h2 = Libevent.readers h /\ Libevent.writers h2 = Libevent.writers h /\
      Libevent.excs h2 = Libevent.excs h /\ Libevent.added h2 = Libevent.added h)).
Proof.
  intros Hc. split; [now apply remove_descriptor_consistent|].
  intros Hr Hw. cbv zeta. split; [reflexivity|].
  assert (Hfresh : forall k, Libevent.next_event h <= k -> Libevent.added h !! k = None).
  { intros k Hk. destruct (Libevent.added h !! k) as [ev|] eqn:E; [|reflexivity].
    apply (proj2 (proj2 Hc)) in E. lia. }
  unfold Libevent.add_descriptor. cbn [fst snd].
  destruct (Libevent.truthy read) eqn:Tr; destruct (Libevent.truthy write) eqn:Tw;
    destruct (Libevent.truthy exc) eqn:Te;
    cbn [Libevent.interrupted Libevent.readers Libevent.writers Libevent.excs Libevent.added
         Libevent.next_event Libevent.squelched].
  all: split;
    [ first
        [ refine (consistent_fields _ _ eq_refl eq_refl eq_refl eq_refl
                    (add_writer_consistent fileno write _
                       (add_reader_consistent fileno read h Hc Hr) Hw))
        | refine (consistent_fields _ _ eq_refl eq_refl eq_refl eq_refl
                    (add_reader_consistent fileno read h Hc Hr))
        | refine (consistent_fields _ _ eq_refl eq_refl eq_refl eq_refl
                    (add_writer_consistent fileno write h Hc Hw))
        | refine (consistent_fields _ _ eq_refl eq_refl eq_refl eq_refl Hc) ] | ].
  all: split; [ first [ discriminate
                      | intros _; eexists; split;
                        [ apply lookup_insert_eq
                        | rewrite ?(lookup_insert_ne _ (S _)) by lia;
                          apply lookup_insert_eq ] ] | ].
  all: split; [ first [ discriminate
                      | intros _; eexists; split; apply lookup_insert_eq ] | ].
  all: intros Hx; unfold Libevent.remove_descriptor, Libevent.delete_popped;
    cbn [Libevent.interrupted Libevent.readers Libevent.writers Libevent.excs Libevent.added
         Libevent.next_event Libevent.squelched];
    rewrite ?lookup_insert_eq, ?Hr, ?Hw.
  all: repeat split;
    rewrite ?delete_insert_eq; rewrite ?delete_id by assumption; try reflexivity.
  all: rewrite ?delete_insert_ne by lia; rewrite ?delete_insert_eq;
    repeat rewrite (delete_id (Libevent.added h)) by (apply Hfresh; lia); reflexivity.
Qed.

Lemma Hub_init_consistent : Libevent.consistent Libevent.Hub_init.
Proof.
  unfold Libevent.consistent, Libevent.Hub_init, Libevent.BaseHub_init; cbn.
  rewrite insert_empty. split; [|split].
  - intros f e cb. rewrite lookup_empty. split; [discriminate|].
    intros H. apply lookup_singleton_Some in H as [_ H]. discriminate.
  - intros f e cb. rewrite lookup_empty. split; [discriminate|].
    intros H. apply lookup_singleton_Some in H as [_ H]. discriminate.
  - intros e ev H. apply lookup_singleton_Some in H as [<- _]. lia.
Qed.

Lemma reading_4_consistent : Libevent.consistent Libevent.reading_4.
Proof. exact (add_reader_consistent 4 (PyObject 70) _ Hub_init_consistent eq_refl). Qed.

Lemma X24_libevent_descriptors_stay_consistent_witness :
  Libevent.consistent (Libevent.remove_descriptor 4 Libevent.Hub_init) /\
  Libevent.consistent Libevent.reading_4 /\
  Libevent.added (Libevent.remove_descriptor 4 Libevent.reading_4)
  = Libevent.added Libevent.Hub_init.
Proof.
  destruct (X24_libevent_descriptors_stay_consistent 4 (PyObject 70) PyNone PyNone
              Libevent.Hub_init Hub_init_consistent) as (H1 & H2).
  destruct (H2 eq_refl eq_refl) as (_ & H3 & _ & _ & H4).
  split; [exact H1|]. split; [exact H3|]. exact (proj2 (proj2 (proj2 (H4 eq_refl)))).
Defined.

(** X25.  A second reader for a descriptor leaks the first one.  On a
    consistent hub that has a reader for a descriptor, [add_descriptor] with
    a new reader for it replaces the entry of [readers] and does not delete
    the event of the old one; [remove_descriptor] then deletes the new event
    only: the hub has no reader for the descriptor any more, libevent still
    watches it for the old callback, and the hub is no longer consistent. *)
Theorem X25_libevent_second_reader_leaks_the_first (fileno : Z) (read write exc : pyobj)
  (h : Libevent.Hub) (e0 : nat) (cb0 : pyobj) :
  Libevent.consistent h -> Libevent.readers h !! fileno = Some (e0, cb0) ->
  Libevent.truthy read = true ->
  let h1 := (Libevent.add_descriptor fileno read write exc h).1 in
  let h2 := Libevent.remove_descriptor fileno h1 in
  Libevent.readers h1 !! fileno = Some (Libevent.next_event h, read) /\
  Libevent.added h1 !! e0 = Some (Libevent.EvRead fileno cb0) /\
  Libevent.readers h2 !! fileno = None /\
  Libevent.added h2 !! Libevent.next_event h = None /\
  Libevent.added h2 !! e0 = Some (Libevent.EvRead fileno cb0) /\
  ~ Libevent.consistent h2.
Proof.
  intros Hc Hr Tr.
  pose proof (proj1 (proj1 Hc fileno e0 cb0) Hr) as Ha.
  pose proof (proj2 (proj2 Hc) e0 _ Ha) as Hlt.
  assert (Hfresh : forall k, Libevent.next_event h <= k -> Libevent.added h !! k = None).
  { intros k Hk. destruct (Libevent.added h !! k) as [ev|] eqn:E; [|reflexivity].
    apply (proj2 (proj2 Hc)) in E. lia. }
  assert (Hw0 : forall cb, Libevent.writers h !! fileno <> Some (e0, cb)).
  { intros cb H. apply (proj1 (proj2 Hc)) in H. congruence. }
  cbv zeta.
  assert (Hgoal : Libevent.readers (Libevent.add_descriptor fileno read write exc h).1
                    !! fileno = Some (Libevent.next_event h, read) /\
          Libevent.added (Libevent.add_descriptor fileno read write exc h).1 !! e0
          = Some (Libevent.EvRead fileno cb0) /\
          Libevent.readers (Libevent.remove_descriptor fileno
             (Libevent.add_descriptor fileno read write exc h).1) !! fileno = None /\
          Libevent.added (Libevent.remove_descriptor fileno
             (Libevent.add_descriptor fileno read write exc h).1)
             !! Libevent.next_event h = None /\
          Libevent.added (Libevent.remove_descriptor fileno
             (Libevent.add_descriptor fileno read write exc h).1) !! e0
          = Some (Libevent.EvRead fileno cb0)).
  { unfold Libevent.add_descriptor. rewrite Tr. cbn [fst].
    destruct (Libevent.truthy write) eqn:Tw; destruct (Libevent.truthy exc) eqn:Te;
      unfold Libevent.remove_descriptor, Libevent.delete_popped;
      cbn [Libevent.interrupted Libevent.readers Libevent.writers Libevent.excs
           Libevent.added Libevent.next_event Libevent.squelched];
      rewrite ?lookup_insert_eq.
    1, 2: split; [reflexivity|]; split;
      [rewrite !lookup_insert_ne by lia; exact Ha|]; split; [apply lookup_delete_eq|];
      split; [rewrite lookup_delete_ne by lia; rewrite delete_insert_ne by lia;
              rewrite delete_insert_eq; rewrite lookup_insert_ne by lia;
              apply lookup_delete_eq|];
      rewrite !lookup_delete_ne by lia; rewrite !lookup_insert_ne by lia; exact Ha.
    all: split; [reflexivity|]; split; [rewrite lookup_insert_ne by lia; exact Ha|];
      split; [apply lookup_delete_eq|];
      destruct (Libevent.writers h !! fileno) as [[e2 cb2]|] eqn:Ew;
      [ assert (e2 <> e0) by (intros ->; now apply (Hw0 cb2));
        split; [destruct (decide (e2 = Libevent.next_event h)) as [->|];
                [apply lookup_delete_eq | rewrite lookup_delete_ne by congruence;
                                          apply lookup_delete_eq]|];
        rewrite !lookup_delete_ne by (congruence || lia);
        rewrite lookup_insert_ne by lia; exact Ha
      | split; [apply lookup_delete_eq|];
        rewrite lookup_delete_ne by lia; rewrite lookup_insert_ne by lia; exact Ha ]. }
  destruct Hgoal as (G1 & G2 & G3 & G4 & G5).
  split; [exact G1|]. split; [exact G2|]. split; [exact G3|]. split; [exact G4|].
  split; [exact G5|].
  intros (Hr2 & _). apply Hr2 in G5. congruence.
Qed.

Lemma X25_libevent_second_reader_leaks_the_first_witness :
  let h1 := (Libevent.add_descriptor 4 (PyObject 71) PyNone PyNone Libevent.reading_4).1 in
  let h2 := Libevent.remove_descriptor 4 h1 in
  Libevent.readers h2 !! 4%Z = None /\
  Libevent.added h2 !! 1%nat = Some (Libevent.EvRead 4 (PyObject 70)).
Proof.
  destruct (X25_libevent_second_reader_leaks_the_first 4 (PyObject 71) PyNone PyNone
              Libevent.reading_4 1 (PyObject 70) reading_4_consistent eq_refl eq_refl)
    as (_ & _ & G3 & _ & G5 & _).
  split; [exact G3 | exact G5].
Defined.

(** X26.  [wait] of the libevent hub raises nothing but
    [KeyboardInterrupt].  It raises it exactly when the hub is interrupted
    once [event.dispatch()] is over (SIGINT was received) or the dispatch
    raised an exception of the system set, [SystemExit] included; any other
    exception of the dispatch is given to [squelch_exception] and the call
    returns.  In every case the flag [interrupted] is cleared and the timeout
    event of the call is deleted, whatever the dispatch did to the rest. *)
Theorem X26_libevent_wait_raises_only_keyboard_interrupt
  (dispatch : Libevent.Hub -> Libevent.Hub * result unit) (seconds : pyobj)
  (h : Libevent.Hub) :
  let d := dispatch (Libevent.add_timeout seconds h) in
  let r := Libevent.wait dispatch seconds h in
  Libevent.added (Libevent.add_timeout seconds h) !! Libevent.next_event h
  = Some (Libevent.EvTimeout seconds) /\
  Libevent.interrupted r.1 = false /\
  Libevent.added r.1 = delete (Libevent.next_event h) (Libevent.added d.1) /\
  Libevent.readers r.1 = Libevent.readers d.1 /\
  Libevent.writers r.1 = Libevent.writers d.1 /\
  (r.2 = Raise Libevent.KeyboardInterrupt <->
     Libevent.interrupted d.1 = true \/
     exists x, d.2 = Raise x /\ Libevent.SYSTEM_EXCEPTIONS x = true) /\
  (r.2 = Return tt <->
     Libevent.interrupted d.1 = false /\
     forall x, d.2 = Raise x -> Libevent.SYSTEM_EXCEPTIONS x = false) /\
  (forall x, d.2 = Raise x -> Libevent.SYSTEM_EXCEPTIONS x = false ->
     Libevent.squelched r.1 = Libevent.squelched d.1 ++ [x]).
Proof.
  cbv zeta. unfold Libevent.wait.
  split; [apply lookup_insert_eq|].
  destruct (dispatch (Libevent.add_timeout seconds h)) as [h2 [[]|x]]; cbn [fst snd].
  - destruct (Libevent.interrupted h2) eqn:Ei; cbn; rewrite ?Ei.
    + repeat (split; [reflexivity|]). split; [|split].
      * split; [now left | reflexivity].
      * split; [discriminate | intros [? _]; discriminate].
      * intros x H. discriminate H.
    + repeat (split; [reflexivity|]). split; [|split].
      * split; [discriminate|]. intros [H | (x & H & _)]; discriminate H.
      * split; [|reflexivity]. intros _. split; [reflexivity|]. intros x H. discriminate H.
      * intros x H. discriminate H.
  - destruct (Libevent.SYSTEM_EXCEPTIONS x) eqn:Es; cbn.
    + repeat (split; [reflexivity|]). split; [|split].
      * split; [|reflexivity]. intros _. right. exists x. now split.
      * split; [discriminate|]. intros [_ H]. specialize (H x eq_refl). congruence.
      * intros x' [= <-] H. congruence.
    + destruct (Libevent.interrupted h2) eqn:Ei; cbn; rewrite ?Ei.
      * repeat (split; [reflexivity|]). split; [|split].
        -- split; [now left | reflexivity].
        -- split; [discriminate | intros [? _]; discriminate].
        -- intros x' [= <-] _. reflexivity.
      * repeat (split; [reflexivity|]). split; [|split].
        -- split; [discriminate|]. intros [H | (x' & [= <-] & H)]; congruence.
        -- split; [|reflexivity]. intros _. split; [reflexivity|].
           intros x' [= <-]. exact Es.
        -- intros x' [= <-] _. reflexivity.
Qed.
